(** * Ladybug: EPW weather files, data types and legends

    A shallow embedding of [ladybug/datatype/base.py], [ladybug/legend.py],
    [ladybug/graphic.py] and [ladybug/epw.py], and the properties of the
    specification that are settled on it.

    Conventions of the embedding:
    - a Python function that can raise returns a [result]; a method that
      mutates [self] is a state transformer that also returns the object
      as it is left when the exception escapes;
    - Python numbers are [num]: an [int] is a [Z], a [float] is idealised
      as the rational it denotes; where a result depends on the rounding
      of floats (the numbers of a legend) the code is also embedded in
      binary64 arithmetic ([binary64], [legend_binary64]);
    - a [dict] is a [gmap]; objects that are shared by reference live in
      an explicit store. *)

From Stdlib Require Import ZArith QArith Qabs String Ascii List Lia.
From Stdlib Require Import DecimalString SpecFloat.
From stdpp Require Import base option gmap strings list sorting.

Local Open Scope Z_scope.
Local Open Scope string_scope.
Local Open Scope list_scope.

(** ** Python exceptions and results *)

Module Py.

(** The built-in exception classes that the modelled code raises or
    catches. *)
Inductive exn : Set :=
| Exception
| TypeError
| ZeroDivisionError
| OverflowError
| LookupError
| IndexError
| KeyError
| ValueError
| AssertionError
| OSError.

Definition exn_eqb (a b : exn) : bool :=
  match a, b with
  | Exception, Exception | LookupError, LookupError
  | TypeError, TypeError | ZeroDivisionError, ZeroDivisionError
  | OverflowError, OverflowError
  | IndexError, IndexError | KeyError, KeyError
  | ValueError, ValueError | AssertionError, AssertionError
  | OSError, OSError => true
  | _, _ => false
  end.

(** Direct base class in the built-in hierarchy. *)
Definition base_class (e : exn) : option exn :=
  match e with
  | Exception => None
  | IndexError | KeyError => Some LookupError
  | LookupError | ValueError | AssertionError | OSError
  | TypeError | ZeroDivisionError | OverflowError => Some Exception
  end.

(** [issubclass e h]: a raised [e] is caught by [except h]. The hierarchy
    has depth two below [Exception]. *)
Definition issubclass (e h : exn) : bool :=
  exn_eqb e h ||
  match base_class e with
  | None => false
  | Some b =>
      exn_eqb b h ||
      match base_class b with
      | None => false
      | Some b' => exn_eqb b' h
      end
  end.

Inductive result (A : Type) : Type :=
| Ok (a : A)
| Raise (e : exn).
Arguments Ok {A} a.
Arguments Raise {A} e.

Definition bind {A B} (r : result A) (k : A -> result B) : result B :=
  match r with
  | Ok a => k a
  | Raise e => Raise e
  end.

(** A list comprehension whose item expression can raise. *)
Fixpoint traverse {A B} (f : A -> result B) (items : list A)
  : result (list B) :=
  match items with
  | [] => Ok []
  | x :: rest =>
      bind (f x) (fun b => bind (traverse f rest) (fun bs => Ok (b :: bs)))
  end.

Definition is_ok {A} (r : result A) : bool :=
  match r with Ok _ => true | Raise _ => false end.

(** Python numbers. *)
Inductive num : Set :=
| Int (z : Z)
| Float (q : Q).

Definition to_Q (x : num) : Q :=
  match x with
  | Int z => inject_Z z
  | Float q => q
  end.

Definition is_int (x : num) : bool :=
  match x with Int _ => true | Float _ => false end.

(** Comparisons between numbers, as Python compares an int with a float. *)
Definition num_leb (a b : num) : bool := Qle_bool (to_Q a) (to_Q b).
Definition num_ltb (a b : num) : bool := negb (Qle_bool (to_Q b) (to_Q a)).
Definition num_eqb (a b : num) : bool := Qeq_bool (to_Q a) (to_Q b).

End Py.

Import Py.

Declare Scope py_scope.
Delimit Scope py_scope with py.
Notation "x <- c1 ;; c2" := (Py.bind c1 (fun x => c2))
  (at level 60, c1 at next level, right associativity) : py_scope.
Local Open Scope py_scope.

(** ** ASCII string helpers ([str.title], [str.replace], [re.sub]) *)

Module Str.

Definition code (c : ascii) : N := N_of_ascii c.

Definition is_upper (c : ascii) : bool :=
  (65 <=? code c)%N && (code c <=? 90)%N.
Definition is_lower (c : ascii) : bool :=
  (97 <=? code c)%N && (code c <=? 122)%N.
Definition is_digit (c : ascii) : bool :=
  (48 <=? code c)%N && (code c <=? 57)%N.
Definition is_alpha (c : ascii) : bool := is_upper c || is_lower c.

(** [\w] on ASCII text. *)
Definition is_word (c : ascii) : bool :=
  is_alpha c || is_digit c || (code c =? 95)%N.

Definition upper (c : ascii) : ascii :=
  if is_lower c then ascii_of_N (code c - 32) else c.
Definition lower (c : ascii) : ascii :=
  if is_upper c then ascii_of_N (code c + 32) else c.

(** [s.title()]: the first letter of every run of letters is upper-cased,
    the other letters of the run are lower-cased. *)
Fixpoint title_from (prev_cased : bool) (s : string) : string :=
  match s with
  | EmptyString => EmptyString
  | String c r =>
      if is_alpha c
      then String (if prev_cased then lower c else upper c) (title_from true r)
      else String c (title_from false r)
  end.
Definition title (s : string) : string := title_from false s.

(** [s.replace(' ', '')]. *)
Fixpoint remove_spaces (s : string) : string :=
  match s with
  | EmptyString => EmptyString
  | String c r =>
      if (code c =? 32)%N then remove_spaces r else String c (remove_spaces r)
  end.

(** [re.sub(r"(?<=\w)([A-Z])", r" \1", s)]: a space goes before every
    capital that follows a word character of the original text. *)
Fixpoint space_capitals_from (prev : option ascii) (s : string) : string :=
  match s with
  | EmptyString => EmptyString
  | String c r =>
      let rest := String c (space_capitals_from (Some c) r) in
      match prev with
      | Some p => if is_word p && is_upper c then String " " rest else rest
      | None => rest
      end
  end.
Definition space_capitals (s : string) : string := space_capitals_from None s.

(** [s.replace(old, new)] for a text [old] of one character. *)
Fixpoint replace_char (old : ascii) (new : string) (s : string) : string :=
  match s with
  | EmptyString => EmptyString
  | String c r =>
      if Ascii.eqb c old then (new ++ replace_char old new r)%string
      else String c (replace_char old new r)
  end.

(** A character occurs in a text. *)
Fixpoint occurs (c : ascii) (s : string) : bool :=
  match s with
  | EmptyString => false
  | String c' r => Ascii.eqb c' c || occurs c r
  end.

(** A class name in the style of the package: no space, and no lower-case
    letter but after a letter. *)
Fixpoint well_cased_from (after_letter : bool) (s : string) : bool :=
  match s with
  | EmptyString => true
  | String c r =>
      negb (Str.code c =? 32)%N
      && (negb (Str.is_lower c) || after_letter)
      && well_cased_from (Str.is_alpha c) r
  end.

Definition well_cased (s : string) : bool := well_cased_from false s.

End Str.

(** ** [ladybug/datatype/base.py] *)

Module DataType.

(** Bounds of a data type: [float('-inf')], [float('+inf')] or a number. *)
Inductive bound : Type :=
| NegInf
| Finite (q : Q)
| PosInf.

(** A class derived from [DataTypeBase]: its name and class attributes.
    The concrete classes live in the sibling modules of the package. *)
Record DataTypeClass : Type := {
  __name__ : string;
  _units : list string;
  _min : bound;
  _max : bound;
  _abbreviation : string;
  _unit_descr : option (gmap Z string);
  _point_in_time : bool;
  _cumulative : bool
}.

(** The class attributes of [DataTypeBase] itself, where [_units] is
    [[None]]: no unit symbol is declared. *)
Definition DataTypeBase_defaults (nm : string) (units : list string)
  : DataTypeClass :=
  {| __name__ := nm; _units := units; _min := NegInf; _max := PosInf;
     _abbreviation := ""; _unit_descr := None;
     _point_in_time := true; _cumulative := false |}.

(** Modelled from the spec: [generic.GenericType], whose module is not part
    of the sources; it is built by the user from a name and a single base
    unit, keeps the bounds and flags that [DataTypeBase] declares and has
    no conversion. *)
Record GenericType : Type := {
  generic_name : string;
  generic_unit : string
}.

(** An instance: a class with the [_name] given to [__init__], or a
    [GenericType]. *)
Inductive t : Type :=
| Instance (cls : DataTypeClass) (_name : option string)
| Generic (g : GenericType).

Definition class_name (d : t) : string :=
  match d with
  | Instance c _ => __name__ c
  | Generic _ => "GenericType"
  end.

(** Property [name]. *)
Definition name (d : t) : string :=
  match d with
  | Instance c None => Str.space_capitals (__name__ c)
  | Instance c (Some n) => n
  | Generic g => generic_name g
  end.

Definition units (d : t) : list string :=
  match d with
  | Instance c _ => _units c
  | Generic g => [generic_unit g]
  end.

Definition min (d : t) : bound :=
  match d with Instance c _ => _min c | Generic _ => NegInf end.

Definition max (d : t) : bound :=
  match d with Instance c _ => _max c | Generic _ => PosInf end.

Definition unit_descr (d : t) : option (gmap Z string) :=
  match d with Instance c _ => _unit_descr c | Generic _ => None end.

Definition point_in_time (d : t) : bool :=
  match d with Instance c _ => _point_in_time c | Generic _ => true end.

(** [is_unit_acceptable(unit, raise_exception=True)]. *)
Definition is_unit_acceptable (d : t) (unit : string) (raise_exception : bool)
  : result bool :=
  let _is_acceptable := existsb (String.eqb unit) (units d) in
  if _is_acceptable || negb raise_exception
  then Ok _is_acceptable
  else Raise ValueError.

(** [to_dict]; [self.units[0]] raises when no unit is declared. *)
Definition to_dict (d : t) : result (gmap string string) :=
  base_unit <- match units d with
               | [] => Raise IndexError
               | u :: _ => Ok u
               end ;;
  Ok (<["name" := name d]>
      (<["data_type" := class_name d]>
       (<["base_unit" := base_unit]>
        (<["type" := "DataTypeBase"]> ∅)))).

(** The classes derived from [DataTypeBase], as a forest. *)
#[warnings="-register-all"]
Inductive ClassTree : Type :=
| Node (clss : DataTypeClass) (subclasses : list ClassTree).

Definition root (n : ClassTree) : DataTypeClass :=
  match n with Node c _ => c end.

(** [_all_subclasses(clss)], here for the node of [clss]. *)
Fixpoint _all_subclasses (n : ClassTree) : list DataTypeClass :=
  match n with
  | Node _ subs => flat_map (fun s => root s :: _all_subclasses s) subs
  end.

Definition register (types : gmap string DataTypeClass) (c : DataTypeClass)
  : gmap string DataTypeClass :=
  <[__name__ c := c]> types.

(** The classes that [_DataTypeEnumeration.__init__] visits, in order:
    every direct subclass other than [GenericType], each followed by all
    of its descendants. *)
Definition visited (subclasses : list ClassTree) : list DataTypeClass :=
  flat_map (fun n =>
    if String.eqb (__name__ (root n)) "GenericType" then []
    else root n :: _all_subclasses n) subclasses.

(** [_DataTypeEnumeration(import_modules=False)._TYPES]. *)
Definition _TYPES (subclasses : list ClassTree) : gmap string DataTypeClass :=
  fold_left register (visited subclasses) ∅.

(** [DataTypeBase.from_dict(data)]. *)
Definition from_dict (subclasses : list ClassTree) (data : gmap string string)
  : result t :=
  match data !! "name" with
  | None => Raise AssertionError
  | Some nm =>
    match data !! "data_type" with
    | None => Raise AssertionError
    | Some data_type =>
      if String.eqb data_type "GenericType" then
        match data !! "base_unit" with
        | None => Raise AssertionError
        | Some base_unit =>
            Ok (Generic {| generic_name := nm; generic_unit := base_unit |})
        end
      else
        match _TYPES subclasses !! data_type with
        | Some clss =>
            if String.eqb data_type (Str.remove_spaces (Str.title nm))
            then Ok (Instance clss None)
            else Ok (Instance clss (Some nm))
        | None => Raise ValueError
        end
    end
  end.

(** [_clean(unit)]. *)
Definition _clean (unit : string) : string :=
  Str.replace_char "%" "pct"
    (Str.replace_char " " ""
       (Str.replace_char "-" "" (Str.replace_char "/" "_" unit))).

(** [value < minimum] and [value > maximum] for a bound. *)
Definition below (v : num) (b : bound) : bool :=
  match b with
  | NegInf => false
  | Finite q => negb (Qle_bool q (to_Q v))
  | PosInf => true
  end.

Definition above (v : num) (b : bound) : bool :=
  match b with
  | NegInf => true
  | Finite q => negb (Qle_bool (to_Q v) q)
  | PosInf => false
  end.

(** The loop of [is_in_range] over the values. *)
Fixpoint check_range (values : list num) (minimum maximum : bound)
    (raise_exception : bool) : result bool :=
  match values with
  | [] => Ok true
  | value :: rest =>
      if below value minimum || above value maximum
      then if negb raise_exception then Ok false else Raise ValueError
      else check_range rest minimum maximum raise_exception
  end.

Section Range.

(** [eval("self._{a}_to_{b}(x)")]: the conversion method of the class of
    the data type that has this name; the classes that define such
    methods are outside the sources. *)
Variable conversion : t -> string -> string -> bound -> result bound.

(** [is_in_range(values, unit, raise_exception)]; the values are numbers
    by typing, which is what [_is_numeric] asserts of the first one. *)
Definition is_in_range (d : t) (values : list num) (unit : option string)
    (raise_exception : bool) : result bool :=
  bounds <-
    match unit with
    | None => Ok (min d, max d)
    | Some u =>
        base <- match units d with
                | [] => Raise IndexError
                | u0 :: _ => Ok u0
                end ;;
        if String.eqb u base then Ok (min d, max d)
        else
          _ok <- is_unit_acceptable d u true ;;
          minimum <- conversion d (_clean base) (_clean u) (min d) ;;
          maximum <- conversion d (_clean base) (_clean u) (max d) ;;
          Ok (minimum, maximum)
    end ;;
  check_range values (fst bounds) (snd bounds) raise_exception.

End Range.

(** A number is at least a lower bound, at most an upper bound. *)
Definition at_least (b : bound) (v : num) : Prop :=
  match b with
  | NegInf => True
  | Finite q => (q <= to_Q v)%Q
  | PosInf => False
  end.

Definition at_most (b : bound) (v : num) : Prop :=
  match b with
  | NegInf => False
  | Finite q => (to_Q v <= q)%Q
  | PosInf => True
  end.


End DataType.

(** ** State transformers that can raise *)

Module St.

Definition t (S A : Type) : Type := S -> result A * S.

Definition ret {S A} (a : A) : t S A := fun s => (Ok a, s).

Definition bind {S A B} (m : t S A) (k : A -> t S B) : t S B :=
  fun s =>
    match m s with
    | (Ok a, s') => k a s'
    | (Raise e, s') => (Raise e, s')
    end.

Definition get {S} : t S S := fun s => (Ok s, s).

Definition modify {S} (f : S -> S) : t S unit := fun s => (Ok tt, f s).

Definition raise {S A} (e : exn) : t S A := fun s => (Raise e, s).

Definition lift {S A} (r : result A) : t S A := fun s => (r, s).

(** The [assert] statement. *)
Definition assert_ {S} (b : bool) : t S unit :=
  fun s => (if b then Ok tt else Raise AssertionError, s).

(** [try: body except handled: handler]: the handler runs on the state
    the body left when the body raises an instance of [handled]. *)
Definition try_except {S A} (body : t S A) (handled : exn) (handler : t S A)
  : t S A :=
  fun s =>
    match body s with
    | (Ok a, s') => (Ok a, s')
    | (Raise e, s') =>
        if issubclass e handled then handler s' else (Raise e, s')
    end.

(** [try: body finally: final]: [final] always runs, and an exception it
    raises replaces the outcome of [body]. *)
Definition try_finally {S A} (body : t S A) (final : t S unit) : t S A :=
  fun s =>
    match body s with
    | (r, s') =>
        match final s' with
        | (Ok _, s'') => (r, s'')
        | (Raise e, s'') => (Raise e, s'')
        end
    end.

(** [try: body except handled: handler else: orelse]. *)
Definition try_except_else {S A B} (body : t S A) (handled : exn)
    (handler : t S B) (orelse : A -> t S B) : t S B :=
  fun s =>
    match body s with
    | (Ok a, s') => orelse a s'
    | (Raise e, s') =>
        if issubclass e handled then handler s' else (Raise e, s')
    end.

(** [for x in items: body]. *)
Fixpoint for_each {S A} (items : list A) (body : A -> t S unit) : t S unit :=
  match items with
  | [] => ret tt
  | x :: rest => bind (body x) (fun _ => for_each rest body)
  end.

(** The object a constructor returns: the state its body leaves, unless
    the body raises. *)
Definition built {S A} (m : t S A) (blank : S) : result S :=
  match m blank with
  | (Ok _, s) => Ok s
  | (Raise e, _) => Raise e
  end.

(** A statement keeps a view of the state: whatever its outcome, the view
    of the state it leaves is the view of the state it started from. *)
Definition keeps {S V A} (view : S -> V) (m : St.t S A) : Prop :=
  forall s r s', m s = (r, s') -> view s' = view s.

End St.

Notation "x <~ c1 ;; c2" := (St.bind c1 (fun x => c2))
  (at level 60, c1 at next level, right associativity) : py_scope.
Notation "'exec' c1 ;; c2" := (St.bind c1 (fun _ => c2))
  (at level 60, c1 at next level, right associativity) : py_scope.

(** ** Values of the geometry and colour libraries *)

Record Color : Type := { R : Z; G : Z; B : Z }.

Record Point3D : Type := { x : Q; y : Q; z : Q }.

Record Plane : Type := { n : Point3D; o : Point3D }.

(** [Plane(o=pt)]: the normal defaults to the world Z axis. *)
Definition Plane_at (pt : Point3D) : Plane :=
  {| n := {| x := 0; y := 0; z := 1 |}; o := pt |}.

(** The colour library: [Colorset.original()] is defined outside the
    sources. *)
Class Colorset : Type := { original : list Color }.

(** ** Arithmetic and text of Python numbers *)

Module Num.

Definition add (a b : num) : num :=
  match a, b with
  | Int u, Int v => Int (u + v)
  | _, _ => Float (to_Q a + to_Q b)
  end.

Definition sub (a b : num) : num :=
  match a, b with
  | Int u, Int v => Int (u - v)
  | _, _ => Float (to_Q a - to_Q b)
  end.

Definition mul (a b : num) : num :=
  match a, b with
  | Int u, Int v => Int (u * v)
  | _, _ => Float (to_Q a * to_Q b)
  end.

(** True division ([from __future__ import division]). *)
Definition div (a b : num) : result num :=
  if Qeq_bool (to_Q b) 0 then Raise ZeroDivisionError
  else Ok (Float (to_Q a / to_Q b)).

(** [int(x)]: truncation towards zero. *)
Definition int (a : num) : Z :=
  match a with
  | Int u => u
  | Float q => Z.quot (Qnum q) (Z.pos (Qden q))
  end.

(** [str(z)] for an int. *)
Definition str_int (u : Z) : string := NilZero.string_of_int (Z.to_int u).

(** [min(values)] and [max(values)]: the first smallest or largest item. *)
Definition min (values : list num) : result num :=
  match values with
  | [] => Raise ValueError
  | v :: rest =>
      Ok (fold_left (fun cur v' => if num_ltb v' cur then v' else cur) rest v)
  end.

Definition max (values : list num) : result num :=
  match values with
  | [] => Raise ValueError
  | v :: rest =>
      Ok (fold_left (fun cur v' => if num_ltb cur v' then v' else cur) rest v)
  end.

(** Rounding of a non-negative rational to the nearest integer, ties to
    even. *)
Definition round_half_even (q : Q) : Z :=
  let d := Z.pos (Qden q) in
  let fl := Qnum q / d in
  let r2 := 2 * (Qnum q mod d) in
  if (r2 <? d)%Z then fl
  else if (d <? r2)%Z then fl + 1
  else if Z.even fl then fl else fl + 1.

Fixpoint zeros (k : nat) : string :=
  match k with
  | O => ""
  | S k' => String "0" (zeros k')
  end.

(** ['%.<d>f' % x]. *)
Definition format_fixed (d : nat) (a : num) : string :=
  let q := to_Q a in
  let neg := negb (Qle_bool 0 q) in
  let scale := 10 ^ Z.of_nat d in
  let m := round_half_even (Qabs q * inject_Z scale) in
  let ip := str_int (m / scale) in
  let fp := str_int (m mod scale) in
  ((if neg then "-" else "") ++ ip ++
   (match d with
    | O => ""
    | S _ => "." ++ zeros (d - String.length fp) ++ fp
    end))%string.

End Num.

(** ** [ladybug/legend.py] *)

Module legend.

Section WithDictionary.

(** [D] is what an [ordinal_dictionary] attribute holds: the dictionary
    itself where sharing plays no part, its address in a store of
    dictionaries where it does. *)
Context {D : Type}.
Context `{Colorset}.

Record LegendParameters : Type := {
  _min : option num;
  _max : option num;
  _segment_count : Z;
  _is_segment_count_default : bool;
  _colors : list Color;
  _title : string;
  _is_title_default : bool;
  _base_plane : Plane;
  _is_base_plane_default : bool;
  _continuous_colors : bool;
  _continuous_legend : bool;
  _ordinal_dictionary : option D;
  _decimal_count : Z;
  _include_larger_smaller : bool;
  _vertical : bool;
  _segment_height : num;
  _is_segment_height_default : bool;
  _segment_width : num;
  _is_segment_width_default : bool;
  _text_height : option num;
  _is_text_height_default : bool;
  _font : string
}.

(** Assignment to one attribute. *)
Definition assign_min (v : option num) (self : LegendParameters)
  : LegendParameters :=
  {| _min := v; _max := _max self; _segment_count := _segment_count self;
     _is_segment_count_default := _is_segment_count_default self; _colors :=
     _colors self; _title := _title self; _is_title_default :=
     _is_title_default self; _base_plane := _base_plane self;
     _is_base_plane_default := _is_base_plane_default self;
     _continuous_colors := _continuous_colors self; _continuous_legend :=
     _continuous_legend self; _ordinal_dictionary := _ordinal_dictionary
     self; _decimal_count := _decimal_count self; _include_larger_smaller :=
     _include_larger_smaller self; _vertical := _vertical self;
     _segment_height := _segment_height self; _is_segment_height_default :=
     _is_segment_height_default self; _segment_width := _segment_width self;
     _is_segment_width_default := _is_segment_width_default self;
     _text_height := _text_height self; _is_text_height_default :=
     _is_text_height_default self; _font := _font self |}.

Definition assign_max (v : option num) (self : LegendParameters)
  : LegendParameters :=
  {| _min := _min self; _max := v; _segment_count := _segment_count self;
     _is_segment_count_default := _is_segment_count_default self; _colors :=
     _colors self; _title := _title self; _is_title_default :=
     _is_title_default self; _base_plane := _base_plane self;
     _is_base_plane_default := _is_base_plane_default self;
     _continuous_colors := _continuous_colors self; _continuous_legend :=
     _continuous_legend self; _ordinal_dictionary := _ordinal_dictionary
     self; _decimal_count := _decimal_count self; _include_larger_smaller :=
     _include_larger_smaller self; _vertical := _vertical self;
     _segment_height := _segment_height self; _is_segment_height_default :=
     _is_segment_height_default self; _segment_width := _segment_width self;
     _is_segment_width_default := _is_segment_width_default self;
     _text_height := _text_height self; _is_text_height_default :=
     _is_text_height_default self; _font := _font self |}.

Definition assign_segment_count (v : Z) (self : LegendParameters)
  : LegendParameters :=
  {| _min := _min self; _max := _max self; _segment_count := v;
     _is_segment_count_default := _is_segment_count_default self; _colors :=
     _colors self; _title := _title self; _is_title_default :=
     _is_title_default self; _base_plane := _base_plane self;
     _is_base_plane_default := _is_base_plane_default self;
     _continuous_colors := _continuous_colors self; _continuous_legend :=
     _continuous_legend self; _ordinal_dictionary := _ordinal_dictionary
     self; _decimal_count := _decimal_count self; _include_larger_smaller :=
     _include_larger_smaller self; _vertical := _vertical self;
     _segment_height := _segment_height self; _is_segment_height_default :=
     _is_segment_height_default self; _segment_width := _segment_width self;
     _is_segment_width_default := _is_segment_width_default self;
     _text_height := _text_height self; _is_text_height_default :=
     _is_text_height_default self; _font := _font self |}.

Definition assign_is_segment_count_default (v : bool) (self : LegendParameters)
  : LegendParameters :=
  {| _min := _min self; _max := _max self; _segment_count := _segment_count
     self; _is_segment_count_default := v; _colors := _colors self; _title
     := _title self; _is_title_default := _is_title_default self;
     _base_plane := _base_plane self; _is_base_plane_default :=
     _is_base_plane_default self; _continuous_colors := _continuous_colors
     self; _continuous_legend := _continuous_legend self;
     _ordinal_dictionary := _ordinal_dictionary self; _decimal_count :=
     _decimal_count self; _include_larger_smaller := _include_larger_smaller
     self; _vertical := _vertical self; _segment_height := _segment_height
     self; _is_segment_height_default := _is_segment_height_default self;
     _segment_width := _segment_width self; _is_segment_width_default :=
     _is_segment_width_default self; _text_height := _text_height self;
     _is_text_height_default := _is_text_height_default self; _font := _font
     self |}.

Definition assign_colors (v : list Color) (self : LegendParameters)
  : LegendParameters :=
  {| _min := _min self; _max := _max self; _segment_count := _segment_count
     self; _is_segment_count_default := _is_segment_count_default self;
     _colors := v; _title := _title self; _is_title_default :=
     _is_title_default self; _base_plane := _base_plane self;
     _is_base_plane_default := _is_base_plane_default self;
     _continuous_colors := _continuous_colors self; _continuous_legend :=
     _continuous_legend self; _ordinal_dictionary := _ordinal_dictionary
     self; _decimal_count := _decimal_count self; _include_larger_smaller :=
     _include_larger_smaller self; _vertical := _vertical self;
     _segment_height := _segment_height self; _is_segment_height_default :=
     _is_segment_height_default self; _segment_width := _segment_width self;
     _is_segment_width_default := _is_segment_width_default self;
     _text_height := _text_height self; _is_text_height_default :=
     _is_text_height_default self; _font := _font self |}.

Definition assign_title (v : string) (self : LegendParameters)
  : LegendParameters :=
  {| _min := _min self; _max := _max self; _segment_count := _segment_count
     self; _is_segment_count_default := _is_segment_count_default self;
     _colors := _colors self; _title := v; _is_title_default :=
     _is_title_default self; _base_plane := _base_plane self;
     _is_base_plane_default := _is_base_plane_default self;
     _continuous_colors := _continuous_colors self; _continuous_legend :=
     _continuous_legend self; _ordinal_dictionary := _ordinal_dictionary
     self; _decimal_count := _decimal_count self; _include_larger_smaller :=
     _include_larger_smaller self; _vertical := _vertical self;
     _segment_height := _segment_height self; _is_segment_height_default :=
     _is_segment_height_default self; _segment_width := _segment_width self;
     _is_segment_width_default := _is_segment_width_default self;
     _text_height := _text_height self; _is_text_height_default :=
     _is_text_height_default self; _font := _font self |}.

Definition assign_is_title_default (v : bool) (self : LegendParameters)
  : LegendParameters :=
  {| _min := _min self; _max := _max self; _segment_count := _segment_count
     self; _is_segment_count_default := _is_segment_count_default self;
     _colors := _colors self; _title := _title self; _is_title_default := v;
     _base_plane := _base_plane self; _is_base_plane_default :=
     _is_base_plane_default self; _continuous_colors := _continuous_colors
     self; _continuous_legend := _continuous_legend self;
     _ordinal_dictionary := _ordinal_dictionary self; _decimal_count :=
     _decimal_count self; _include_larger_smaller := _include_larger_smaller
     self; _vertical := _vertical self; _segment_height := _segment_height
     self; _is_segment_height_default := _is_segment_height_default self;
     _segment_width := _segment_width self; _is_segment_width_default :=
     _is_segment_width_default self; _text_height := _text_height self;
     _is_text_height_default := _is_text_height_default self; _font := _font
     self |}.

Definition assign_base_plane (v : Plane) (self : LegendParameters)
  : LegendParameters :=
  {| _min := _min self; _max := _max self; _segment_count := _segment_count
     self; _is_segment_count_default := _is_segment_count_default self;
     _colors := _colors self; _title := _title self; _is_title_default :=
     _is_title_default self; _base_plane := v; _is_base_plane_default :=
     _is_base_plane_default self; _continuous_colors := _continuous_colors
     self; _continuous_legend := _continuous_legend self;
     _ordinal_dictionary := _ordinal_dictionary self; _decimal_count :=
     _decimal_count self; _include_larger_smaller := _include_larger_smaller
     self; _vertical := _vertical self; _segment_height := _segment_height
     self; _is_segment_height_default := _is_segment_height_default self;
     _segment_width := _segment_width self; _is_segment_width_default :=
     _is_segment_width_default self; _text_height := _text_height self;
     _is_text_height_default := _is_text_height_default self; _font := _font
     self |}.

Definition assign_is_base_plane_default (v : bool) (self : LegendParameters)
  : LegendParameters :=
  {| _min := _min self; _max := _max self; _segment_count := _segment_count
     self; _is_segment_count_default := _is_segment_count_default self;
     _colors := _colors self; _title := _title self; _is_title_default :=
     _is_title_default self; _base_plane := _base_plane self;
     _is_base_plane_default := v; _continuous_colors := _continuous_colors
     self; _continuous_legend := _continuous_legend self;
     _ordinal_dictionary := _ordinal_dictionary self; _decimal_count :=
     _decimal_count self; _include_larger_smaller := _include_larger_smaller
     self; _vertical := _vertical self; _segment_height := _segment_height
     self; _is_segment_height_default := _is_segment_height_default self;
     _segment_width := _segment_width self; _is_segment_width_default :=
     _is_segment_width_default self; _text_height := _text_height self;
     _is_text_height_default := _is_text_height_default self; _font := _font
     self |}.

Definition assign_continuous_colors (v : bool) (self : LegendParameters)
  : LegendParameters :=
  {| _min := _min self; _max := _max self; _segment_count := _segment_count
     self; _is_segment_count_default := _is_segment_count_default self;
     _colors := _colors self; _title := _title self; _is_title_default :=
     _is_title_default self; _base_plane := _base_plane self;
     _is_base_plane_default := _is_base_plane_default self;
     _continuous_colors := v; _continuous_legend := _continuous_legend self;
     _ordinal_dictionary := _ordinal_dictionary self; _decimal_count :=
     _decimal_count self; _include_larger_smaller := _include_larger_smaller
     self; _vertical := _vertical self; _segment_height := _segment_height
     self; _is_segment_height_default := _is_segment_height_default self;
     _segment_width := _segment_width self; _is_segment_width_default :=
     _is_segment_width_default self; _text_height := _text_height self;
     _is_text_height_default := _is_text_height_default self; _font := _font
     self |}.

Definition assign_continuous_legend (v : bool) (self : LegendParameters)
  : LegendParameters :=
  {| _min := _min self; _max := _max self; _segment_count := _segment_count
     self; _is_segment_count_default := _is_segment_count_default self;
     _colors := _colors self; _title := _title self; _is_title_default :=
     _is_title_default self; _base_plane := _base_plane self;
     _is_base_plane_default := _is_base_plane_default self;
     _continuous_colors := _continuous_colors self; _continuous_legend := v;
     _ordinal_dictionary := _ordinal_dictionary self; _decimal_count :=
     _decimal_count self; _include_larger_smaller := _include_larger_smaller
     self; _vertical := _vertical self; _segment_height := _segment_height
     self; _is_segment_height_default := _is_segment_height_default self;
     _segment_width := _segment_width self; _is_segment_width_default :=
     _is_segment_width_default self; _text_height := _text_height self;
     _is_text_height_default := _is_text_height_default self; _font := _font
     self |}.

Definition assign_ordinal_dictionary (v : option D) (self : LegendParameters)
  : LegendParameters :=
  {| _min := _min self; _max := _max self; _segment_count := _segment_count
     self; _is_segment_count_default := _is_segment_count_default self;
     _colors := _colors self; _title := _title self; _is_title_default :=
     _is_title_default self; _base_plane := _base_plane self;
     _is_base_plane_default := _is_base_plane_default self;
     _continuous_colors := _continuous_colors self; _continuous_legend :=
     _continuous_legend self; _ordinal_dictionary := v; _decimal_count :=
     _decimal_count self; _include_larger_smaller := _include_larger_smaller
     self; _vertical := _vertical self; _segment_height := _segment_height
     self; _is_segment_height_default := _is_segment_height_default self;
     _segment_width := _segment_width self; _is_segment_width_default :=
     _is_segment_width_default self; _text_height := _text_height self;
     _is_text_height_default := _is_text_height_default self; _font := _font
     self |}.

Definition assign_decimal_count (v : Z) (self : LegendParameters)
  : LegendParameters :=
  {| _min := _min self; _max := _max self; _segment_count := _segment_count
     self; _is_segment_count_default := _is_segment_count_default self;
     _colors := _colors self; _title := _title self; _is_title_default :=
     _is_title_default self; _base_plane := _base_plane self;
     _is_base_plane_default := _is_base_plane_default self;
     _continuous_colors := _continuous_colors self; _continuous_legend :=
     _continuous_legend self; _ordinal_dictionary := _ordinal_dictionary
     self; _decimal_count := v; _include_larger_smaller :=
     _include_larger_smaller self; _vertical := _vertical self;
     _segment_height := _segment_height self; _is_segment_height_default :=
     _is_segment_height_default self; _segment_width := _segment_width self;
     _is_segment_width_default := _is_segment_width_default self;
     _text_height := _text_height self; _is_text_height_default :=
     _is_text_height_default self; _font := _font self |}.

Definition assign_include_larger_smaller (v : bool) (self : LegendParameters)
  : LegendParameters :=
  {| _min := _min self; _max := _max self; _segment_count := _segment_count
     self; _is_segment_count_default := _is_segment_count_default self;
     _colors := _colors self; _title := _title self; _is_title_default :=
     _is_title_default self; _base_plane := _base_plane self;
     _is_base_plane_default := _is_base_plane_default self;
     _continuous_colors := _continuous_colors self; _continuous_legend :=
     _continuous_legend self; _ordinal_dictionary := _ordinal_dictionary
     self; _decimal_count := _decimal_count self; _include_larger_smaller :=
     v; _vertical := _vertical self; _segment_height := _segment_height
     self; _is_segment_height_default := _is_segment_height_default self;
     _segment_width := _segment_width self; _is_segment_width_default :=
     _is_segment_width_default self; _text_height := _text_height self;
     _is_text_height_default := _is_text_height_default self; _font := _font
     self |}.

Definition assign_vertical (v : bool) (self : LegendParameters)
  : LegendParameters :=
  {| _min := _min self; _max := _max self; _segment_count := _segment_count
     self; _is_segment_count_default := _is_segment_count_default self;
     _colors := _colors self; _title := _title self; _is_title_default :=
     _is_title_default self; _base_plane := _base_plane self;
     _is_base_plane_default := _is_base_plane_default self;
     _continuous_colors := _continuous_colors self; _continuous_legend :=
     _continuous_legend self; _ordinal_dictionary := _ordinal_dictionary
     self; _decimal_count := _decimal_count self; _include_larger_smaller :=
     _include_larger_smaller self; _vertical := v; _segment_height :=
     _segment_height self; _is_segment_height_default :=
     _is_segment_height_default self; _segment_width := _segment_width self;
     _is_segment_width_default := _is_segment_width_default self;
     _text_height := _text_height self; _is_text_height_default :=
     _is_text_height_default self; _font := _font self |}.

Definition assign_segment_height (v : num) (self : LegendParameters)
  : LegendParameters :=
  {| _min := _min self; _max := _max self; _segment_count := _segment_count
     self; _is_segment_count_default := _is_segment_count_default self;
     _colors := _colors self; _title := _title self; _is_title_default :=
     _is_title_default self; _base_plane := _base_plane self;
     _is_base_plane_default := _is_base_plane_default self;
     _continuous_colors := _continuous_colors self; _continuous_legend :=
     _continuous_legend self; _ordinal_dictionary := _ordinal_dictionary
     self; _decimal_count := _decimal_count self; _include_larger_smaller :=
     _include_larger_smaller self; _vertical := _vertical self;
     _segment_height := v; _is_segment_height_default :=
     _is_segment_height_default self; _segment_width := _segment_width self;
     _is_segment_width_default := _is_segment_width_default self;
     _text_height := _text_height self; _is_text_height_default :=
     _is_text_height_default self; _font := _font self |}.

Definition assign_is_segment_height_default (v : bool) (self : LegendParameters)
  : LegendParameters :=
  {| _min := _min self; _max := _max self; _segment_count := _segment_count
     self; _is_segment_count_default := _is_segment_count_default self;
     _colors := _colors self; _title := _title self; _is_title_default :=
     _is_title_default self; _base_plane := _base_plane self;
     _is_base_plane_default := _is_base_plane_default self;
     _continuous_colors := _continuous_colors self; _continuous_legend :=
     _continuous_legend self; _ordinal_dictionary := _ordinal_dictionary
     self; _decimal_count := _decimal_count self; _include_larger_smaller :=
     _include_larger_smaller self; _vertical := _vertical self;
     _segment_height := _segment_height self; _is_segment_height_default :=
     v; _segment_width := _segment_width self; _is_segment_width_default :=
     _is_segment_width_default self; _text_height := _text_height self;
     _is_text_height_default := _is_text_height_default self; _font := _font
     self |}.

Definition assign_segment_width (v : num) (self : LegendParameters)
  : LegendParameters :=
  {| _min := _min self; _max := _max self; _segment_count := _segment_count
     self; _is_segment_count_default := _is_segment_count_default self;
     _colors := _colors self; _title := _title self; _is_title_default :=
     _is_title_default self; _base_plane := _base_plane self;
     _is_base_plane_default := _is_base_plane_default self;
     _continuous_colors := _continuous_colors self; _continuous_legend :=
     _continuous_legend self; _ordinal_dictionary := _ordinal_dictionary
     self; _decimal_count := _decimal_count self; _include_larger_smaller :=
     _include_larger_smaller self; _vertical := _vertical self;
     _segment_height := _segment_height self; _is_segment_height_default :=
     _is_segment_height_default self; _segment_width := v;
     _is_segment_width_default := _is_segment_width_default self;
     _text_height := _text_height self; _is_text_height_default :=
     _is_text_height_default self; _font := _font self |}.

Definition assign_is_segment_width_default (v : bool) (self : LegendParameters)
  : LegendParameters :=
  {| _min := _min self; _max := _max self; _segment_count := _segment_count
     self; _is_segment_count_default := _is_segment_count_default self;
     _colors := _colors self; _title := _title self; _is_title_default :=
     _is_title_default self; _base_plane := _base_plane self;
     _is_base_plane_default := _is_base_plane_default self;
     _continuous_colors := _continuous_colors self; _continuous_legend :=
     _continuous_legend self; _ordinal_dictionary := _ordinal_dictionary
     self; _decimal_count := _decimal_count self; _include_larger_smaller :=
     _include_larger_smaller self; _vertical := _vertical self;
     _segment_height := _segment_height self; _is_segment_height_default :=
     _is_segment_height_default self; _segment_width := _segment_width self;
     _is_segment_width_default := v; _text_height := _text_height self;
     _is_text_height_default := _is_text_height_default self; _font := _font
     self |}.

Definition assign_text_height (v : option num) (self : LegendParameters)
  : LegendParameters :=
  {| _min := _min self; _max := _max self; _segment_count := _segment_count
     self; _is_segment_count_default := _is_segment_count_default self;
     _colors := _colors self; _title := _title self; _is_title_default :=
     _is_title_default self; _base_plane := _base_plane self;
     _is_base_plane_default := _is_base_plane_default self;
     _continuous_colors := _continuous_colors self; _continuous_legend :=
     _continuous_legend self; _ordinal_dictionary := _ordinal_dictionary
     self; _decimal_count := _decimal_count self; _include_larger_smaller :=
     _include_larger_smaller self; _vertical := _vertical self;
     _segment_height := _segment_height self; _is_segment_height_default :=
     _is_segment_height_default self; _segment_width := _segment_width self;
     _is_segment_width_default := _is_segment_width_default self;
     _text_height := v; _is_text_height_default := _is_text_height_default
     self; _font := _font self |}.

Definition assign_is_text_height_default (v : bool) (self : LegendParameters)
  : LegendParameters :=
  {| _min := _min self; _max := _max self; _segment_count := _segment_count
     self; _is_segment_count_default := _is_segment_count_default self;
     _colors := _colors self; _title := _title self; _is_title_default :=
     _is_title_default self; _base_plane := _base_plane self;
     _is_base_plane_default := _is_base_plane_default self;
     _continuous_colors := _continuous_colors self; _continuous_legend :=
     _continuous_legend self; _ordinal_dictionary := _ordinal_dictionary
     self; _decimal_count := _decimal_count self; _include_larger_smaller :=
     _include_larger_smaller self; _vertical := _vertical self;
     _segment_height := _segment_height self; _is_segment_height_default :=
     _is_segment_height_default self; _segment_width := _segment_width self;
     _is_segment_width_default := _is_segment_width_default self;
     _text_height := _text_height self; _is_text_height_default := v; _font
     := _font self |}.

Definition assign_font (v : string) (self : LegendParameters)
  : LegendParameters :=
  {| _min := _min self; _max := _max self; _segment_count := _segment_count
     self; _is_segment_count_default := _is_segment_count_default self;
     _colors := _colors self; _title := _title self; _is_title_default :=
     _is_title_default self; _base_plane := _base_plane self;
     _is_base_plane_default := _is_base_plane_default self;
     _continuous_colors := _continuous_colors self; _continuous_legend :=
     _continuous_legend self; _ordinal_dictionary := _ordinal_dictionary
     self; _decimal_count := _decimal_count self; _include_larger_smaller :=
     _include_larger_smaller self; _vertical := _vertical self;
     _segment_height := _segment_height self; _is_segment_height_default :=
     _is_segment_height_default self; _segment_width := _segment_width self;
     _is_segment_width_default := _is_segment_width_default self;
     _text_height := _text_height self; _is_text_height_default :=
     _is_text_height_default self; _font := v |}.

Abbreviation LP := (St.t LegendParameters).

(** *** Property setters of [LegendParameters]

    An [isinstance] assertion on an argument whose Rocq type already is
    the asserted class is discharged by typing and left out. *)

Definition set_min (minimum : option num) : LP unit :=
  exec match minimum with
       | Some m =>
           self <~ St.get ;;
           match _max self with
           | Some mx => St.assert_ (num_leb m mx)
           | None => St.ret tt
           end
       | None => St.ret tt
       end ;;
  St.modify (assign_min minimum).

Definition set_max (maximum : option num) : LP unit :=
  exec match maximum with
       | Some m =>
           self <~ St.get ;;
           match _min self with
           | Some mn => St.assert_ (num_leb mn m)
           | None => St.ret tt
           end
       | None => St.ret tt
       end ;;
  St.modify (assign_max maximum).

Definition set_segment_count (nos : option num) : LP unit :=
  match nos with
  | Some v =>
      exec St.assert_ (is_int v) ;;
      exec St.assert_ (num_leb (Int 2) v) ;;
      exec St.modify (assign_segment_count (Num.int v)) ;;
      St.modify (assign_is_segment_count_default false)
  | None =>
      exec St.modify (assign_segment_count 11) ;;
      St.modify (assign_is_segment_count_default true)
  end.

(** The items of [cols] are [Color] objects here, so the conversion of
    foreign colour objects is the identity. *)
Definition set_colors (cols : option (list Color)) : LP unit :=
  match cols with
  | Some cs =>
      exec St.assert_ (1 <? length cs)%nat ;;
      St.modify (assign_colors cs)
  | None => St.modify (assign_colors original)
  end.

Definition set_continuous_colors (cont_cols : option bool) : LP unit :=
  match cont_cols with
  | Some b => St.modify (assign_continuous_colors b)
  | None => St.modify (assign_continuous_colors true)
  end.

Definition set_continuous_legend (cont_leg : option bool) : LP unit :=
  match cont_leg with
  | Some b => St.modify (assign_continuous_legend b)
  | None => St.modify (assign_continuous_legend false)
  end.

Definition set_title (title : option string) : LP unit :=
  match title with
  | Some s =>
      exec St.modify (assign_title s) ;;
      St.modify (assign_is_title_default false)
  | None =>
      exec St.modify (assign_title "") ;;
      St.modify (assign_is_title_default true)
  end.

(** The keys of a dictionary are ints by typing. *)
Definition set_ordinal_dictionary (o_dict : option D) : LP unit :=
  St.modify (assign_ordinal_dictionary o_dict).

Definition set_decimal_count (n_dec : option num) : LP unit :=
  match n_dec with
  | Some v =>
      exec St.assert_ (is_int v) ;;
      St.modify (assign_decimal_count (Num.int v))
  | None => St.modify (assign_decimal_count 2)
  end.

(** [bool(lgsm)], with [None] for an argument that is falsy. *)
Definition set_include_larger_smaller (lgsm : option bool) : LP unit :=
  St.modify (assign_include_larger_smaller (default false lgsm)).

Definition set_vertical (vertical : option bool) : LP unit :=
  match vertical with
  | Some b => St.modify (assign_vertical b)
  | None => St.modify (assign_vertical true)
  end.

Definition set_base_plane (base_pl : option Plane) : LP unit :=
  match base_pl with
  | Some pl =>
      exec St.modify (assign_base_plane pl) ;;
      St.modify (assign_is_base_plane_default false)
  | None =>
      exec St.modify (assign_base_plane {| n := {| x := 0; y := 0; z := 1 |};
                            o := {| x := 0; y := 0; z := 0 |} |}) ;;
      St.modify (assign_is_base_plane_default true)
  end.

Definition set_segment_height (seg_h : option num) : LP unit :=
  match seg_h with
  | Some v =>
      exec St.assert_ (num_ltb (Int 0) v) ;;
      exec St.modify (assign_segment_height v) ;;
      St.modify (assign_is_segment_height_default false)
  | None =>
      exec St.modify (assign_segment_height (Int 1)) ;;
      St.modify (assign_is_segment_height_default true)
  end.

Definition set_segment_width (seg_w : option num) : LP unit :=
  match seg_w with
  | Some v =>
      exec St.assert_ (num_ltb (Int 0) v) ;;
      exec St.modify (assign_segment_width v) ;;
      St.modify (assign_is_segment_width_default false)
  | None =>
      exec St.modify (assign_segment_width (Int 1)) ;;
      St.modify (assign_is_segment_width_default true)
  end.

Definition set_text_height (txt_h : option num) : LP unit :=
  exec match txt_h with
       | Some v =>
           exec St.assert_ (num_ltb (Int 0) v) ;;
           St.modify (assign_is_text_height_default false)
       | None => St.modify (assign_is_text_height_default true)
       end ;;
  St.modify (assign_text_height txt_h).

Definition set_font (font : option string) : LP unit :=
  match font with
  | Some s => St.modify (assign_font s)
  | None => St.modify (assign_font "Arial")
  end.

(** *** Property getters that compute *)

(** [text_height]; [None] when a non-default height was never stored. *)
Definition text_height (self : LegendParameters) : option num :=
  if _is_text_height_default self
  then Some (Num.mul (_segment_height self) (Float (33 # 100)))
  else _text_height self.

Definition segment_width (self : LegendParameters) : result num :=
  if negb (_vertical self) && _is_segment_width_default self
  then match text_height self with
       | Some h => Ok (Num.mul h (Int 5))
       | None => Raise TypeError
       end
  else Ok (_segment_width self).

(** *** Construction and copy *)

(** The attributes before [__init__] has assigned them; every one of them
    is assigned by [__init__]. *)
Definition blank : LegendParameters :=
  {| _min := None; _max := None; _segment_count := 0;
     _is_segment_count_default := false; _colors := []; _title := "";
     _is_title_default := false;
     _base_plane := Plane_at {| x := 0; y := 0; z := 0 |};
     _is_base_plane_default := false; _continuous_colors := false;
     _continuous_legend := false; _ordinal_dictionary := None;
     _decimal_count := 0; _include_larger_smaller := false;
     _vertical := false; _segment_height := Int 0;
     _is_segment_height_default := false; _segment_width := Int 0;
     _is_segment_width_default := false; _text_height := None;
     _is_text_height_default := false; _font := "" |}.

Definition LegendParameters__init__body (min max segment_count : option num)
    (colors : option (list Color)) (title : option string)
    (base_plane : option Plane) : LP unit :=
  exec St.modify (assign_min None) ;;
  exec St.modify (assign_max None) ;;
  exec set_min min ;;
  exec set_max max ;;
  exec set_segment_count segment_count ;;
  exec set_colors colors ;;
  exec set_title title ;;
  exec set_base_plane base_plane ;;
  exec set_continuous_colors None ;;
  exec set_continuous_legend None ;;
  exec set_ordinal_dictionary None ;;
  exec set_decimal_count None ;;
  exec set_include_larger_smaller None ;;
  exec set_vertical None ;;
  exec set_segment_height None ;;
  exec set_segment_width None ;;
  exec set_text_height None ;;
  set_font None.

(** [LegendParameters(min, max, segment_count, colors, title, base_plane)]. *)
Definition LegendParameters__init__ (min max segment_count : option num)
    (colors : option (list Color)) (title : option string)
    (base_plane : option Plane) : result LegendParameters :=
  St.built (LegendParameters__init__body min max segment_count colors title base_plane) blank.

(** [LegendParameters.__copy__]. *)
Definition LegendParameters__copy__ (self : LegendParameters)
  : result LegendParameters :=
  new_par <- LegendParameters__init__ (_min self) (_max self)
               (Some (Int (_segment_count self))) (Some (_colors self))
               (Some (_title self)) (Some (_base_plane self)) ;;
  let new_par := assign_continuous_colors (_continuous_colors self) new_par in
  let new_par := assign_continuous_legend (_continuous_legend self) new_par in
  let new_par := assign_ordinal_dictionary (_ordinal_dictionary self) new_par in
  let new_par := assign_decimal_count (_decimal_count self) new_par in
  let new_par :=
    assign_include_larger_smaller (_include_larger_smaller self) new_par in
  let new_par := assign_vertical (_vertical self) new_par in
  let new_par := assign_segment_height (_segment_height self) new_par in
  let new_par := assign_segment_width (_segment_width self) new_par in
  let new_par := assign_text_height (_text_height self) new_par in
  let new_par := assign_font (_font self) new_par in
  let new_par :=
    assign_is_segment_count_default (_is_segment_count_default self) new_par in
  let new_par := assign_is_title_default (_is_title_default self) new_par in
  let new_par :=
    assign_is_base_plane_default (_is_base_plane_default self) new_par in
  let new_par :=
    assign_is_segment_height_default (_is_segment_height_default self)
      new_par in
  let new_par :=
    assign_is_segment_width_default (_is_segment_width_default self)
      new_par in
  let new_par :=
    assign_is_text_height_default (_is_text_height_default self) new_par in
  Ok new_par.

Definition duplicate := LegendParameters__copy__.

(** *** [Legend] *)

(** The part of [Legend.__init__] that works on the legend's own
    parameter object [self._legend_par]: it fills in the default minimum,
    maximum and (for a horizontal legend) segment width, and returns the
    flags [_is_min_default] and [_is_max_default]. *)
Definition Legend__init__defaults (values : list num) : LP (bool * bool) :=
  par <~ St.get ;;
  is_min_default <~
    match _min par with
    | None =>
        mn <~ St.lift (Num.min values) ;;
        exec set_min (Some mn) ;;
        St.ret true
    | Some _ => St.ret false
    end ;;
  par <~ St.get ;;
  is_max_default <~
    match _max par with
    | None =>
        mx <~ St.lift (Num.max values) ;;
        exec set_max (Some mx) ;;
        St.ret true
    | Some _ => St.ret false
    end ;;
  par <~ St.get ;;
  exec (if negb (_vertical par) && _is_segment_width_default par
        then
          match text_height par, _max par with
          | Some h, Some mx =>
              let digits := Z.of_nat (String.length (Num.str_int (Num.int mx))) in
              set_segment_width
                (Some (Num.mul h (Int (digits + _decimal_count par + 2))))
          | _, _ => St.raise TypeError
          end
        else St.ret tt) ;;
  St.ret (is_min_default, is_max_default).

Record Legend : Type := {
  _values : list num;
  _legend_par : LegendParameters;
  _is_min_default : bool;
  _is_max_default : bool
}.

(** [Legend(values, legend_parameters)]; [values] is a list by typing. *)
Definition Legend__init__ (values : list num)
    (legend_parameters : option LegendParameters) : result Legend :=
  par <- match legend_parameters with
         | Some p => duplicate p
         | None => LegendParameters__init__ None None None None None None
         end ;;
  match Legend__init__defaults values par with
  | (Ok (is_min, is_max), par') =>
      Ok {| _values := values; _legend_par := par';
            _is_min_default := is_min; _is_max_default := is_max |}
  | (Raise e, _) => Raise e
  end.

(** [xrange(k)]. *)
Definition xrange (k : Z) : list Z := map Z.of_nat (seq 0 (Z.to_nat k)).

(** Property [segment_numbers]. *)
Definition segment_numbers (self : Legend) : result (list num) :=
  let _l_par := _legend_par self in
  match _min _l_par, _max _l_par with
  | Some mn, Some mx =>
      _seg_stp <- Num.div (Num.sub mx mn) (Int (_segment_count _l_par - 1)) ;;
      Ok (map (fun i => Num.add mn (Num.mul (Int i) _seg_stp))
              (xrange (_segment_count _l_par)))
  | _, _ => Raise TypeError
  end.

(** [d[x]] for a number [x]: an int key equal to [x]. *)
Definition dict_get (d : gmap Z string) (x : num) : option string :=
  if Qeq_bool (to_Q x) (inject_Z (Num.int x)) then d !! Num.int x else None.

(** Property [segment_text]; [deref] reads the dictionary behind the
    [ordinal_dictionary] attribute. *)
Definition segment_text (deref : D -> gmap Z string) (self : Legend)
  : result (list string) :=
  let _l_par := _legend_par self in
  nums <- segment_numbers self ;;
  match _ordinal_dictionary _l_par with
  | None =>
      match nums with
      | [] => if _include_larger_smaller _l_par then Raise IndexError else Ok []
      | _ :: _ =>
          if (_decimal_count _l_par <? 0)%Z then Raise ValueError
          else
            let seg_txt :=
              map (Num.format_fixed (Z.to_nat (_decimal_count _l_par))) nums in
            if _include_larger_smaller _l_par then
              let seg_txt :=
                <[0%nat := ("<" ++ default "" (seg_txt !! 0%nat))%string]>
                  seg_txt in
              let last := (length seg_txt - 1)%nat in
              Ok (<[last := (">" ++ default "" (seg_txt !! last))%string]>
                    seg_txt)
            else Ok seg_txt
      end
  | Some d => Ok (map (fun x => default "" (dict_get (deref d) x)) nums)
  end.

(** *** Conditions and views of the parameters *)

(** The conditions that the assertions of the setters ask for. *)
Definition well_formed (p : LegendParameters) : Prop :=
  (forall a b, _min p = Some a -> _max p = Some b -> (to_Q a <= to_Q b)%Q)
  /\ 2 <= _segment_count p
  /\ (1 < length (_colors p))%nat
  /\ (0 < to_Q (_segment_height p))%Q
  /\ (0 < to_Q (_segment_width p))%Q
  /\ (forall h, _text_height p = Some h -> (0 < to_Q h)%Q)
  /\ (_is_text_height_default p = false -> is_Some (_text_height p)).

(** The title of a legend and its orientation; the segment height and
    the orientation. *)
Definition titled (par : LegendParameters) :=
  (_title par, _is_title_default par, _vertical par).

Definition heights (par : LegendParameters) :=
  (_segment_height par, _is_segment_height_default par, _vertical par).

End WithDictionary.

Arguments LegendParameters : clear implicits.
Arguments Legend : clear implicits.

End legend.

(** ** [ladybug/graphic.py] *)

Module graphic.

Import legend.

(** Dictionaries are held by value in this module. *)
Abbreviation Parameters := (LegendParameters (gmap Z string)).

Section WithColorset.

Context `{Colorset}.

Record GraphicContainer : Type := {
  _legend : Legend (gmap Z string);
  _min_point : Point3D;
  _max_point : Point3D;
  _data_type : option DataType.t;
  _unit : option string
}.

(** [sorted(d.keys())]. *)
Definition sorted_keys_of (d : gmap Z string) : list Z :=
  merge_sort Z.le (map fst (map_to_list d)).

(** [keys.index(v)]: position of the first key equal to [v]. *)
Fixpoint index (keys : list Z) (v : num) : result nat :=
  match keys with
  | [] => Raise ValueError
  | k :: rest =>
      if num_eqb (Int k) v then Ok O
      else i <- index rest v ;; Ok (S i)
  end.

(** [keys[i:j]] for indices that are not negative. *)
Definition slice (keys : list Z) (i j : nat) : list Z := drop i (take j keys).

(** [keys[0]] and [keys[-1]]. *)
Definition first_key (keys : list Z) : result Z :=
  match keys with
  | [] => Raise IndexError
  | k :: _ => Ok k
  end.

Definition last_key (keys : list Z) : result Z :=
  match last keys with
  | None => Raise IndexError
  | Some k => Ok k
  end.

(** The block of [__init__] run for a data type with a [unit_descr] when
    the legend has no ordinal dictionary. *)
Definition align_with_unit_descr (unit_descr : gmap Z string)
    (is_min_default is_max_default : bool) : St.t Parameters unit :=
  exec set_ordinal_dictionary (Some unit_descr) ;;
  let sorted_keys := sorted_keys_of unit_descr in
  exec (if is_min_default
        then k <~ St.lift (first_key sorted_keys) ;; set_min (Some (Int k))
        else St.ret tt) ;;
  exec (if is_max_default
        then k <~ St.lift (last_key sorted_keys) ;; set_max (Some (Int k))
        else St.ret tt) ;;
  par <~ St.get ;;
  if _is_segment_count_default par then
    St.try_except
      (par <~ St.get ;;
       match _min par, _max par with
       | Some mn, Some mx =>
           min_i <~ St.lift (index sorted_keys mn) ;;
           max_i <~ St.lift (index sorted_keys mx) ;;
           set_segment_count
             (Some (Int (Z.of_nat
                (length (slice sorted_keys min_i (max_i + 1))))))
       | _, _ => St.raise ValueError
       end)
      IndexError
      (St.ret tt)
  else St.ret tt.

(** The statements of [__init__] after the legend is built, on the
    legend's parameter object. *)
Definition __init__body (min_point max_point : Point3D)
    (is_min_default is_max_default : bool)
    (data_type : option DataType.t) (unit : option string)
  : St.t Parameters Datatypes.unit :=
  exec match data_type with
       | Some dt =>
           par <~ St.get ;;
           exec (if _is_title_default par then
                   u <~ St.lift (match unit with
                                 | Some u => Ok u
                                 | None =>
                                     match DataType.units dt with
                                     | [] => Raise IndexError
                                     | u0 :: _ => Ok u0
                                     end
                                 end) ;;
                   _ok <~ St.lift (DataType.is_unit_acceptable dt u true) ;;
                   par <~ St.get ;;
                   set_title
                     (Some (if _vertical par then u
                            else (DataType.name dt ++ " (" ++ u ++ ")")%string))
                 else St.ret tt) ;;
           par <~ St.get ;;
           match DataType.unit_descr dt, _ordinal_dictionary par with
           | Some unit_descr, None =>
               align_with_unit_descr unit_descr is_min_default is_max_default
           | _, _ => St.ret tt
           end
       | None =>
           par <~ St.get ;;
           match unit with
           | Some u =>
               if _is_title_default par then set_title (Some u)
               else St.ret tt
           | None => St.ret tt
           end
       end ;;
  par <~ St.get ;;
  exec (if _is_segment_height_default par then
          let seg_height :=
            if _vertical par
            then Float ((y max_point - y min_point) / 20)
            else Float ((x max_point - x min_point) / 20) in
          set_segment_height (Some seg_height)
        else St.ret tt) ;;
  par <~ St.get ;;
  if _is_base_plane_default par then
    base_pt <~
      (if _vertical par then
         w <~ St.lift (segment_width par) ;;
         St.ret {| x := x max_point + to_Q w; y := y min_point;
                   z := z min_point |}
       else
         match text_height par with
         | Some h =>
             St.ret {| x := x max_point; y := y max_point + 3 * to_Q h;
                       z := z min_point |}
         | None => St.raise TypeError
         end) ;;
    set_base_plane (Some (Plane_at base_pt))
  else St.ret tt.

(** [GraphicContainer(values, min_point, max_point, legend_parameters,
    data_type, unit)]; the points are [Point3D] objects by typing. *)
Definition __init__ (values : list num) (min_point max_point : Point3D)
    (legend_parameters : option Parameters)
    (data_type : option DataType.t) (unit : option string)
  : result GraphicContainer :=
  lg <- Legend__init__ values legend_parameters ;;
  match __init__body min_point max_point
          (_is_min_default lg) (_is_max_default lg) data_type unit
          (_legend_par lg) with
  | (Ok _, par) =>
      Ok {| _legend :=
              {| _values := _values lg; _legend_par := par;
                 _is_min_default := _is_min_default lg;
                 _is_max_default := _is_max_default lg |};
            _min_point := min_point; _max_point := max_point;
            _data_type := data_type; _unit := unit |}
  | (Raise e, _) => Raise e
  end.

(** Property [legend_parameters]. *)
Definition legend_parameters (self : GraphicContainer) : Parameters :=
  _legend_par (_legend self).

End WithColorset.

(** The number of keys of a dictionary between two numbers, both
    included: what the specification calls the number of keys between
    min and max. *)
Definition keys_between (d : gmap Z string) (lo hi : num) : nat :=
  length (filter (fun k => num_leb lo (Int k) && num_leb (Int k) hi)
                 (map fst (map_to_list d))).

(** The position of an int in a list of ints. *)
Fixpoint position (keys : list Z) (key : Z) : option nat :=
  match keys with
  | [] => None
  | k :: rest => if (k =? key)%Z then Some O else S <$> position rest key
  end.

End graphic.

(** ** [ladybug/epw.py] *)

Module epw.

(** A value of an hourly series: a number or a text. *)
Inductive value : Type :=
| Number (v : num)
| Text (s : string).

(** The ['type'] of a field: the built-in [int], [float] or [str]. *)
Inductive value_type : Set := py_int | py_float | py_str.

(** The data-type classes of the field table are defined in the sibling
    modules of [ladybug.datatype], outside the sources: they are looked
    up by module and class name. *)
Class DataTypeModules : Type := {
  datatype_class : string -> string -> DataType.DataTypeClass
}.

(** [clss()] and [generic.GenericType(name, unit)]. *)
Definition new (clss : DataType.DataTypeClass) : DataType.t :=
  DataType.Instance clss None.

Definition generic (name unit : string) : DataType.t :=
  DataType.Generic {| DataType.generic_name := name;
                      DataType.generic_unit := unit |}.

(** One entry of [EPWFields.FIELDS]. *)
Record field_dict : Type := {
  field_name : DataType.t;
  field_type : value_type;
  field_unit : option string;
  field_min : option num;
  field_max : option num;
  field_missing : option num
}.

(** [EPWField]. *)
Record EPWField : Type := {
  name : DataType.t;
  value_type_of : value_type;
  unit : option string;
  missing : option num
}.

Definition EPWField__init__ (fd : field_dict) : EPWField :=
  {| name := field_name fd; value_type_of := field_type fd;
     unit := field_unit fd; missing := field_missing fd |}.

Section Fields.

Context `{DataTypeModules}.

Definition FIELDS_items : list (Z * field_dict) :=
  [
   (0, {| field_name := generic "Year" "yr";
         field_type := py_int; field_unit := Some "yr";
         field_min := None; field_max := None;
         field_missing := None |});
   (1, {| field_name := generic "Month" "mon";
         field_type := py_int; field_unit := Some "mon";
         field_min := None; field_max := None;
         field_missing := None |});
   (2, {| field_name := generic "Day" "day";
         field_type := py_int; field_unit := Some "day";
         field_min := None; field_max := None;
         field_missing := None |});
   (3, {| field_name := generic "Hour" "hr";
         field_type := py_int; field_unit := Some "hr";
         field_min := None; field_max := None;
         field_missing := None |});
   (4, {| field_name := generic "Minute" "min";
         field_type := py_int; field_unit := Some "min";
         field_min := None; field_max := None;
         field_missing := None |});
   (5, {| field_name := generic "Uncertainty Flags" "flag";
         field_type := py_str; field_unit := Some "flag";
         field_min := None; field_max := None;
         field_missing := None |});
   (6, {| field_name := new (datatype_class "temperature" "DryBulbTemperature");
         field_type := py_float; field_unit := Some "C";
         field_min := Some (Int (-70)); field_max := Some (Int 70);
         field_missing := Some (Float (999 # 10)) |});
   (7, {| field_name := new (datatype_class "temperature" "DewPointTemperature");
         field_type := py_float; field_unit := Some "C";
         field_min := Some (Int (-70)); field_max := Some (Int 70);
         field_missing := Some (Float (999 # 10)) |});
   (8, {| field_name := new (datatype_class "fraction" "RelativeHumidity");
         field_type := py_int; field_unit := Some "%";
         field_min := Some (Int 0); field_max := Some (Int 110);
         field_missing := Some (Int 999) |});
   (9, {| field_name := new (datatype_class "pressure" "AtmosphericStationPressure");
         field_type := py_int; field_unit := Some "Pa";
         field_min := Some (Int 31000); field_max := Some (Int 120000);
         field_missing := Some (Int 999999) |});
   (10, {| field_name := new (datatype_class "energyintensity" "ExtraterrestrialHorizontalRadiation");
         field_type := py_int; field_unit := Some "Wh/m2";
         field_min := Some (Int 0); field_max := None;
         field_missing := Some (Int 9999) |});
   (11, {| field_name := new (datatype_class "energyintensity" "ExtraterrestrialDirectNormalRadiation");
         field_type := py_int; field_unit := Some "Wh/m2";
         field_min := Some (Int 0); field_max := None;
         field_missing := Some (Int 9999) |});
   (12, {| field_name := new (datatype_class "energyflux" "HorizontalInfraredRadiationIntensity");
         field_type := py_int; field_unit := Some "W/m2";
         field_min := Some (Int 0); field_max := None;
         field_missing := Some (Int 9999) |});
   (13, {| field_name := new (datatype_class "energyintensity" "GlobalHorizontalRadiation");
         field_type := py_int; field_unit := Some "Wh/m2";
         field_min := Some (Int 0); field_max := None;
         field_missing := Some (Int 9999) |});
   (14, {| field_name := new (datatype_class "energyintensity" "DirectNormalRadiation");
         field_type := py_int; field_unit := Some "Wh/m2";
         field_min := Some (Int 0); field_max := None;
         field_missing := Some (Int 9999) |});
   (15, {| field_name := new (datatype_class "energyintensity" "DiffuseHorizontalRadiation");
         field_type := py_int; field_unit := Some "Wh/m2";
         field_min := Some (Int 0); field_max := None;
         field_missing := Some (Int 9999) |});
   (16, {| field_name := new (datatype_class "illuminance" "GlobalHorizontalIlluminance");
         field_type := py_int; field_unit := Some "lux";
         field_min := Some (Int 0); field_max := None;
         field_missing := Some (Int 999999) |});
   (17, {| field_name := new (datatype_class "illuminance" "DirectNormalIlluminance");
         field_type := py_int; field_unit := Some "lux";
         field_min := Some (Int 0); field_max := None;
         field_missing := Some (Int 999999) |});
   (18, {| field_name := new (datatype_class "illuminance" "DiffuseHorizontalIlluminance");
         field_type := py_int; field_unit := Some "lux";
         field_min := Some (Int 0); field_max := None;
         field_missing := Some (Int 999999) |});
   (19, {| field_name := new (datatype_class "luminance" "ZenithLuminance");
         field_type := py_int; field_unit := Some "cd/m2";
         field_min := Some (Int 0); field_max := None;
         field_missing := Some (Int 9999) |});
   (20, {| field_name := new (datatype_class "angle" "WindDirection");
         field_type := py_int; field_unit := Some "degrees";
         field_min := Some (Int 0); field_max := Some (Int 360);
         field_missing := Some (Int 999) |});
   (21, {| field_name := new (datatype_class "speed" "WindSpeed");
         field_type := py_float; field_unit := Some "m/s";
         field_min := Some (Int 0); field_max := Some (Int 40);
         field_missing := Some (Int 999) |});
   (22, {| field_name := new (datatype_class "fraction" "TotalSkyCover");
         field_type := py_int; field_unit := Some "tenths";
         field_min := Some (Int 0); field_max := Some (Int 10);
         field_missing := Some (Int 99) |});
   (23, {| field_name := new (datatype_class "fraction" "OpaqueSkyCover");
         field_type := py_int; field_unit := Some "tenths";
         field_min := None; field_max := None;
         field_missing := Some (Int 99) |});
   (24, {| field_name := new (datatype_class "distance" "Visibility");
         field_type := py_float; field_unit := Some "km";
         field_min := None; field_max := None;
         field_missing := Some (Int 9999) |});
   (25, {| field_name := new (datatype_class "distance" "CeilingHeight");
         field_type := py_int; field_unit := Some "m";
         field_min := None; field_max := None;
         field_missing := Some (Int 99999) |});
   (26, {| field_name := generic "Present Weather Observation" "observation";
         field_type := py_int; field_unit := Some "observation";
         field_min := None; field_max := None;
         field_missing := Some (Int 9) |});
   (27, {| field_name := generic "Present Weather Codes" "codes";
         field_type := py_int; field_unit := Some "codes";
         field_min := None; field_max := None;
         field_missing := Some (Int 999999999) |});
   (28, {| field_name := new (datatype_class "distance" "PrecipitableWater");
         field_type := py_int; field_unit := Some "mm";
         field_min := None; field_max := None;
         field_missing := Some (Int 999) |});
   (29, {| field_name := new (datatype_class "fraction" "AerosolOpticalDepth");
         field_type := py_float; field_unit := Some "fraction";
         field_min := None; field_max := None;
         field_missing := Some (Int 999) |});
   (30, {| field_name := new (datatype_class "distance" "SnowDepth");
         field_type := py_int; field_unit := Some "cm";
         field_min := None; field_max := None;
         field_missing := Some (Int 999) |});
   (31, {| field_name := generic "Days Since Last Snowfall" "day";
         field_type := py_int; field_unit := Some "day";
         field_min := None; field_max := None;
         field_missing := Some (Int 99) |});
   (32, {| field_name := new (datatype_class "fraction" "Albedo");
         field_type := py_float; field_unit := Some "fraction";
         field_min := None; field_max := None;
         field_missing := Some (Int 999) |});
   (33, {| field_name := new (datatype_class "distance" "LiquidPrecipitationDepth");
         field_type := py_float; field_unit := Some "mm";
         field_min := None; field_max := None;
         field_missing := Some (Int 999) |});
   (34, {| field_name := new (datatype_class "fraction" "LiquidPrecipitationQuantity");
         field_type := py_float; field_unit := Some "fraction";
         field_min := None; field_max := None;
         field_missing := Some (Int 99) |})
  ].

(** [EPWFields.FIELDS]. *)
Definition FIELDS : gmap Z field_dict := list_to_map FIELDS_items.

(** [EPWFields.field_by_number(field_number)]: a subscript of the
    dictionary. *)
Definition field_by_number (field_number : Z) : result EPWField :=
  match FIELDS !! field_number with
  | Some fd => Ok (EPWField__init__ fd)
  | None => Raise KeyError
  end.

End Fields.

(** *** Text helpers of the parser *)

Definition is_space (c : ascii) : bool :=
  let k := Str.code c in
  ((9 <=? k)%N && (k <=? 13)%N) || (k =? 32)%N.

Fixpoint lstrip (s : string) : string :=
  match s with
  | EmptyString => EmptyString
  | String c r => if is_space c then lstrip r else s
  end.

(** [rstrip]: the text without the white space that ends it. *)
Fixpoint rstrip (s : string) : string :=
  match s with
  | EmptyString => EmptyString
  | String c r =>
      match rstrip r with
      | EmptyString => if is_space c then EmptyString else String c EmptyString
      | r' => String c r'
      end
  end.

(** [s.strip()]. *)
Definition strip (s : string) : string := rstrip (lstrip s).

(** [s.split(',')]. *)
Fixpoint split_commas (s : string) : list string :=
  match s with
  | EmptyString => [EmptyString]
  | String c r =>
      if (Str.code c =? 44)%N then EmptyString :: split_commas r
      else match split_commas r with
           | h :: t => String c h :: t
           | [] => [String c EmptyString]
           end
  end.

(** The lines of a text as [readline] returns them, each with the line
    feed that ends it. *)
Fixpoint readlines (s : string) : list string :=
  match s with
  | EmptyString => []
  | String c r =>
      if (Str.code c =? 10)%N then String c EmptyString :: readlines r
      else match readlines r with
           | h :: t => String c h :: t
           | [] => [String c EmptyString]
           end
  end.

Fixpoint lower (s : string) : string :=
  match s with
  | EmptyString => EmptyString
  | String c r => String (Str.lower c) (lower r)
  end.

(** [s.endswith(suffix)]. *)
Definition endswith (s suffix : string) : bool :=
  let k := String.length suffix in
  let l := String.length s in
  (k <=? l)%nat && String.eqb (substring (l - k) k s) suffix.

(** [round(q)] of Python 3: to the nearest int, ties to even. *)
Definition round (q : Q) : Z :=
  if Qle_bool 0 q then Num.round_half_even q
  else - Num.round_half_even (- q).

(** *** Data collections *)

(** [Header]: the data type and unit of a series; the analysis period and
    the metadata play no part here. *)
Record Header : Type := {
  data_type : DataType.t;
  header_unit : option string
}.

(** [HourlyContinuousCollection]. *)
Record HourlyContinuousCollection : Type := {
  header : Header;
  _values : list value
}.

Definition with_values (vs : list value) (c : HourlyContinuousCollection)
  : HourlyContinuousCollection :=
  {| header := header c; _values := vs |}.

(** [DateTime]. *)
Record DateTime : Type := {
  year : Z;
  month : Z;
  day : Z;
  hour : Z
}.

(** The collaborators of [EPW] that are outside the sources, and the
    header of the file. The header attributes (location, design
    conditions, weeks, ground temperatures, daylight saving, comments)
    are one abstract value: their parser and printer are functions of
    the environment. *)
Class Environment : Type := {
  header_state : Type;
  (** the header attributes as [EPW.__init__] sets them *)
  header_state_init : header_state;
  (** the header phase of [_import_data] on the eight header lines: the
      new header attributes and [_is_leap_year] *)
  parse_header : list string -> header_state -> result (header_state * bool);
  (** the eight lines of property [header] *)
  header_lines : header_state -> bool -> result (list string);
  (** [self._location = Location()] *)
  with_empty_location : header_state -> header_state;
  (** [AnalysisPeriod(is_leap_year=b).datetimes] *)
  datetimes : bool -> list DateTime;
  (** [int(text)] and [float(text)]; [None] stands for [ValueError] *)
  parse_int : string -> option Z;
  parse_float : string -> option Q;
  (** [str(x)] for a float *)
  float_repr : Q -> string;
  (** [HourlyContinuousCollection.convert_to_ip] and [convert_to_si] *)
  collection_to_ip : HourlyContinuousCollection -> HourlyContinuousCollection;
  collection_to_si : HourlyContinuousCollection -> HourlyContinuousCollection;
  (** whether [futil.write_to_file] can write at a path *)
  writable : string -> bool
}.

Abbreviation Data := (list HourlyContinuousCollection).

Section WithEnvironment.

Context `{DataTypeModules} `{Environment}.

(** [str(v)]. *)
Definition str (v : value) : string :=
  match v with
  | Number (Int u) => Num.str_int u
  | Number (Float q) => float_repr q
  | Text s => s
  end.

(** [value_type(text)] with the recovery of an int field whose text is
    not an int literal. *)
Definition decode (vt : value_type) (text : string) : result value :=
  match vt with
  | py_int =>
      match parse_int text with
      | Some u => Ok (Number (Int u))
      | None =>
          match parse_float text with
          | Some q => Ok (Number (Int (round q)))
          | None => Raise ValueError
          end
      end
  | py_float =>
      match parse_float text with
      | Some q => Ok (Number (Float q))
      | None => Raise ValueError
      end
  | py_str => Ok (Text text)
  end.

(** *** The [EPW] object *)

Record EPW : Type := {
  _file_path : option string;
  _is_header_loaded : bool;
  _is_data_loaded : bool;
  _is_ip : bool;
  _data : list HourlyContinuousCollection;
  _header_state : header_state;
  _is_leap_year : bool;
  _num_of_fields : nat
}.

Definition assign_is_header_loaded (v : bool) (self : EPW) : EPW :=
  {| _file_path := _file_path self; _is_header_loaded := v;
     _is_data_loaded := _is_data_loaded self; _is_ip := _is_ip self;
     _data := _data self; _header_state := _header_state self;
     _is_leap_year := _is_leap_year self;
     _num_of_fields := _num_of_fields self |}.

Definition assign_is_data_loaded (v : bool) (self : EPW) : EPW :=
  {| _file_path := _file_path self;
     _is_header_loaded := _is_header_loaded self;
     _is_data_loaded := v; _is_ip := _is_ip self;
     _data := _data self; _header_state := _header_state self;
     _is_leap_year := _is_leap_year self;
     _num_of_fields := _num_of_fields self |}.

Definition assign_is_ip (v : bool) (self : EPW) : EPW :=
  {| _file_path := _file_path self;
     _is_header_loaded := _is_header_loaded self;
     _is_data_loaded := _is_data_loaded self; _is_ip := v;
     _data := _data self; _header_state := _header_state self;
     _is_leap_year := _is_leap_year self;
     _num_of_fields := _num_of_fields self |}.

Definition assign_data (v : list HourlyContinuousCollection) (self : EPW)
  : EPW :=
  {| _file_path := _file_path self;
     _is_header_loaded := _is_header_loaded self;
     _is_data_loaded := _is_data_loaded self; _is_ip := _is_ip self;
     _data := v; _header_state := _header_state self;
     _is_leap_year := _is_leap_year self;
     _num_of_fields := _num_of_fields self |}.

Definition assign_header_state (v : header_state) (self : EPW) : EPW :=
  {| _file_path := _file_path self;
     _is_header_loaded := _is_header_loaded self;
     _is_data_loaded := _is_data_loaded self; _is_ip := _is_ip self;
     _data := _data self; _header_state := v;
     _is_leap_year := _is_leap_year self;
     _num_of_fields := _num_of_fields self |}.

Definition assign_is_leap_year (v : bool) (self : EPW) : EPW :=
  {| _file_path := _file_path self;
     _is_header_loaded := _is_header_loaded self;
     _is_data_loaded := _is_data_loaded self; _is_ip := _is_ip self;
     _data := _data self; _header_state := _header_state self;
     _is_leap_year := v;
     _num_of_fields := _num_of_fields self |}.

Definition assign_num_of_fields (v : nat) (self : EPW) : EPW :=
  {| _file_path := _file_path self;
     _is_header_loaded := _is_header_loaded self;
     _is_data_loaded := _is_data_loaded self; _is_ip := _is_ip self;
     _data := _data self; _header_state := _header_state self;
     _is_leap_year := _is_leap_year self;
     _num_of_fields := v |}.

(** [EPW(file_path)]; the path is taken as normalised. *)
Definition EPW__init__ (file_path : option string) : EPW :=
  {| _file_path := file_path; _is_header_loaded := false;
     _is_data_loaded := false; _is_ip := false; _data := [];
     _header_state := header_state_init; _is_leap_year := false;
     _num_of_fields := 35 |}.

(** The object and the files it reads and writes. *)
Record World : Type := {
  obj : EPW;
  files : gmap string string
}.

Abbreviation Method := (St.t World).

Definition on_obj (f : EPW -> EPW) : Method Datatypes.unit :=
  St.modify (fun w => {| obj := f (obj w); files := files w |}).

Definition self : Method EPW := fun w => (Ok (obj w), w).

(** A statement on the list [self._data]. *)
Definition on_data {A} (m : St.t (list HourlyContinuousCollection) A)
  : Method A :=
  fun w =>
    match m (_data (obj w)) with
    | (r, d) => (r, {| obj := assign_data d (obj w); files := files w |})
    end.

(** [xrange(k)] and [xrange(a, b)] for sizes. *)
Definition xrange (k : nat) : list nat := seq 0 k.

(** *** The hour shift of point-in-time fields *)

(** [first = values.pop(0); values.append(first)]. *)
Definition move_first_to_end (values : list value) : result (list value) :=
  match values with
  | [] => Raise IndexError
  | first_hour :: rest => Ok (rest ++ [first_hour])
  end.

(** [last = values.pop(); values.insert(0, last)]. *)
Definition move_last_to_start (values : list value) : result (list value) :=
  match last values with
  | None => Raise IndexError
  | Some last_hour => Ok (last_hour :: removelast values)
  end.

(** The values that [pop()] and [insert(0, last)] leave; a list with no
    value is left as it is. *)
Definition last_to_front (values : list value) : list value :=
  match move_last_to_start values with
  | Ok moved => moved
  | Raise _ => values
  end.

(** [lst[i]] for an index that is not negative. *)
Definition item {A} (lst : list A) (i : nat) : result A :=
  match lst !! i with
  | Some a => Ok a
  | None => Raise IndexError
  end.

(** The body of one of the three loops [for field in
    xrange(num_of_fields)] that move an hour of every point-in-time
    field: [flag] reads the [point_in_time] of the field, [move] is
    applied to its values. *)
Definition shift_field (flag : nat -> Data -> result bool)
    (move : list value -> result (list value)) (field : nat)
  : St.t Data Datatypes.unit :=
  data <~ St.get ;;
  point_in_time <~ St.lift (flag field data) ;;
  if (point_in_time : bool) then
    coll <~ St.lift (item data field) ;;
    values <~ St.lift (move (_values coll)) ;;
    St.modify (fun d => <[field := with_values values coll]> d)
  else St.ret tt.

Definition shift_fields (flag : nat -> Data -> result bool)
    (move : list value -> result (list value)) (num_of_fields : nat)
  : St.t Data Datatypes.unit :=
  St.for_each (xrange num_of_fields) (shift_field flag move).

(** [self._data[field].header.data_type.point_in_time]. *)
Definition point_in_time_of_data (field : nat) (data : Data) : result bool :=
  coll <- item data field ;;
  Ok (DataType.point_in_time (data_type (header coll))).

(** [headers[field_number].data_type.point_in_time]. *)
Definition point_in_time_of_headers (headers : list Header) (field : nat)
    (data : Data) : result bool :=
  h <- item headers field ;;
  Ok (DataType.point_in_time (data_type h)).

(** The effect of one such loop on a field, and on the first fields of
    the data, as a function on lists: the loop stops at the first field
    that is missing or cannot be moved, with the fields before it moved. *)
Definition shift_collection (move : list value -> result (list value))
    (coll : HourlyContinuousCollection) : result HourlyContinuousCollection :=
  if DataType.point_in_time (data_type (header coll))
  then values <- move (_values coll) ;; Ok (with_values values coll)
  else Ok coll.

Fixpoint shift_prefix (move : list value -> result (list value))
    (num_of_fields : nat) (data : Data) : result Datatypes.unit * Data :=
  match num_of_fields with
  | O => (Ok tt, data)
  | S k =>
      match data with
      | [] => (Raise IndexError, [])
      | coll :: rest =>
          match shift_collection move coll with
          | Raise e => (Raise e, coll :: rest)
          | Ok coll' =>
              (fst (shift_prefix move k rest),
               coll' :: snd (shift_prefix move k rest))
          end
      end
  end.

(** The effect of a loop over the indices from [a] to [a + n - 1] whose
    body replaces the item at its index [k] by [f k] of it. *)
Definition updated {A} (a n : nat) (f : nat -> A -> A) (items : list A)
  : list A :=
  imap (fun k c => if (a <=? k)%nat && (k <? a + n)%nat then f k c else c)
       items.

(** *** [_import_data] *)

(** [self._data[field_number].append(value)]. *)
Definition append_value (field_number : nat) (v : value)
  : St.t Data Datatypes.unit :=
  data <~ St.get ;;
  coll <~ St.lift (item data field_number) ;;
  St.modify (fun d =>
    <[field_number := with_values (_values coll ++ [v]) coll]> d).

(** The loop that creates a header and an empty list per field. A list
    under construction is kept with the header of its field. *)
Fixpoint create_headers (fields : list nat) : St.t Data (list Header) :=
  match fields with
  | [] => St.ret []
  | field_number :: rest =>
      field <~ St.lift (field_by_number (Z.of_nat field_number)) ;;
      let hd := {| data_type := name field; header_unit := unit field |} in
      exec St.modify (fun d => d ++ [{| header := hd; _values := [] |}]) ;;
      headers <~ create_headers rest ;;
      St.ret (hd :: headers)
  end.

(** The value of a field on a line that is split at the commas:
    [value_type(data[field_number])] for the type of the field. *)
Definition decode_field (data : list string) (field_number : nat)
  : result value :=
  field <- field_by_number (Z.of_nat field_number) ;;
  text <- item data field_number ;;
  decode (value_type_of field) text.

(** The body of [while line:] for one line. *)
Definition collect_line (num_of_fields : nat) (line : string)
  : St.t Data Datatypes.unit :=
  let data := split_commas (strip line) in
  St.for_each (xrange num_of_fields) (fun field_number =>
    v <~ St.lift (decode_field data field_number) ;;
    append_value field_number v).

(** [while line: ...; line = epwin.readline()] on the lines that are
    left in the file. *)
Fixpoint collect (num_of_fields : nat) (lines : list string)
  : St.t Data Datatypes.unit :=
  match lines with
  | [] => St.ret tt
  | line :: rest =>
      if String.eqb line "" then St.ret tt
      else
        exec collect_line num_of_fields line ;;
        collect num_of_fields rest
  end.

(** [self._data[i] = HourlyContinuousCollection(headers[i], self._data[i])]
    for every field. *)
Definition build_collections (headers : list Header) (num_of_fields : nat)
  : St.t Data Datatypes.unit :=
  St.for_each (xrange num_of_fields) (fun i =>
    data <~ St.get ;;
    h <~ St.lift (item headers i) ;;
    coll <~ St.lift (item data i) ;;
    St.modify (fun d => <[i := {| header := h; _values := _values coll |}]> d)).

(** The data phase of [_import_data], on the lines after the header. *)
Definition import_hourly_data (lines : list string) : Method Datatypes.unit :=
  let line := List.hd "" lines in
  let num_of_fields :=
    Nat.min (length (split_commas (strip line))) 35 in
  exec on_obj (assign_num_of_fields num_of_fields) ;;
  headers <~ on_data (create_headers (xrange num_of_fields)) ;;
  exec on_data (collect num_of_fields lines) ;;
  exec on_data (shift_fields (point_in_time_of_headers headers)
                  move_last_to_start num_of_fields) ;;
  exec on_data (build_collections headers num_of_fields) ;;
  on_obj (assign_is_data_loaded true).

(** [_import_data(import_header_only)]. When the header phase raises,
    the header attributes are left as they were. *)
Definition _import_data (import_header_only : bool) : Method Datatypes.unit :=
  s <~ self ;;
  w <~ St.get ;;
  match _file_path s with
  | None => St.raise TypeError
  | Some path =>
      match files w !! path with
      | None => St.raise AssertionError
      | Some content =>
          exec St.assert_ (endswith (lower path) "epw") ;;
          let stream := readlines content in
          exec (if negb (_is_header_loaded s) then
                  parsed <~ St.lift
                    (parse_header (take 8 stream) (_header_state s)) ;;
                  exec on_obj (assign_header_state (fst parsed)) ;;
                  exec on_obj (assign_is_leap_year (snd parsed)) ;;
                  on_obj (assign_is_header_loaded true)
                else St.ret tt) ;;
          if import_header_only then St.ret tt
          else import_hourly_data (drop 8 stream)
      end
  end.

Definition _load_header_check : Method Datatypes.unit :=
  s <~ self ;;
  if negb (_is_header_loaded s) then _import_data true else St.ret tt.

(** Properties [header] and [is_leap_year]. *)
Definition header_property : Method (list string) :=
  exec _load_header_check ;;
  s <~ self ;;
  St.lift (header_lines (_header_state s) (_is_leap_year s)).

Definition is_leap_year : Method bool :=
  exec _load_header_check ;;
  s <~ self ;;
  St.ret (_is_leap_year s).

(** *** Unit systems *)

Definition convert_to_ip : Method Datatypes.unit :=
  s <~ self ;;
  exec (if negb (_is_data_loaded s) then _import_data false else St.ret tt) ;;
  s <~ self ;;
  exec (if negb (_is_ip s)
        then on_data (St.modify (map collection_to_ip))
        else St.ret tt) ;;
  on_obj (assign_is_ip true).

Definition convert_to_si : Method Datatypes.unit :=
  s <~ self ;;
  exec (if negb (_is_data_loaded s) then _import_data false else St.ret tt) ;;
  s <~ self ;;
  exec (if _is_ip s
        then on_data (St.modify (map collection_to_si))
        else St.ret tt) ;;
  on_obj (assign_is_ip false).

(** The object as [convert_to_si] leaves it once the data are loaded. *)
Definition in_si (e : EPW) : EPW :=
  if _is_ip e
  then assign_is_ip false (assign_data (map collection_to_si (_data e)) e)
  else e.

(** The object as [convert_to_ip] leaves an object in SI units. *)
Definition in_ip (e : EPW) : EPW :=
  assign_is_ip true (assign_data (map collection_to_ip (_data e)) e).

(** *** [save] *)

(** One data line: [",".join(line) + "\n"] for an hour. *)
Definition data_line (data : Data) (num_of_fields hour : nat)
  : result string :=
  line <- traverse (fun field =>
            coll <- item data field ;;
            v <- item (_values coll) hour ;;
            Ok (str v)) (xrange num_of_fields) ;;
  Ok (String.concat "," line ++ String (ascii_of_N 10) EmptyString)%string.

(** [futil.write_to_file(file_path, file_data, True)]. *)
Definition write_to_file (file_path file_data : string)
  : Method Datatypes.unit :=
  if writable file_path
  then St.modify (fun w =>
         {| obj := obj w; files := <[file_path := file_data]> (files w) |})
  else St.raise OSError.

(** The [try] block of [save]: the lines of the data. *)
Definition save_try : Method (list string) :=
  s <~ self ;;
  exec on_data (shift_fields point_in_time_of_data move_first_to_end
                  (_num_of_fields s)) ;;
  leap <~ is_leap_year ;;
  s <~ self ;;
  St.lift (traverse (data_line (_data s) (_num_of_fields s))
             (xrange (length (datetimes leap)))).

(** The [finally] block of [save]. *)
Definition save_finally : Method Datatypes.unit :=
  s <~ self ;;
  on_data (shift_fields point_in_time_of_data move_last_to_start
             (_num_of_fields s)).

(** The [try] statement of [save], with its [except], [else] and
    [finally] clauses; [lines] holds the header. *)
Definition save_statement (lines : list string) (file_path : string)
  : Method Datatypes.unit :=
  St.try_finally
    (St.try_except_else save_try IndexError
       (St.raise ValueError)
       (fun data_lines =>
          let file_data := String.concat "" (lines ++ data_lines) in
          write_to_file file_path file_data))
    save_finally.

(** [save(file_path)]. *)
Definition save (file_path : string) : Method string :=
  s <~ self ;;
  exec (if negb (_is_data_loaded s) then _import_data false else St.ret tt) ;;
  s <~ self ;;
  let originally_ip := _is_ip s in
  exec (if originally_ip then convert_to_si else St.ret tt) ;;
  lines <~ header_property ;;
  exec save_statement lines file_path ;;
  exec (if originally_ip then convert_to_ip else St.ret tt) ;;
  St.ret file_path.

(** *** Access to the series *)

(** [_get_data_by_field(field_number)]. *)
Definition _get_data_by_field (field_number : Z)
  : Method HourlyContinuousCollection :=
  s <~ self ;;
  exec (if negb (_is_data_loaded s) then _import_data false else St.ret tt) ;;
  s <~ self ;;
  if negb ((0 <=? field_number)%Z
           && (field_number <? Z.of_nat (_num_of_fields s))%Z)
  then St.raise ValueError
  else St.lift (item (_data s) (Z.to_nat field_number)).

(** [import_data_by_field(field_number)] and two of the properties that
    name a field. *)
Definition import_data_by_field (field_number : Z)
  : Method HourlyContinuousCollection :=
  _get_data_by_field field_number.

Definition dry_bulb_temperature : Method HourlyContinuousCollection :=
  _get_data_by_field 6.

Definition liquid_precipitation_quantity
  : Method HourlyContinuousCollection :=
  _get_data_by_field 34.

(** *** [from_missing_values] *)

Definition uncertainty : string :=
  "?9?9?9?9E0?9?9?9?9?9?9?9?9?9?9?9?9?9?9?9*9*9?9?9?9".

(** The body of [for dt in analysis_period.datetimes]. *)
Definition append_date (dt : DateTime) : St.t Data Datatypes.unit :=
  let hr := if (hour dt =? 0)%Z then 24 else hour dt in
  exec append_value 0 (Number (Int (year dt))) ;;
  exec append_value 1 (Number (Int (month dt))) ;;
  exec append_value 2 (Number (Int (day dt))) ;;
  exec append_value 3 (Number (Int hr)) ;;
  exec append_value 4 (Number (Int 0)) ;;
  append_value 5 (Text uncertainty).

(** The body of [for field_number in xrange(6, epw_obj._num_of_fields)]. *)
Definition append_missing (calc_length field_number : nat)
  : St.t Data Datatypes.unit :=
  field <~ St.lift (field_by_number (Z.of_nat field_number)) ;;
  let mis_val := default (Int 0) (missing field) in
  St.for_each (xrange calc_length) (fun _ =>
    append_value field_number (Number mis_val)).

(** The statements of [from_missing_values] on [epw_obj._data]. *)
Definition missing_data (is_leap_year : bool) : St.t Data Datatypes.unit :=
  headers <~ create_headers (xrange 35) ;;
  exec St.for_each (datetimes is_leap_year) append_date ;;
  let calc_length := length (datetimes is_leap_year) in
  exec St.for_each (seq 6 (35 - 6)) (append_missing calc_length) ;;
  build_collections headers 35.

(** [EPW.from_missing_values(is_leap_year)]. *)
Definition from_missing_values (is_leap_year : bool) : result EPW :=
  let epw_obj := EPW__init__ None in
  let epw_obj := assign_is_leap_year is_leap_year epw_obj in
  let epw_obj :=
    assign_header_state (with_empty_location (_header_state epw_obj))
      epw_obj in
  match missing_data is_leap_year (_data epw_obj) with
  | (Ok _, data) =>
      let epw_obj := assign_data data epw_obj in
      let epw_obj := assign_is_header_loaded true epw_obj in
      Ok (assign_is_data_loaded true epw_obj)
  | (Raise e, _) => Raise e
  end.

(** *** The series that the loops build

    The header of a field, the series with no value yet, the values that
    [from_missing_values] gives to a date and time in the first six
    fields, and the value it gives to every hour of another field. *)

(** The hours of a year: 8760, or 8784 for a leap year. *)
Definition annual_hours (leap : bool) : nat :=
  ((if leap then 366 else 365) * 24)%nat.

(** The values of the first fields of a line, the values of a field on
    the lines of a table, and the line that [save] writes for the values
    of an hour. *)
Definition decode_row (num_of_fields : nat) (line : string)
  : result (list value) :=
  traverse (decode_field (split_commas (strip line))) (xrange num_of_fields).

Definition column (field_number : nat) (table : list (list value))
  : list value :=
  omap (fun row => row !! field_number) table.


(** The series of a table in the order of the file: field [k] has the
    header of its number and column [k]. *)
Definition series_of (headers : list Header) (table : list (list value))
  : Data :=
  imap (fun k h => {| header := h; _values := column k table |}) headers.

Definition field_header (field_number : nat) : result Header :=
  field <- field_by_number (Z.of_nat field_number) ;;
  Ok {| data_type := name field; header_unit := unit field |}.

Definition empty_series (h : Header) : HourlyContinuousCollection :=
  {| header := h; _values := [] |}.

Definition date_column (field_number : nat) (dt : DateTime) : value :=
  match field_number with
  | 0%nat => Number (Int (year dt))
  | 1%nat => Number (Int (month dt))
  | 2%nat => Number (Int (day dt))
  | 3%nat => Number (Int (if (hour dt =? 0)%Z then 24 else hour dt))
  | 4%nat => Number (Int 0)
  | _ => Text uncertainty
  end.

Definition missing_value (field_number : nat) : value :=
  match field_by_number (Z.of_nat field_number) with
  | Ok field => Number (default (Int 0) (missing field))
  | Raise _ => Number (Int 0)
  end.

(** The series that [_import_data] makes of a table: the point-in-time
    fields have their last value first. *)
Definition imported (headers : list Header) (table : list (list value))
  : Data :=
  map (fun coll =>
         if DataType.point_in_time (data_type (header coll))
         then with_values (last_to_front (_values coll)) coll
         else coll)
      (series_of headers table).

End WithEnvironment.

End epw.

(** ** Legends and their parameters as shared objects

    [Legend(values, p)] receives a reference to the parameter object [p],
    and the [ordinal_dictionary] of a parameter object is a reference to
    a dictionary. Both kinds of object live in a store. *)

Module legend_store.

Import legend.

Abbreviation address := positive.

Record Store : Type := {
  parameters : gmap address (LegendParameters address);
  dictionaries : gmap address (gmap Z string)
}.

(** A [Legend] object: [_legend_par] is a reference. *)
Record LegendObject : Type := {
  _values : list num;
  _legend_par : address;
  _is_min_default : bool;
  _is_max_default : bool
}.

Section WithColorset.

Context `{Colorset}.

(** A statement on the parameter object at an address, such as a
    property assignment [p.min = v]. *)
Definition at_address {A} (p : address)
    (m : St.t (LegendParameters address) A) : St.t Store A :=
  fun st =>
    match parameters st !! p with
    | None => (Raise TypeError, st)
    | Some par =>
        match m par with
        | (r, par') =>
            (r, {| parameters := <[p := par']> (parameters st);
                   dictionaries := dictionaries st |})
        end
    end.

(** A new parameter object. *)
Definition allocate (par : LegendParameters address) : St.t Store address :=
  fun st =>
    let q := fresh (dom (parameters st)) in
    (Ok q, {| parameters := <[q := par]> (parameters st);
              dictionaries := dictionaries st |}).

(** [Legend(values, legend_parameters)] for a parameter object that is
    given. *)
Definition Legend__init__ (values : list num) (legend_parameters : address)
  : St.t Store LegendObject :=
  st <~ St.get ;;
  match parameters st !! legend_parameters with
  | None => St.raise TypeError
  | Some p =>
      new_par <~ St.lift (duplicate p) ;;
      q <~ allocate new_par ;;
      flags <~ at_address q (Legend__init__defaults values) ;;
      St.ret {| _values := values; _legend_par := q;
                _is_min_default := fst flags;
                _is_max_default := snd flags |}
  end.

(** [p.ordinal_dictionary[key] = text]: an update of the dictionary that
    [p] refers to. *)
Definition ordinal_dictionary_setitem (p : address) (key : Z) (text : string)
  : St.t Store unit :=
  st <~ St.get ;;
  match parameters st !! p with
  | None => St.raise TypeError
  | Some par =>
      match _ordinal_dictionary par with
      | None => St.raise TypeError
      | Some d =>
          St.modify (fun st =>
            {| parameters := parameters st;
               dictionaries := alter (insert key text) d (dictionaries st) |})
      end
  end.

(** The dictionary behind a reference. *)
Definition deref (st : Store) (d : address) : gmap Z string :=
  default ∅ (dictionaries st !! d).

(** [legend.segment_text], read in a store. *)
Definition segment_text (lg : LegendObject) (st : Store)
  : result (list string) :=
  match parameters st !! _legend_par lg with
  | None => Raise TypeError
  | Some par =>
      legend.segment_text (deref st)
        {| legend._values := _values lg; legend._legend_par := par;
           legend._is_min_default := _is_min_default lg;
           legend._is_max_default := _is_max_default lg |}
  end.

End WithColorset.

End legend_store.

(** ** Binary64 arithmetic

    The arithmetic of [Num] reads a float as the rational it denotes and
    does not round. The interpreter computes in binary64: the result of
    an operation on floats is the nearest binary64 number to the exact
    result, ties to even. This module has that arithmetic, on the
    specification of IEEE 754 of the Standard Library, for the code
    whose result depends on the rounding. *)

Module binary64.

Definition prec : Z := 53.
Definition emax : Z := 1024.

(** A Python number whose float is a binary64 number. *)
Inductive number : Type :=
| PyInt (z : Z)
| PyFloat (f : spec_float).

Definition finite (f : spec_float) : bool :=
  match f with
  | S754_zero _ | S754_finite _ _ _ => true
  | S754_infinity _ | S754_nan => false
  end.

Definition is_zero (f : spec_float) : bool :=
  match f with S754_zero _ => true | _ => false end.

(** An int as an operand of the division of two ints: the int itself,
    which no conversion has rounded. *)
Definition int_spec (z : Z) : spec_float :=
  match z with
  | Z0 => S754_zero false
  | Zpos p => S754_finite false p 0
  | Zneg p => S754_finite true p 0
  end.

(** The binary64 number nearest to [u / v], for [v] that is not 0. *)
Definition quotient (u v : Z) : spec_float :=
  SFdiv prec emax (int_spec u) (int_spec v).

(** The binary64 number nearest to an int, ties to even, and
    [float(z)]: an int beyond the range of the floats raises. *)
Definition nearest_int (z : Z) : spec_float :=
  binary_normalize prec emax z 0 false.

Definition float_of_int (z : Z) : result spec_float :=
  let f := nearest_int z in
  if finite f then Ok f else Raise OverflowError.

(** The float operand of a binary operation of which one operand is a
    float. *)
Definition to_float (a : number) : result spec_float :=
  match a with
  | PyInt z => float_of_int z
  | PyFloat f => Ok f
  end.

Definition add (a b : number) : result number :=
  match a, b with
  | PyInt u, PyInt v => Ok (PyInt (u + v))
  | _, _ =>
      x <- to_float a ;;
      y <- to_float b ;;
      Ok (PyFloat (SFadd prec emax x y))
  end.

Definition sub (a b : number) : result number :=
  match a, b with
  | PyInt u, PyInt v => Ok (PyInt (u - v))
  | _, _ =>
      x <- to_float a ;;
      y <- to_float b ;;
      Ok (PyFloat (SFsub prec emax x y))
  end.

Definition mul (a b : number) : result number :=
  match a, b with
  | PyInt u, PyInt v => Ok (PyInt (u * v))
  | _, _ =>
      x <- to_float a ;;
      y <- to_float b ;;
      Ok (PyFloat (SFmul prec emax x y))
  end.

(** True division ([from __future__ import division]): of two ints, the
    float nearest to their quotient; of floats, their quotient, and
    [ZeroDivisionError] for a divisor that is zero. *)
Definition div (a b : number) : result number :=
  match a, b with
  | PyInt u, PyInt v =>
      if (v =? 0)%Z then Raise ZeroDivisionError
      else
        let q := quotient u v in
        if finite q then Ok (PyFloat q) else Raise OverflowError
  | _, _ =>
      x <- to_float a ;;
      y <- to_float b ;;
      if is_zero y then Raise ZeroDivisionError
      else Ok (PyFloat (SFdiv prec emax x y))
  end.

(** The number that a [num] stands for: its float is the binary64 number
    of that value, the nearest one when there is none. *)
Definition of_num (a : num) : number :=
  match a with
  | Int z => PyInt z
  | Float q => PyFloat (quotient (Qnum q) (Z.pos (Qden q)))
  end.

(** The value of a float that is neither infinite nor a NaN, and its
    absolute value. *)
Definition magnitude (f : spec_float) : Q :=
  match f with
  | S754_finite _ m (Zneg p) => Z.pos m # (2 ^ p)
  | S754_finite _ m e => inject_Z (Z.pos m * 2 ^ e)
  | _ => 0
  end.

Definition sign (f : spec_float) : bool :=
  match f with
  | S754_zero s | S754_infinity s | S754_finite s _ _ => s
  | S754_nan => false
  end.

Definition value (a : number) : option Q :=
  match a with
  | PyInt z => Some (inject_Z z)
  | PyFloat f =>
      if finite f
      then Some (if sign f then - magnitude f else magnitude f)%Q
      else None
  end.

(** ['%.<d>f' % x]: the digits of the exact value, rounded to [d]
    decimals, ties to even. *)
Definition format_fixed (d : nat) (a : number) : result string :=
  f <- to_float a ;;
  Ok match f with
     | S754_nan => "nan"
     | S754_infinity s => if s then "-inf" else "inf"
     | _ => (if sign f then "-" else "")
            ++ Num.format_fixed d (Float (magnitude f))
     end%string.

(** [d[x]]: the text of a key that equals [x]. *)
Definition dict_get (d : gmap Z string) (x : number) : option string :=
  q ← value x;
  let z := Num.int (Float q) in
  if Qeq_bool q (inject_Z z) then d !! z else None.

(** *** The floats of the ints below [2 ^ 53]

    An int of [d] bits, [d] at most 53, is the binary64 number whose
    mantissa is the int followed by [53 - d] zero bits. *)

(** [p] shifted left by [k] bits. *)
Definition shl (p : positive) (k : nat) : positive := Nat.iter k xO p.

(** The signed int of a sign and a size. *)
Definition signed (s : bool) (c : positive) : Z :=
  if s then Z.neg c else Z.pos c.

(** The binary64 number of a positive int below [2 ^ 53]. *)
Definition canonical (s : bool) (c : positive) : spec_float :=
  S754_finite s (shl c (Z.to_nat (53 - Z.pos (digits2_pos c))))
    (Z.pos (digits2_pos c) - 53).

End binary64.

(** ** The numbers and texts of a legend in binary64 *)

Module legend_binary64.

Import legend binary64.

Section WithDictionary.

Context {D : Type}.

(** Property [segment_numbers]. *)
Definition segment_numbers (self : Legend D) : result (list number) :=
  let _l_par := _legend_par self in
  match _min _l_par, _max _l_par with
  | Some mn, Some mx =>
      d <- sub (of_num mx) (of_num mn) ;;
      _seg_stp <- div d (PyInt (_segment_count _l_par - 1)) ;;
      traverse (fun i => p <- mul (PyInt i) _seg_stp ;; add (of_num mn) p)
        (xrange (_segment_count _l_par))
  | _, _ => Raise TypeError
  end.

(** Property [segment_text]; [deref] reads the dictionary behind the
    [ordinal_dictionary] attribute. *)
Definition segment_text (deref : D -> gmap Z string) (self : Legend D)
  : result (list string) :=
  let _l_par := _legend_par self in
  nums <- segment_numbers self ;;
  match _ordinal_dictionary _l_par with
  | None =>
      match nums with
      | [] => if _include_larger_smaller _l_par then Raise IndexError else Ok []
      | _ :: _ =>
          if (_decimal_count _l_par <? 0)%Z then Raise ValueError
          else
            seg_txt <- traverse
              (format_fixed (Z.to_nat (_decimal_count _l_par))) nums ;;
            if _include_larger_smaller _l_par then
              let seg_txt :=
                <[0%nat := ("<" ++ default "" (seg_txt !! 0%nat))%string]>
                  seg_txt in
              let last := (length seg_txt - 1)%nat in
              Ok (<[last := (">" ++ default "" (seg_txt !! last))%string]>
                    seg_txt)
            else Ok seg_txt
      end
  | Some d => Ok (map (fun x => default "" (dict_get (deref d) x)) nums)
  end.

End WithDictionary.

End legend_binary64.

(** ** Concrete collaborators for the examples *)

Module sample.

Import epw.

Definition colors : Colorset :=
  {| original := [ {| R := 75; G := 107; B := 169 |};
                   {| R := 234; G := 38; B := 0 |} ] |}.

(** Classes of the sibling modules: temperatures and speeds are
    point-in-time, the other quantities are not. *)
Definition modules : DataTypeModules :=
  {| datatype_class := fun module cls =>
       {| DataType.__name__ := cls; DataType._units := ["unit"];
          DataType._min := DataType.NegInf; DataType._max := DataType.PosInf;
          DataType._abbreviation := ""; DataType._unit_descr := None;
          DataType._point_in_time :=
            String.eqb module "temperature" || String.eqb module "speed";
          DataType._cumulative := false |} |}.

Definition Temperature : DataType.DataTypeClass :=
  {| DataType.__name__ := "Temperature"; DataType._units := ["C"; "F"; "K"];
     DataType._min := DataType.Finite (-27315 # 100);
     DataType._max := DataType.PosInf;
     DataType._abbreviation := "T"; DataType._unit_descr := None;
     DataType._point_in_time := true; DataType._cumulative := false |}.

(** A thermal-sensation scale, a data type with categories. *)
Definition sensation : gmap Z string :=
  list_to_map [(-1, "Cool"); (0, "Neutral"); (1, "Warm"); (2, "Hot")].

Definition ThermalCondition : DataType.DataTypeClass :=
  {| DataType.__name__ := "ThermalCondition";
     DataType._units := ["condition"];
     DataType._min := DataType.NegInf; DataType._max := DataType.PosInf;
     DataType._abbreviation := "Tcond";
     DataType._unit_descr := Some sensation;
     DataType._point_in_time := true; DataType._cumulative := false |}.

(** Decimal literals: digits with an optional sign and fraction. *)
Fixpoint digits (s : string) (acc : Z) : option Z :=
  match s with
  | EmptyString => Some acc
  | String c r =>
      if Str.is_digit c
      then digits r (10 * acc + Z.of_N (Str.code c) - 48)
      else None
  end.

Definition int_literal (s : string) : option Z :=
  match s with
  | EmptyString => None
  | String c r =>
      if (Str.code c =? 45)%N
      then match r with
           | EmptyString => None
           | _ => u ← digits r 0; Some (- u)
           end
      else digits s 0
  end.

Fixpoint before_point (s : string) : string * option string :=
  match s with
  | EmptyString => (EmptyString, None)
  | String c r =>
      if (Str.code c =? 46)%N then (EmptyString, Some r)
      else match before_point r with
           | (a, b) => (String c a, b)
           end
  end.

Definition float_literal (s : string) : option Q :=
  match before_point s with
  | (a, None) => u ← int_literal a; Some (inject_Z u)
  | (a, Some b) =>
      u ← int_literal a;
      v ← digits b 0;
      let scale := Z.to_pos (10 ^ Z.of_nat (String.length b)) in
      let frac := v # scale in
      Some (if (Str.code (default "0"%char (head (list_ascii_of_string a)))
                =? 45)%N
            then (inject_Z u - frac)%Q else (inject_Z u + frac)%Q)
  end.

Definition days_in_month (leap : bool) : list nat :=
  [31; if leap then 29 else 28; 31; 30; 31; 30; 31; 31; 30; 31; 30; 31]%nat.

(** The hours of a year, from 1 January 00:00. *)
Definition calendar (leap : bool) : list DateTime :=
  let yr := if leap then 2016 else 2017 in
  concat (imap (fun m days =>
    flat_map (fun d =>
      map (fun h => {| year := yr; month := Z.of_nat (S m);
                       day := Z.of_nat (S d); hour := Z.of_nat h |})
          (seq 0 24)) (seq 0 days)) (days_in_month leap)).

Definition header_text : list string :=
  map (fun s => (s ++ String (ascii_of_N 10) EmptyString)%string)
    ["LOCATION,-,-,-,-,-,0,0,0,0"; "DESIGN CONDITIONS,0";
     "TYPICAL/EXTREME PERIODS,0,"; "GROUND TEMPERATURES,0";
     "HOLIDAYS/DAYLIGHT SAVINGS,No,0,0,0"; "COMMENTS 1,"; "COMMENTS 2,";
     "DATA PERIODS,1,1,Data,Sunday, 1/ 1,12/31"].

(** An environment whose header is the fixed text above, where the IP
    form of a series is marked by its unit and files can be written
    anywhere but under ["/proc/"]. *)
Definition environment : Environment :=
  {| header_state := Datatypes.unit;
     header_state_init := tt;
     parse_header := fun _ _ => Ok (tt, false);
     header_lines := fun _ _ => Ok header_text;
     with_empty_location := fun h => h;
     datetimes := calendar;
     parse_int := int_literal;
     parse_float := float_literal;
     float_repr := fun q => Num.format_fixed 1 (Float q);
     collection_to_ip := fun c =>
       {| header := {| data_type := data_type (header c);
                       header_unit := Some "IP" |};
          _values := _values c |};
     collection_to_si := fun c =>
       {| header := {| data_type := data_type (header c);
                       header_unit := Some "SI" |};
          _values := _values c |};
     writable := fun path => negb (String.prefix "/proc/" path) |}.

(** A file of nine columns with three hours of data, and the object that
    [_import_data] makes of it. *)
Definition short_file : string :=
  String.concat ""
    (header_text ++
     map (fun s => (s ++ String (ascii_of_N 10) EmptyString)%string)
       ["2017,1,1,1,0,?,1.5,2.5,50"; "2017,1,1,2,0,?,3.5,4.5,60";
        "2017,1,1,3,0,?,5.5,6.5,70"]).

Definition short_world : World (H0 := environment) :=
  {| obj := EPW__init__ (Some "short.epw");
     files := {[ "short.epw" := short_file ]} |}.

Definition short_epw : EPW (H0 := environment) :=
  obj (snd (_import_data (H := modules) false short_world)).




(** A file that ends with its header, and a new object for it. *)
Definition header_only_file : string := String.concat "" header_text.

Definition header_only_world : World (H0 := environment) :=
  {| obj := EPW__init__ (Some "header.epw");
     files := {[ "header.epw" := header_only_file ]} |}.


(** A store with one parameter object, [LegendParameters(min=0, max=10,
    segment_count=3)] at address 1, whose ordinal dictionary is the
    dictionary at address 1. *)
Definition levels : gmap Z string :=
  list_to_map [(0, "low"); (5, "middle"); (10, "high")].

Definition level_parameters : legend.LegendParameters positive :=
  legend.assign_ordinal_dictionary (Some 1%positive)
    (snd (legend.LegendParameters__init__body (H := colors)
            (Some (Int 0)) (Some (Int 10)) (Some (Int 3)) None None None
            legend.blank)).

(** [LegendParameters(min=0)]. *)
Definition parameters_from_0 : legend.LegendParameters (gmap Z string) :=
  snd (legend.LegendParameters__init__body (H := colors)
         (Some (Int 0)) None None None None None legend.blank).

Definition level_store : legend_store.Store :=
  {| legend_store.parameters := {[ 1%positive := level_parameters ]};
     legend_store.dictionaries := {[ 1%positive := levels ]} |}.

(** [LegendParameters(min=0.5, max=2, title='Sensation')]. *)
Definition sensation_parameters : legend.LegendParameters (gmap Z string) :=
  snd (legend.LegendParameters__init__body (H := colors)
         (Some (Float (1 # 2))) (Some (Int 2)) None None
         (Some "Sensation") None legend.blank).




End sample.

(** * Properties *)

(** ** The field table *)

Module epw_fields_facts.

Import epw.

Section Fields.

Context `{DataTypeModules}.

Lemma FIELDS_keys : FIELDS_items.*1 = map Z.of_nat (seq 0 35).
Proof. reflexivity. Qed.

Lemma FIELDS_lookup_in_range (k : nat) :
  (k < 35)%nat -> exists fd, FIELDS !! Z.of_nat k = Some fd.
Proof.
  intros Hk.
  do 35 (destruct k as [|k]; [vm_compute; eexists; reflexivity|]).
  lia.
Qed.

Lemma FIELDS_lookup_out_of_range (n : Z) :
  ~ (0 <= n <= 34) -> FIELDS !! n = None.
Proof.
  intros Hn. apply not_elem_of_list_to_map_1.
  rewrite FIELDS_keys. intros Hin.
  apply list_elem_of_In, in_map_iff in Hin as (k & <- & Hk).
  apply in_seq in Hk. lia.
Qed.

Lemma field_by_number_in_range (k : nat) :
  (k < 35)%nat ->
  exists fd, field_by_number (Z.of_nat k) = Ok (EPWField__init__ fd).
Proof.
  intros Hk. destruct (FIELDS_lookup_in_range k Hk) as [fd Hfd].
  exists fd. unfold field_by_number. now rewrite Hfd.
Qed.

(** C9, as the code has it: [field_by_number n] returns the descriptor
    built from entry [n] of the table for every [n] from 0 to 34, and
    for every other integer it raises [KeyError], the exception of a
    dictionary subscript. *)
Theorem field_by_number_domain (n : Z) :
  (0 <= n <= 34 ->
   exists fd, FIELDS !! n = Some fd /\
              field_by_number n = Ok (EPWField__init__ fd)) /\
  (~ (0 <= n <= 34) -> field_by_number n = Raise KeyError).
Proof.
  split.
  - intros Hn.
    destruct (FIELDS_lookup_in_range (Z.to_nat n)) as [fd Hfd]; [lia|].
    rewrite Z2Nat.id in Hfd by lia.
    exists fd. split; [exact Hfd|].
    unfold field_by_number. now rewrite Hfd.
  - intros Hn. unfold field_by_number.
    now rewrite FIELDS_lookup_out_of_range.
Qed.

End Fields.

(** Field 6 is found and field 35 is not. *)
Lemma field_by_number_domain_witness :
  (exists fd, FIELDS (H := sample.modules) !! 6 = Some fd /\
              field_by_number (H := sample.modules) 6
              = Ok (EPWField__init__ fd)) /\
  field_by_number (H := sample.modules) 35 = Raise KeyError.
Proof.
  split.
  - apply (proj1 (field_by_number_domain (H := sample.modules) 6)). lia.
  - apply (proj2 (field_by_number_domain (H := sample.modules) 35)). lia.
Defined.

(** C9 as stated fails: outside the range the error is a [KeyError], which
    [except IndexError] does not catch. *)
Lemma field_by_number_not_IndexError :
  field_by_number (H := sample.modules) 35 = Raise KeyError /\
  issubclass KeyError IndexError = false.
Proof. split; reflexivity. Qed.

End epw_fields_facts.

(** ** Data types and their dictionaries *)

Module DataType_facts.

Import DataType.

Lemma register_all_other (l : list DataTypeClass) (m : gmap string DataTypeClass)
    (nm : string) :
  nm ∉ map __name__ l -> fold_left register l m !! nm = m !! nm.
Proof.
  revert m. induction l as [|c l IH]; intros m Hnot; [reflexivity|].
  cbn [fold_left]. rewrite IH.
  - unfold register. apply lookup_insert_ne.
    intros Heq. apply Hnot. rewrite <- Heq. cbn. left.
  - intros Hin. apply Hnot. cbn. now right.
Qed.

Lemma register_all_member (l : list DataTypeClass)
    (m : gmap string DataTypeClass) (c : DataTypeClass) :
  NoDup (map __name__ l) -> c ∈ l ->
  fold_left register l m !! __name__ c = Some c.
Proof.
  revert m. induction l as [|c' l IH]; intros m Hnd Hin.
  - now apply elem_of_nil in Hin.
  - cbn in Hnd. apply NoDup_cons in Hnd as [Hfresh Hnd].
    cbn [fold_left]. apply elem_of_cons in Hin as [->|Hin].
    + rewrite register_all_other by exact Hfresh.
      unfold register. apply lookup_insert_eq.
    + now apply IH.
Qed.

(** A class that the enumeration visits is found under its name when the
    visited classes have distinct names. *)
Lemma _TYPES_lookup (subclasses : list ClassTree) (c : DataTypeClass) :
  NoDup (map __name__ (visited subclasses)) -> c ∈ visited subclasses ->
  _TYPES subclasses !! __name__ c = Some c.
Proof. apply register_all_member. Qed.

Lemma to_dict_lookups (d : t) (data : gmap string string) :
  to_dict d = Ok data ->
  data !! "name" = Some (name d) /\
  data !! "data_type" = Some (class_name d) /\
  exists u rest, units d = u :: rest /\ data !! "base_unit" = Some u.
Proof.
  unfold to_dict. destruct (units d) as [|u rest]; [discriminate|].
  cbn. intros [= <-].
  split; [now simplify_map_eq|]. split; [now simplify_map_eq|].
  exists u, rest. split; [reflexivity|]. now simplify_map_eq.
Qed.




End DataType_facts.

(** ** Ranges, unit names and default names of data types *)

Module DataType_range_facts.

Import Str DataType DataType_facts.

Lemma below_spec v b : below v b = false <-> at_least b v.
Proof.
  destruct b as [|q|]; cbn; [tauto| |split; [discriminate|tauto]].
  rewrite negb_false_iff. apply Qle_bool_iff.
Qed.

Lemma above_spec v b : above v b = false <-> at_most b v.
Proof.
  destruct b as [|q|]; cbn; [split; [discriminate|tauto]| |tauto].
  rewrite negb_false_iff. apply Qle_bool_iff.
Qed.

Lemma check_range_spec values mn mx re :
  (Forall (fun v => at_least mn v /\ at_most mx v) values ->
   check_range values mn mx re = Ok true)
  /\ (Exists (fun v => ~ (at_least mn v /\ at_most mx v)) values ->
      check_range values mn mx re
      = if re then Raise ValueError else Ok false).
Proof.
  induction values as [|v values [IHall IHsome]].
  - split; [reflexivity|]. intros Hex. now apply Exists_nil in Hex.
  - cbn [check_range]. split.
    + intros Hall. apply Forall_cons in Hall as [[Hlo Hhi] Hall].
      apply below_spec in Hlo. apply above_spec in Hhi.
      rewrite Hlo, Hhi. cbn. now apply IHall.
    + intros Hex.
      destruct (below v mn || above v mx) eqn:Hout.
      * now destruct re.
      * apply orb_false_iff in Hout as [Hlo Hhi].
        apply below_spec in Hlo. apply above_spec in Hhi.
        apply Exists_cons in Hex as [Hv|Hex]; [tauto|]. now apply IHsome.
Qed.

(** X1. On values in the base unit, [is_in_range] returns [True] when every
    value lies between the bounds of the data type; when one does not, it
    returns [False] if [raise_exception] is [False] and raises [ValueError]
    otherwise. No value at all is in range. *)
Theorem is_in_range_base_unit conversion (d : t) (values : list num)
    (unit : option string) (raise_exception : bool) :
  unit = None \/ unit = head (units d) ->
  (Forall (fun v => at_least (min d) v /\ at_most (max d) v) values ->
   is_in_range conversion d values unit raise_exception = Ok true)
  /\ (Exists (fun v => ~ (at_least (min d) v /\ at_most (max d) v)) values ->
      is_in_range conversion d values unit raise_exception
      = if raise_exception then Raise ValueError else Ok false).
Proof.
  intros Hunit.
  assert (Hb : is_in_range conversion d values unit raise_exception
               = check_range values (min d) (max d) raise_exception).
  { unfold is_in_range. destruct Hunit as [->| ->]; [reflexivity|].
    destruct (units d) as [|u0 rest]; [reflexivity|]. cbn.
    now rewrite String.eqb_refl. }
  rewrite Hb. apply check_range_spec.
Qed.

(** X2. A unit that the data type does not list makes [is_in_range] raise
    [ValueError] whatever the values are, also when [raise_exception] is
    [False]. *)
Theorem is_in_range_unknown_unit conversion (d : t) (values : list num)
    (u : string) (raise_exception : bool) :
  units d <> [] -> u ∉ units d ->
  is_in_range conversion d values (Some u) raise_exception
  = Raise ValueError.
Proof.
  intros Hunits Hu. unfold is_in_range, is_unit_acceptable.
  destruct (units d) as [|u0 rest] eqn:Hd; [contradiction|]. cbn [Py.bind].
  destruct (String.eqb_spec u u0) as [->|Hne].
  { exfalso. apply Hu. left. }
  assert (Hex : existsb (String.eqb u) (u0 :: rest) = false).
  { apply not_true_is_false. intros Hex.
    apply existsb_exists in Hex as (u' & Hin & Heq).
    apply String.eqb_eq in Heq. subst u'.
    apply Hu. now apply list_elem_of_In. }
  now rewrite Hex.
Qed.

Lemma occurs_app c s1 s2 :
  occurs c (s1 ++ s2) = occurs c s1 || occurs c s2.
Proof.
  induction s1 as [|c' s1 IH]; [reflexivity|].
  change (occurs c (String c' (s1 ++ s2))
          = occurs c (String c' s1) || occurs c s2).
  cbn [occurs]. now rewrite IH, orb_assoc.
Qed.

Lemma replace_char_occurs c old new s :
  occurs c (replace_char old new s)
  = (occurs old s && occurs c new)
    || (negb (Ascii.eqb c old) && occurs c s).
Proof.
  induction s as [|c' s IH]; [now rewrite andb_false_r|].
  cbn [replace_char occurs].
  destruct (Ascii.eqb_spec c' old) as [->|Hne].
  - rewrite occurs_app, IH. cbn [orb andb].
    destruct (Ascii.eqb_spec old c) as [->|Hoc].
    + rewrite Ascii.eqb_refl. cbn. now destruct (occurs c new), (occurs c s).
    + destruct (Ascii.eqb_spec c old) as [->|_]; [contradiction|]. cbn.
      now destruct (occurs c new), (occurs old s), (occurs c s).
  - cbn [occurs]. rewrite IH.
    destruct (Ascii.eqb_spec c' c) as [->|Hcc]; cbn.
    + destruct (Ascii.eqb_spec c old) as [->|_]; [contradiction|]. cbn.
      now rewrite orb_true_r.
    + reflexivity.
Qed.

Lemma replace_char_id old new s :
  occurs old s = false -> replace_char old new s = s.
Proof.
  induction s as [|c s IH]; [reflexivity|]. cbn.
  destruct (Ascii.eqb_spec c old); [discriminate|].
  cbn. intros Hs. now rewrite IH.
Qed.

(** X3. The text that [_clean] returns has none of the characters [/], [-],
    space and [%], and [_clean] leaves such a text as it is: cleaning twice
    is cleaning once. *)
Theorem _clean_characters (unit : string) :
  occurs "/" (_clean unit) = false
  /\ occurs "-" (_clean unit) = false
  /\ occurs " " (_clean unit) = false
  /\ occurs "%" (_clean unit) = false
  /\ _clean (_clean unit) = _clean unit.
Proof.
  assert (Hchars : occurs "/" (_clean unit) = false
                   /\ occurs "-" (_clean unit) = false
                   /\ occurs " " (_clean unit) = false
                   /\ occurs "%" (_clean unit) = false).
  { unfold _clean. rewrite !replace_char_occurs. cbn.
    repeat split; now rewrite ?andb_false_r, ?andb_false_l. }
  destruct Hchars as (H1 & H2 & H3 & H4).
  repeat split; try assumption.
  unfold _clean at 1.
  now rewrite (replace_char_id "/"), (replace_char_id "-"),
    (replace_char_id " "), (replace_char_id "%").
Qed.

Lemma is_upper_not_lower c : Str.is_upper c = true -> Str.is_lower c = false.
Proof.
  unfold Str.is_upper, Str.is_lower. intros Hu.
  apply andb_true_iff in Hu as [_ Hu]. apply N.leb_le in Hu.
  apply andb_false_iff. left. apply N.leb_gt. lia.
Qed.

Lemma upper_id c : Str.is_lower c = false -> Str.upper c = c.
Proof. unfold Str.upper. now intros ->. Qed.

Lemma lower_id c : Str.is_upper c = false -> Str.lower c = c.
Proof. unfold Str.lower. now intros ->. Qed.

Lemma is_word_alpha c : Str.is_word c = false -> Str.is_alpha c = false.
Proof.
  unfold Str.is_word. intros Hw.
  apply orb_false_iff in Hw as [Hw _]. now apply orb_false_iff in Hw as [Hw _].
Qed.

(** [title] and [replace(' ', '')] undo the spaces that the default name
    has before its capitals. *)
Lemma title_space_capitals (s : string) :
  forall (prev : option ascii) (after_letter : bool),
    after_letter = from_option Str.is_alpha false prev ->
    well_cased_from after_letter s = true ->
    Str.remove_spaces
      (Str.title_from after_letter (Str.space_capitals_from prev s))
    = s.
Proof.
  induction s as [|c s IH]; intros prev al Hal Hwc; [reflexivity|].
  cbn [well_cased_from] in Hwc.
  apply andb_true_iff in Hwc as [Hwc Hrest].
  apply andb_true_iff in Hwc as [Hspace Hlow].
  apply negb_true_iff in Hspace.
  cbn [Str.space_capitals_from]. cbv zeta.
  assert (Hplain :
    forall al', (Str.is_lower c = true -> al' = true) ->
                (Str.is_upper c = true -> al' = false) ->
    Str.remove_spaces
      (Str.title_from al'
         (String c (Str.space_capitals_from (Some c) s)))
    = String c s).
  { intros al' Hl Hu. cbn [Str.title_from].
    destruct (Str.is_alpha c) eqn:Halpha.
    - unfold Str.is_alpha in Halpha.
      destruct (Str.is_upper c) eqn:Hup.
      + rewrite (Hu eq_refl), (upper_id c (is_upper_not_lower c Hup)).
        cbn [Str.remove_spaces]. rewrite Hspace.
        f_equal. apply IH; [|exact Hrest].
        cbn. unfold Str.is_alpha. now rewrite Hup.
      + cbn in Halpha. rewrite (Hl Halpha), (lower_id c Hup).
        cbn [Str.remove_spaces]. rewrite Hspace.
        f_equal. apply IH; [|exact Hrest].
        cbn. unfold Str.is_alpha. now rewrite Hup, Halpha.
    - cbn [Str.remove_spaces]. rewrite Hspace.
      f_equal. apply IH; [|exact Hrest]. cbn. now rewrite Halpha. }
  destruct prev as [p|].
  - destruct (Str.is_word p && Str.is_upper c) eqn:Hins.
    + apply andb_true_iff in Hins as [_ Hup].
      cbn [Str.title_from].
      change (Str.is_alpha " ") with false. cbv iota.
      cbn [Str.remove_spaces]. change (Str.code " " =? 32)%N with true.
      cbv iota. refine (Hplain false _ _); [|reflexivity].
      intros Hl. now rewrite (is_upper_not_lower c Hup) in Hl.
    + apply Hplain.
      * intros Hl. rewrite Hl in Hlow. exact Hlow.
      * intros Hup. rewrite Hup, andb_true_r in Hins.
        rewrite Hal. cbn. now apply is_word_alpha.
  - apply Hplain.
    + intros Hl. rewrite Hl in Hlow. exact Hlow.
    + intros _. exact Hal.
Qed.

(** X4. An instance with the default name of a class whose name is well
    cased comes back from its dictionary as it was. *)
Theorem default_name_round_trip (subclasses : list ClassTree)
    (c : DataTypeClass) :
  NoDup (map __name__ (visited subclasses)) ->
  c ∈ visited subclasses ->
  __name__ c <> "GenericType" ->
  _units c <> [] ->
  well_cased (__name__ c) = true ->
  exists data,
    to_dict (Instance c None) = Ok data
    /\ from_dict subclasses data = Ok (Instance c None).
Proof.
  intros Hnd Hin Hgen Hunits Hwc.
  destruct (to_dict (Instance c None)) as [data|e] eqn:Hto.
  2:{ unfold to_dict in Hto. cbn in Hto.
      destruct (_units c); [congruence|discriminate]. }
  destruct (to_dict_lookups _ _ Hto) as (Hn & Ht & _).
  exists data. split; [reflexivity|].
  unfold from_dict. rewrite Hn, Ht. cbn [class_name name].
  destruct (String.eqb_spec (__name__ c) "GenericType") as [|_]; [easy|].
  rewrite (_TYPES_lookup _ _ Hnd Hin).
  unfold Str.title, Str.space_capitals.
  rewrite (title_space_capitals (__name__ c) None false eq_refl Hwc).
  now rewrite String.eqb_refl.
Qed.

(** Temperatures between absolute zero and any upper bound, and one
    below absolute zero. *)
Lemma is_in_range_base_unit_witness :
  is_in_range (fun _ _ _ b => Ok b) (Instance sample.Temperature None)
    [Int 20; Float (215 # 10)] None true = Ok true
  /\ is_in_range (fun _ _ _ b => Ok b) (Instance sample.Temperature None)
       [Int 20; Int (-300)] (Some "C") false = Ok false.
Proof.
  split.
  - apply (is_in_range_base_unit (fun _ _ _ b => Ok b)
             (Instance sample.Temperature None) _ None true);
      [now left|].
    repeat constructor; cbn; unfold Qle; cbn; lia.
  - apply (is_in_range_base_unit (fun _ _ _ b => Ok b)
             (Instance sample.Temperature None) _ (Some "C") false);
      [now right|].
    right. left. intros [Hlow _]. cbn in Hlow. unfold Qle in Hlow.
    cbn in Hlow. lia.
Defined.

Lemma is_in_range_unknown_unit_witness :
  is_in_range (fun _ _ _ b => Ok b) (Instance sample.Temperature None)
    [] (Some "m/s") false = Raise ValueError.
Proof.
  apply is_in_range_unknown_unit; [discriminate|].
  cbn. intros Hin. repeat (apply elem_of_cons in Hin as [Hin|Hin];
                           [discriminate|]).
  now apply elem_of_nil in Hin.
Defined.

Lemma default_name_round_trip_witness :
  exists data,
    to_dict (Instance sample.Temperature None) = Ok data
    /\ from_dict [Node sample.Temperature []] data
       = Ok (Instance sample.Temperature None).
Proof.
  apply default_name_round_trip.
  - vm_compute. repeat constructor. intros Hin. inversion Hin.
  - vm_compute. left.
  - discriminate.
  - discriminate.
  - reflexivity.
Defined.

End DataType_range_facts.

(** ** Outcomes of sequenced statements *)

Module St_facts.

Lemma bind_Ok {S A B} (m : St.t S A) (k : A -> St.t S B) (s s' : S) (b : B) :
  St.bind m k s = (Ok b, s') ->
  exists a s1, m s = (Ok a, s1) /\ k a s1 = (Ok b, s').
Proof.
  unfold St.bind. destruct (m s) as [[a|e] s1]; [eauto|discriminate].
Qed.

Lemma bind_Raise {S A B} (m : St.t S A) (k : A -> St.t S B) (s s' : S)
    (e : exn) :
  St.bind m k s = (Raise e, s') ->
  m s = (Raise e, s') \/
  exists a s1, m s = (Ok a, s1) /\ k a s1 = (Raise e, s').
Proof.
  unfold St.bind. destruct (m s) as [[a|e'] s1]; [eauto|].
  intros [= -> ->]. now left.
Qed.

Lemma bind_eq {S A B} (m : St.t S A) (k : A -> St.t S B) (s s1 : S) (a : A) :
  m s = (Ok a, s1) -> St.bind m k s = k a s1.
Proof. unfold St.bind. now intros ->. Qed.

Lemma bind_raise_eq {S A B} (m : St.t S A) (k : A -> St.t S B) (s s1 : S)
    (e : exn) :
  m s = (Raise e, s1) -> St.bind m k s = (Raise e, s1).
Proof. unfold St.bind. now intros ->. Qed.

Lemma try_except_Ok {S A} (body handler : St.t S A) (handled : exn)
    (s s' : S) (a : A) :
  St.try_except body handled handler s = (Ok a, s') ->
  body s = (Ok a, s') \/
  exists e s1, body s = (Raise e, s1) /\ issubclass e handled = true /\
               handler s1 = (Ok a, s').
Proof.
  unfold St.try_except. destruct (body s) as [[a'|e] s1]; [now left|].
  destruct (issubclass e handled) eqn:He; [|discriminate].
  intros Hh. right. now exists e, s1.
Qed.

(** *** Statements that keep a view *)

Import St.

Section Keeps.
Context {S V : Type} (view : S -> V).

Lemma keeps_bind {A B} (m : St.t S A) (k : A -> St.t S B) :
  keeps view m -> (forall a, keeps view (k a)) -> keeps view (St.bind m k).
Proof.
  intros Hm Hk s r s'. unfold St.bind.
  destruct (m s) as [[a|e] s1] eqn:Hms.
  - intros Hks. rewrite (Hk a _ _ _ Hks). exact (Hm _ _ _ Hms).
  - intros [= <- <-]. exact (Hm _ _ _ Hms).
Qed.

Lemma keeps_ret {A} (a : A) : keeps view (St.ret a).
Proof. intros s r s'. unfold St.ret. now intros [= <- <-]. Qed.

Lemma keeps_get : keeps view St.get.
Proof. intros s r s'. unfold St.get. now intros [= <- <-]. Qed.

Lemma keeps_lift {A} (x : result A) : keeps view (St.lift x).
Proof. intros s r s'. unfold St.lift. now intros [= <- <-]. Qed.

Lemma keeps_raise {A} (e : exn) : keeps view (St.raise (A := A) e).
Proof. intros s r s'. unfold St.raise. now intros [= <- <-]. Qed.

Lemma keeps_assert (b : bool) : keeps view (St.assert_ b).
Proof. intros s r s'. unfold St.assert_. now intros [= <- <-]. Qed.

Lemma keeps_modify (f : S -> S) :
  (forall s, view (f s) = view s) -> keeps view (St.modify f).
Proof. intros Hf s r s'. unfold St.modify. intros [= <- <-]. apply Hf. Qed.

Lemma keeps_try_except {A} (body handler : St.t S A) (handled : exn) :
  keeps view body -> keeps view handler ->
  keeps view (St.try_except body handled handler).
Proof.
  intros Hb Hh s r s'. unfold St.try_except.
  destruct (body s) as [[a|e] s1] eqn:Hbs.
  - intros [= <- <-]. exact (Hb _ _ _ Hbs).
  - destruct (issubclass e handled).
    + intros Hhs. rewrite (Hh _ _ _ Hhs). exact (Hb _ _ _ Hbs).
    + intros [= <- <-]. exact (Hb _ _ _ Hbs).
Qed.

End Keeps.

(** The steps of a proof that a sequence of statements keeps a view;
    [by_setter] closes the assignments. *)
Ltac keeps_with by_setter :=
  repeat first
    [ by_setter
    | apply keeps_ret | apply keeps_get | apply keeps_lift
    | apply keeps_raise | apply keeps_assert
    | apply keeps_bind; [|intros ?]
    | apply keeps_try_except
    | match goal with
      | |- keeps _ (if ?x then _ else _) => destruct x
      end
    | progress case_match ].

End St_facts.

(** ** Legends *)

Module legend_facts.

Import legend.

#[local] Existing Instance sample.colors.

(** *** Assignments that are refused *)

Lemma num_leb_false (a b : num) : (to_Q b < to_Q a)%Q -> num_leb a b = false.
Proof.
  intros Hlt. unfold num_leb. destruct (Qle_bool _ _) eqn:Hle; [|reflexivity].
  apply Qle_bool_iff in Hle. exfalso. exact (Qlt_not_le _ _ Hlt Hle).
Qed.

Lemma num_ltb_false (a b : num) : (to_Q b <= to_Q a)%Q -> num_ltb a b = false.
Proof.
  intros Hle. unfold num_ltb.
  apply Qle_bool_iff in Hle. now rewrite Hle.
Qed.

Section Setters.

Context {D : Type} `{Colorset}.

(** C6. On every parameter object, the assignment of a segment count
    below 2, of fewer than two colours, of a segment height, segment
    width or text height that is not positive, or of a minimum above the
    current maximum raises [AssertionError] and leaves the object, and so
    the stored value of the property, as it was. *)
Theorem malformed_assignment_rejected (self : LegendParameters D) :
  (forall nos : num, (to_Q nos < 2)%Q ->
     set_segment_count (Some nos) self = (Raise AssertionError, self)) /\
  (forall cols : list Color, (length cols < 2)%nat ->
     set_colors (Some cols) self = (Raise AssertionError, self)) /\
  (forall seg_h : num, (to_Q seg_h <= 0)%Q ->
     set_segment_height (Some seg_h) self = (Raise AssertionError, self)) /\
  (forall seg_w : num, (to_Q seg_w <= 0)%Q ->
     set_segment_width (Some seg_w) self = (Raise AssertionError, self)) /\
  (forall txt_h : num, (to_Q txt_h <= 0)%Q ->
     set_text_height (Some txt_h) self = (Raise AssertionError, self)) /\
  (forall minimum maximum : num,
     _max self = Some maximum -> (to_Q maximum < to_Q minimum)%Q ->
     set_min (Some minimum) self = (Raise AssertionError, self)).
Proof.
  repeat split.
  - intros nos Hlt. unfold set_segment_count, St.bind, St.assert_.
    destruct (is_int nos); [|reflexivity].
    now rewrite (num_leb_false (Int 2) nos Hlt).
  - intros cols Hlen. unfold set_colors, St.bind, St.assert_.
    destruct (Nat.ltb_spec 1 (length cols)); [lia|reflexivity].
  - intros v Hle. unfold set_segment_height, St.bind, St.assert_.
    now rewrite (num_ltb_false (Int 0) v Hle).
  - intros v Hle. unfold set_segment_width, St.bind, St.assert_.
    now rewrite (num_ltb_false (Int 0) v Hle).
  - intros v Hle. unfold set_text_height, St.bind, St.assert_.
    now rewrite (num_ltb_false (Int 0) v Hle).
  - intros m mx Hmax Hlt. unfold set_min, St.bind, St.get, St.assert_.
    rewrite Hmax. now rewrite (num_leb_false m mx Hlt).
Qed.

End Setters.

(** The six refusals on parameters with minimum 0 and maximum 10. *)
Lemma malformed_assignment_rejected_witness :
  let self : LegendParameters (gmap Z string) :=
    assign_max (Some (Int 10)) (assign_min (Some (Int 0)) blank) in
  set_segment_count (Some (Int 1)) self = (Raise AssertionError, self) /\
  set_colors (Some [ {| R := 0; G := 0; B := 0 |} ]) self
  = (Raise AssertionError, self) /\
  set_segment_height (Some (Int 0)) self = (Raise AssertionError, self) /\
  set_segment_width (Some (Float (-1 # 2))) self
  = (Raise AssertionError, self) /\
  set_text_height (Some (Int (-3))) self = (Raise AssertionError, self) /\
  set_min (Some (Int 11)) self = (Raise AssertionError, self).
Proof.
  intros self.
  destruct (malformed_assignment_rejected self)
    as (Hcount & Hcolors & Hheight & Hwidth & Htext & Hmin).
  split; [apply Hcount; reflexivity|].
  split; [apply Hcolors; cbn; lia|].
  split; [apply Hheight; discriminate|].
  split; [apply Hwidth; discriminate|].
  split; [apply Htext; discriminate|].
  apply (Hmin (Int 11) (Int 10)); reflexivity.
Defined.

(** *** What the assignments change *)

(** The attributes that the ordinal alignment of a graphic container
    reads and writes. *)
Definition core {D} (par : LegendParameters D) :=
  (_min par, _max par, _segment_count par, _is_segment_count_default par,
   _ordinal_dictionary par).

Ltac run :=
  unfold St.bind, St.get, St.modify, St.assert_, St.ret, St.raise, St.lift.

Ltac frame :=
  run; repeat case_match; intros; simplify_eq; reflexivity.

Ltac outcome :=
  run; repeat case_match; simplify_eq; intros; simplify_eq; reflexivity.

Section Frames.

Context {D : Type} `{Colorset}.

Lemma core_set_title v (s s' : LegendParameters D) r :
  set_title v s = (r, s') -> core s' = core s.
Proof. unfold set_title. frame. Qed.

Lemma core_set_segment_height v (s s' : LegendParameters D) r :
  set_segment_height v s = (r, s') -> core s' = core s.
Proof. unfold set_segment_height. frame. Qed.

Lemma core_set_segment_width v (s s' : LegendParameters D) r :
  set_segment_width v s = (r, s') -> core s' = core s.
Proof. unfold set_segment_width. frame. Qed.

Lemma core_set_base_plane v (s s' : LegendParameters D) r :
  set_base_plane v s = (r, s') -> core s' = core s.
Proof. unfold set_base_plane. frame. Qed.

Lemma core_set_colors v (s s' : LegendParameters D) r :
  set_colors v s = (r, s') -> core s' = core s.
Proof. unfold set_colors. frame. Qed.

Lemma core_set_continuous_colors v (s s' : LegendParameters D) r :
  set_continuous_colors v s = (r, s') -> core s' = core s.
Proof. unfold set_continuous_colors. frame. Qed.

Lemma core_set_continuous_legend v (s s' : LegendParameters D) r :
  set_continuous_legend v s = (r, s') -> core s' = core s.
Proof. unfold set_continuous_legend. frame. Qed.

Lemma core_set_decimal_count v (s s' : LegendParameters D) r :
  set_decimal_count v s = (r, s') -> core s' = core s.
Proof. unfold set_decimal_count. frame. Qed.

Lemma core_set_include_larger_smaller v (s s' : LegendParameters D) r :
  set_include_larger_smaller v s = (r, s') -> core s' = core s.
Proof. unfold set_include_larger_smaller. frame. Qed.

Lemma core_set_vertical v (s s' : LegendParameters D) r :
  set_vertical v s = (r, s') -> core s' = core s.
Proof. unfold set_vertical. frame. Qed.

Lemma core_set_text_height v (s s' : LegendParameters D) r :
  set_text_height v s = (r, s') -> core s' = core s.
Proof. unfold set_text_height. frame. Qed.

Lemma core_set_font v (s s' : LegendParameters D) r :
  set_font v s = (r, s') -> core s' = core s.
Proof. unfold set_font. frame. Qed.

Lemma set_min_Ok v (s s' : LegendParameters D) u :
  set_min v s = (Ok u, s') -> s' = assign_min v s.
Proof. unfold set_min. outcome. Qed.

Lemma set_max_Ok v (s s' : LegendParameters D) u :
  set_max v s = (Ok u, s') -> s' = assign_max v s.
Proof. unfold set_max. outcome. Qed.

Lemma set_segment_count_Ok v (s s' : LegendParameters D) u :
  set_segment_count v s = (Ok u, s') ->
  s' = assign_is_segment_count_default (bool_decide (v = None))
         (assign_segment_count (from_option Num.int 11 v) s).
Proof.
  unfold set_segment_count. outcome.
Qed.

Lemma set_segment_count_Raise v (s s' : LegendParameters D) e :
  set_segment_count v s = (Raise e, s') -> e = AssertionError.
Proof.
  unfold set_segment_count. outcome.
Qed.

Lemma set_min_Raise v (s s' : LegendParameters D) e :
  set_min v s = (Raise e, s') -> e = AssertionError.
Proof. unfold set_min. outcome. Qed.

Lemma set_max_Raise v (s s' : LegendParameters D) e :
  set_max v s = (Raise e, s') -> e = AssertionError.
Proof. unfold set_max. outcome. Qed.

Lemma set_ordinal_dictionary_Ok v (s s' : LegendParameters D) r :
  set_ordinal_dictionary v s = (r, s') ->
  r = Ok tt /\ s' = assign_ordinal_dictionary v s.
Proof. unfold set_ordinal_dictionary. run. now intros [= <- <-]. Qed.

Lemma modify_Ok {S} (f : S -> S) (s s' : S) r :
  St.modify f s = (r, s') -> s' = f s.
Proof. unfold St.modify. now intros [= <- <-]. Qed.

End Frames.

(** One statement of a sequence that returned. *)
Ltac next H :=
  let Hs := fresh "Hstep" in
  apply St_facts.bind_Ok in H as (? & ? & Hs & H).

Tactic Notation "step" hyp(H) "as" ident(a) ident(s) ident(Hs) :=
  apply St_facts.bind_Ok in H as (a & s & Hs & H).

(** The statements that do not assign the attributes of [core]. *)
Ltac frames :=
  repeat match goal with
    | Hx : set_title _ _ = (_, _) |- _ => apply core_set_title in Hx
    | Hx : set_segment_height _ _ = (_, _) |- _ => apply core_set_segment_height in Hx
    | Hx : set_segment_width _ _ = (_, _) |- _ => apply core_set_segment_width in Hx
    | Hx : set_base_plane _ _ = (_, _) |- _ => apply core_set_base_plane in Hx
    | Hx : set_colors _ _ = (_, _) |- _ => apply core_set_colors in Hx
    | Hx : set_continuous_colors _ _ = (_, _) |- _ => apply core_set_continuous_colors in Hx
    | Hx : set_continuous_legend _ _ = (_, _) |- _ => apply core_set_continuous_legend in Hx
    | Hx : set_decimal_count _ _ = (_, _) |- _ => apply core_set_decimal_count in Hx
    | Hx : set_include_larger_smaller _ _ = (_, _) |- _ => apply core_set_include_larger_smaller in Hx
    | Hx : set_vertical _ _ = (_, _) |- _ => apply core_set_vertical in Hx
    | Hx : set_text_height _ _ = (_, _) |- _ => apply core_set_text_height in Hx
    | Hx : set_font _ _ = (_, _) |- _ => apply core_set_font in Hx
    end.

(** The state after the statements that assign them. *)
Ltac assigned :=
  repeat match goal with
    | Hx : set_min _ _ = (Ok _, _) |- _ =>
        apply set_min_Ok in Hx; subst
    | Hx : set_max _ _ = (Ok _, _) |- _ =>
        apply set_max_Ok in Hx; subst
    | Hx : set_segment_count _ _ = (Ok _, _) |- _ =>
        apply set_segment_count_Ok in Hx; subst
    | Hx : set_ordinal_dictionary _ _ = (_, _) |- _ =>
        apply set_ordinal_dictionary_Ok in Hx as [_ ->]
    | Hx : St.modify _ _ = (_, _) |- _ =>
        apply modify_Ok in Hx; subst
    | Hx : St.get _ = (_, _) |- _ =>
        unfold St.get in Hx; injection Hx as <- <-
    | Hx : St.ret _ _ = (Ok _, _) |- _ =>
        unfold St.ret in Hx; injection Hx as <- <-
    | Hx : St.lift _ _ = (Ok _, _) |- _ =>
        unfold St.lift in Hx; injection Hx as Hx <-
    end.

Section Construction.

Context {D : Type} `{Colorset}.

(** What [LegendParameters(min, max, segment_count, ...)] holds. *)
Lemma LegendParameters__init__core mn mx sc cols t bp
    (np : LegendParameters D) :
  LegendParameters__init__ mn mx sc cols t bp = Ok np ->
  core np = (mn, mx, from_option Num.int 11 sc, bool_decide (sc = None), None).
Proof.
  unfold LegendParameters__init__, St.built.
  destruct (LegendParameters__init__body mn mx sc cols t bp blank)
    as [[u|e] s] eqn:Hb; [|discriminate].
  intros [= <-]. unfold LegendParameters__init__body in Hb.
  do 17 next Hb.
  frames. assigned. unfold core in *. cbn in *. congruence.
Qed.

Lemma duplicate_core (p q : LegendParameters D) :
  duplicate p = Ok q -> core q = core p.
Proof.
  unfold duplicate, LegendParameters__copy__.
  destruct (LegendParameters__init__ _ _ _ _ _ _) as [np|e] eqn:Hnp;
    [|discriminate].
  cbn [Py.bind]. intros [= <-].
  apply LegendParameters__init__core in Hnp.
  unfold core in *. cbn in *. congruence.
Qed.

(** What the defaults of [Legend.__init__] change. *)
Lemma Legend__init__defaults_core (values : list num)
    (q q' : LegendParameters D) (flags : bool * bool) :
  Legend__init__defaults values q = (Ok flags, q') ->
  flags = (bool_decide (_min q = None), bool_decide (_max q = None)) /\
  (forall m, _min q = Some m -> _min q' = Some m) /\
  (forall m, _max q = Some m -> _max q' = Some m) /\
  is_Some (_min q') /\ is_Some (_max q') /\
  _segment_count q' = _segment_count q /\
  _is_segment_count_default q' = _is_segment_count_default q /\
  _ordinal_dictionary q' = _ordinal_dictionary q.
Proof.
  intros Hd. unfold Legend__init__defaults in Hd.
  step Hd as par0 s0 Hget0. assigned.
  step Hd as fmin s1 Hmin.
  step Hd as par1 s1' Hget1. assigned.
  step Hd as fmax s2 Hmax.
  step Hd as par2 s2' Hget2. assigned.
  step Hd as u s3 Hw. unfold St.ret in Hd. injection Hd as <- <-.
  assert (H1 : core s1 = (match _min q with
                          | Some m => Some m
                          | None => _min s1
                          end, _max q,
                          _segment_count q, _is_segment_count_default q,
                          _ordinal_dictionary q) /\
               fmin = bool_decide (_min q = None) /\ is_Some (_min s1)).
  { destruct (_min q) as [m|] eqn:Hm.
    - assigned. unfold core. rewrite Hm. eauto.
    - step Hmin as mn s Hlift. step Hmin as u' s' Hset. assigned.
      cbn. eauto. }
  destruct H1 as (Hcore1 & -> & Hsome1).
  assert (H2 : core s2 = (_min s1, match _max s1 with
                                   | Some m => Some m
                                   | None => _max s2
                                   end,
                          _segment_count s1, _is_segment_count_default s1,
                          _ordinal_dictionary s1) /\
               fmax = bool_decide (_max s1 = None) /\ is_Some (_max s2)).
  { destruct (_max s1) as [m|] eqn:Hm.
    - assigned. unfold core. rewrite Hm. eauto.
    - step Hmax as mx s Hlift. step Hmax as u' s' Hset. assigned.
      cbn. eauto. }
  destruct H2 as (Hcore2 & -> & Hsome2).
  assert (H3 : core s3 = core s2).
  { destruct (negb (_vertical s2) && _is_segment_width_default s2).
    - destruct (text_height s2), (_max s2); try discriminate.
      frames. exact Hw.
    - now assigned. }
  unfold core in *.
  injection Hcore1 as E1 E2 E3 E4 E5.
  injection Hcore2 as F1 F2 F3 F4 F5.
  injection H3 as G1 G2 G3 G4 G5.
  split; [now rewrite E2|].
  split; [intros m Hm; now rewrite G1, F1, E1, Hm|].
  split; [intros m Hm; now rewrite G2, F2, E2, Hm|].
  split; [now rewrite G1, F1|].
  split; [now rewrite G2|].
  split; [now rewrite G3, F3, E3|].
  split; [now rewrite G4, F4, E4|].
  now rewrite G5, F5, E5.
Qed.

(** What [Legend(values, legend_parameters)] takes from the parameters it
    is given. *)
Lemma Legend__init__core (values : list num)
    (lp : option (LegendParameters D)) (lg : Legend D) :
  Legend__init__ values lp = Ok lg ->
  let par := _legend_par lg in
  _is_min_default lg = bool_decide (lp ≫= _min = None) /\
  _is_max_default lg = bool_decide (lp ≫= _max = None) /\
  (forall m, lp ≫= _min = Some m -> _min par = Some m) /\
  (forall m, lp ≫= _max = Some m -> _max par = Some m) /\
  is_Some (_min par) /\ is_Some (_max par) /\
  _segment_count par = from_option _segment_count 11 lp /\
  _is_segment_count_default par
  = from_option _is_segment_count_default true lp /\
  _ordinal_dictionary par = lp ≫= _ordinal_dictionary.
Proof.
  unfold Legend__init__.
  assert (Hq : forall q,
            match lp with
            | Some p => duplicate p
            | None => LegendParameters__init__ None None None None None None
            end = Ok q ->
            core q = (lp ≫= _min, lp ≫= _max,
                      from_option _segment_count 11 lp,
                      from_option _is_segment_count_default true lp,
                      lp ≫= _ordinal_dictionary)).
  { intros q Hinit. destruct lp as [p|].
    - apply duplicate_core in Hinit. exact Hinit.
    - apply LegendParameters__init__core in Hinit. exact Hinit. }
  destruct (match lp with Some p => _ | None => _ end) as [q|e];
    [|discriminate].
  specialize (Hq q eq_refl). cbn [Py.bind].
  destruct (Legend__init__defaults values q) as [[[fmin fmax]|e] q'] eqn:Hd;
    [|discriminate].
  intros [= <-]. cbn.
  apply Legend__init__defaults_core in Hd
    as (Hf & Hmin & Hmax & Hsmin & Hsmax & Hsc & Hscd & Hod).
  unfold core in Hq. injection Hq as E1 E2 E3 E4 E5. injection Hf as -> ->.
  rewrite <- E1, <- E2, <- E3, <- E4, <- E5. tauto.
Qed.

End Construction.


End legend_facts.

(** ** Legends and shared parameter objects *)

Module legend_store_facts.

Import legend legend_store.

Section Copy.

Context `{Colorset}.

Lemma fresh_address_ne (st : Store) (p : address)
    (par : LegendParameters address) :
  parameters st !! p = Some par -> fresh (dom (parameters st)) <> p.
Proof.
  intros Hp Heq.
  apply (is_fresh (dom (parameters st))). rewrite Heq.
  apply elem_of_dom. now exists par.
Qed.

(** C10, as the code has it. [Legend(values, p)] never changes the
    parameter object [p] nor any dictionary, whether it returns or
    raises; the legend it returns holds another parameter object, and no
    later statement on the attributes of [p] (an assignment to any of its
    properties) changes that object. *)
Theorem Legend__init__copies_parameters (values : list num) (p : address)
    (st : Store) :
  parameters (snd (Legend__init__ values p st)) !! p = parameters st !! p /\
  dictionaries (snd (Legend__init__ values p st)) = dictionaries st /\
  forall lg : LegendObject,
    fst (Legend__init__ values p st) = Ok lg ->
    _legend_par lg <> p /\
    forall (A : Type) (m : St.t (LegendParameters address) A),
      parameters (snd (at_address p m (snd (Legend__init__ values p st))))
        !! _legend_par lg
      = parameters (snd (Legend__init__ values p st)) !! _legend_par lg.
Proof.
  unfold Legend__init__, St.bind, St.get, St.lift, allocate, at_address,
    St.ret, St.raise.
  destruct (parameters st !! p) as [par|] eqn:Hp.
  2:{ cbn. rewrite Hp. split; [reflexivity|]. split; [reflexivity|].
      discriminate. }
  destruct (duplicate par) as [new_par|e].
  2:{ cbn. rewrite Hp. split; [reflexivity|]. split; [reflexivity|].
      discriminate. }
  pose proof (fresh_address_ne st p par Hp) as Hq.
  set (q := fresh (dom (parameters st))) in *.
  cbn -[Legend__init__defaults]. rewrite lookup_insert_eq.
  destruct (Legend__init__defaults values new_par) as [[flags|e] par'];
    cbn; rewrite !lookup_insert_ne by exact Hq;
    (split; [exact Hp|]); (split; [reflexivity|]); [|discriminate].
  intros lg [= <-]. cbn. split; [exact Hq|].
  intros A m. rewrite Hp. destruct (m par) as [r par'']. cbn.
  rewrite lookup_insert_ne by congruence. reflexivity.
Qed.

End Copy.

#[local] Existing Instance sample.colors.

(** A legend built from the parameter object at address 1: the object is
    untouched, the legend has the new object at address 2, and
    [p.min = -5] leaves the legend's object alone. *)
Lemma Legend__init__copies_parameters_witness :
  exists lg : LegendObject,
    fst (Legend__init__ (map Int [0; 10]) 1%positive sample.level_store)
    = Ok lg /\
    _legend_par lg <> 1%positive /\
    parameters
      (snd (at_address 1%positive (set_min (Some (Int (-5))))
              (snd (Legend__init__ (map Int [0; 10]) 1%positive
                      sample.level_store))))
      !! _legend_par lg
    = parameters (snd (Legend__init__ (map Int [0; 10]) 1%positive
                         sample.level_store)) !! _legend_par lg.
Proof.
  destruct (Legend__init__copies_parameters (map Int [0; 10]) 1%positive
              sample.level_store) as (_ & _ & Hlg).
  eexists. split; [vm_compute; reflexivity|].
  specialize (Hlg _ eq_refl) as [Hne Hsame].
  split; [exact Hne|]. apply Hsame.
Defined.

(** C10 as stated fails: the copy shares the ordinal dictionary of [p],
    so [p.ordinal_dictionary[5] = 'changed'] after the construction
    changes the segment texts of the legend. *)
Lemma shared_ordinal_dictionary :
  exists (lg : LegendObject) (st st' : Store),
    Legend__init__ (map Int [0; 10]) 1%positive sample.level_store
    = (Ok lg, st) /\
    ordinal_dictionary_setitem 1%positive 5 "changed" st = (Ok tt, st') /\
    segment_text lg st = Ok ["low"; "middle"; "high"] /\
    segment_text lg st' = Ok ["low"; "changed"; "high"].
Proof.
  eexists. eexists. eexists.
  split; [vm_compute; reflexivity|].
  split; [vm_compute; reflexivity|].
  split; vm_compute; reflexivity.
Qed.

End legend_store_facts.

(** ** Binary64 arithmetic on ints *)

Module binary64_facts.

Import binary64.

Lemma digits2_pos_size (p : positive) : digits2_pos p = Pos.size p.
Proof. induction p as [p IH|p IH|]; cbn; now rewrite ?IH. Qed.


Lemma digits2_pos_bound (p : positive) :
  Z.pos p < 2 ^ 53 -> Z.pos (digits2_pos p) <= 53.
Proof.
  intros Hp. rewrite digits2_pos_size.
  destruct (Z.le_gt_cases (Z.pos (Pos.size p)) 53) as [Hle|Hgt]; [exact Hle|].
  exfalso. pose proof (Pos.size_le p) as Hsize.
  apply Pos2Z.pos_le_pos in Hsize. rewrite Pos2Z.inj_pow in Hsize.
  assert (H54 : 2 ^ 54 <= 2 ^ Z.pos (Pos.size p)).
  { apply Z.pow_le_mono_r; lia. }
  change (2 ^ 53) with 9007199254740992 in Hp.
  change (2 ^ 54) with 18014398509481984 in H54.
  lia.
Qed.

(** A mantissa of 53 bits with an exponent in range is left as it is. *)
Lemma binary_round_aux_canonical (s : bool) (m : positive) (e : Z) :
  Z.pos (digits2_pos m) = 53 -> -1074 <= e <= 971 ->
  binary_round_aux prec emax s (Z.pos m) e loc_Exact = S754_finite s m e.
Proof.
  intros Hm He.
  assert (Hfexp : fexp prec emax (53 + e) - e = 0).
  { unfold fexp, emin, prec, emax. lia. }
  unfold binary_round_aux, shr_fexp. cbn [Zdigits2 shr_record_of_loc].
  rewrite Hm, Hfexp.
  cbn [shr shr_m loc_of_shr_record round_nearest_even shr_r shr_s
       Zdigits2 shr_record_of_loc].
  rewrite Hm, Hfexp. cbn [shr shr_m].
  destruct (_ <=? _)%Z eqn:Hle; [reflexivity|].
  apply Z.leb_gt in Hle. unfold emax, prec in Hle. lia.
Qed.




(** *** Rounding that loses nothing *)


Lemma shl_digits (p : positive) (k : nat) :
  Z.pos (digits2_pos (shl p k)) = Z.pos (digits2_pos p) + Z.of_nat k.
Proof.
  induction k as [|k IH]; [cbn; lia|].
  unfold shl in *. rewrite Nat.iter_succ. cbn [digits2_pos]. lia.
Qed.

Lemma shl_shl (p : positive) (j k : nat) : shl (shl p j) k = shl p (j + k).
Proof.
  unfold shl. rewrite Nat.add_comm. now rewrite Nat.iter_add.
Qed.

Lemma iter_xO (p d : positive) : Pos.iter xO p d = shl p (Pos.to_nat d).
Proof. unfold shl. apply Pos2Nat.inj_iter. Qed.

Lemma iter_pos_nat {A} (f : A -> A) (k : positive) (x : A) :
  SpecFloat.iter_pos f k x = Nat.iter (Pos.to_nat k) f x.
Proof.
  revert x. induction k as [k IH|k IH|]; intros x; cbn [SpecFloat.iter_pos].
  - rewrite !IH, Pos2Nat.inj_xI.
    replace (S (2 * Pos.to_nat k))%nat
      with (Pos.to_nat k + S (Pos.to_nat k))%nat by lia.
    now rewrite Nat.iter_add, Nat.iter_succ_r.
  - rewrite !IH, Pos2Nat.inj_xO.
    replace (2 * Pos.to_nat k)%nat with (Pos.to_nat k + Pos.to_nat k)%nat
      by lia.
    now rewrite Nat.iter_add.
  - reflexivity.
Qed.

(** Shifting out bits that are zero loses nothing. *)
Lemma shr_exact (p : positive) (k : nat) :
  Nat.iter k shr_1
    {| shr_m := Z.pos (shl p k); shr_r := false; shr_s := false |}
  = {| shr_m := Z.pos p; shr_r := false; shr_s := false |}.
Proof.
  induction k as [|k IH]; [reflexivity|].
  rewrite Nat.iter_succ_r. unfold shl. rewrite Nat.iter_succ.
  cbn [shr_1 orb]. exact IH.
Qed.

(** A mantissa of 53 bits followed by zeros keeps its 53 bits. *)
Lemma binary_round_aux_zeros (s : bool) (t : positive) (k : nat) (e : Z) :
  Z.pos (digits2_pos t) = 53 -> -1074 <= e + Z.of_nat k <= 971 ->
  binary_round_aux prec emax s (Z.pos (shl t k)) e loc_Exact
  = S754_finite s t (e + Z.of_nat k).
Proof.
  intros Ht He.
  destruct k as [|k].
  { rewrite Z.add_0_r in *. now apply binary_round_aux_canonical. }
  assert (Hfexp : fexp prec emax
                    (Z.pos (digits2_pos (shl t (S k))) + e) - e
                  = Z.pos (Pos.of_succ_nat k)).
  { rewrite shl_digits, Ht. unfold fexp, emin, prec, emax. lia. }
  assert (Hfexp' : fexp prec emax (53 + (e + Z.pos (Pos.of_succ_nat k)))
                   - (e + Z.pos (Pos.of_succ_nat k)) = 0).
  { unfold fexp, emin, prec, emax. lia. }
  unfold binary_round_aux, shr_fexp. cbn [Zdigits2 shr_record_of_loc].
  rewrite Hfexp. cbn [shr].
  rewrite iter_pos_nat, SuccNat2Pos.id_succ, shr_exact.
  cbn [shr_m loc_of_shr_record round_nearest_even shr_r shr_s Zdigits2
       shr_record_of_loc].
  rewrite Ht, Hfexp'. cbn [shr shr_m].
  replace (Z.of_nat (S k)) with (Z.pos (Pos.of_succ_nat k)) by lia.
  destruct (_ <=? _)%Z eqn:Hle; [reflexivity|].
  apply Z.leb_gt in Hle. unfold emax, prec in Hle. lia.
Qed.

Lemma binary_round_aux_exact (s : bool) (c : positive) (j : nat) :
  Z.pos (digits2_pos c) <= 53 ->
  (Z.to_nat (53 - Z.pos (digits2_pos c)) <= j)%nat -> (j <= 1000)%nat ->
  binary_round_aux prec emax s (Z.pos (shl c j)) (- Z.of_nat j) loc_Exact
  = canonical s c.
Proof.
  intros Hc Hj Hbig. unfold canonical.
  set (a := Z.to_nat (53 - Z.pos (digits2_pos c))) in *.
  replace j with (a + (j - a))%nat at 1 by lia.
  rewrite <- shl_shl.
  rewrite binary_round_aux_zeros.
  - f_equal. lia.
  - rewrite shl_digits. lia.
  - lia.
Qed.

Lemma binary_round_exact (s : bool) (c : positive) (g : nat) :
  Z.pos (digits2_pos c) <= 53 -> (g <= 1000)%nat ->
  binary_round prec emax s (shl c g) (- Z.of_nat g) = canonical s c.
Proof.
  intros Hc Hg. unfold binary_round.
  assert (Hfexp : fexp prec emax
                    (Z.pos (digits2_pos (shl c g)) + - Z.of_nat g)
                  = Z.pos (digits2_pos c) - 53).
  { rewrite shl_digits. unfold fexp, emin, prec, emax. lia. }
  rewrite Hfexp. unfold shl_align.
  destruct (Z.pos (digits2_pos c) - 53 - - Z.of_nat g) as [|k|k] eqn:Hk.
  - apply binary_round_aux_exact; lia.
  - apply binary_round_aux_exact; lia.
  - rewrite iter_xO, shl_shl.
    replace (g + Pos.to_nat k)%nat
      with (Z.to_nat (53 - Z.pos (digits2_pos c))) by lia.
    rewrite binary_round_aux_canonical; [reflexivity| |lia].
    rewrite shl_digits. lia.
Qed.

Lemma nearest_int_pos (c : positive) :
  Z.pos c < 2 ^ 53 -> nearest_int (Z.pos c) = canonical false c.
Proof.
  intros Hc. unfold nearest_int. cbn [binary_normalize].
  apply (binary_round_exact false c 0); [|lia].
  now apply digits2_pos_bound.
Qed.

Lemma nearest_int_neg (c : positive) :
  Z.pos c < 2 ^ 53 -> nearest_int (Z.neg c) = canonical true c.
Proof.
  intros Hc. unfold nearest_int. cbn [binary_normalize].
  apply (binary_round_exact true c 0); [|lia].
  now apply digits2_pos_bound.
Qed.

(** *** The digits of a product *)







(** *** Products, sums and quotients of ints below [2 ^ 53] *)



Lemma nearest_int_signed (s : bool) (c : positive) :
  Z.pos c < 2 ^ 53 -> nearest_int (signed s c) = canonical s c.
Proof.
  destruct s; [apply nearest_int_neg|apply nearest_int_pos].
Qed.








(** *** The value of the float of an int *)






End binary64_facts.

(** ** The numbers of a legend in binary64 *)

Module legend_binary64_facts.

Import legend binary64 legend_binary64 binary64_facts.




Section Numbers.

Context {D : Type} `{Colorset}.



End Numbers.

#[local] Existing Instance sample.colors.



End legend_binary64_facts.

(** ** Well-formed parameters, copies and legends *)

Module legend_invariant_facts.

Import St St_facts legend legend_facts.

Ltac by_modify :=
  apply keeps_modify; intros s0; destruct s0; reflexivity.

Section Invariant.

Context {D : Type} `{Colorset}.

Lemma num_leb_true a b : num_leb a b = true -> (to_Q a <= to_Q b)%Q.
Proof. apply Qle_bool_iff. Qed.

Lemma num_ltb_true a b : num_ltb a b = true -> (to_Q a < to_Q b)%Q.
Proof.
  unfold num_ltb. intros Hlt. apply negb_true_iff in Hlt.
  apply Qnot_le_lt. intros Hle. apply Qle_bool_iff in Hle. congruence.
Qed.

Lemma int_at_least_2 v :
  is_int v = true -> (to_Q (Int 2) <= to_Q v)%Q -> 2 <= Num.int v.
Proof.
  destruct v as [z|q]; [|discriminate]. intros _ Hle.
  unfold Qle, to_Q, inject_Z in Hle.
  cbn [Qnum Qden] in Hle. cbn [Num.int]. lia.
Qed.

Ltac setter H :=
  unfold St.bind, St.get, St.modify, St.assert_, St.ret, St.raise, St.lift
    in H;
  repeat case_match; simplify_eq;
  repeat match goal with
    | Hx : num_leb _ _ = true |- _ => apply num_leb_true in Hx
    | Hx : num_ltb _ _ = true |- _ => apply num_ltb_true in Hx
    end.

Ltac keep :=
  match goal with
  | Hwf : well_formed _ |- well_formed _ =>
      destruct Hwf as (Hmm & Hsc & Hcol & Hsh & Hsw & Hth & Hthd);
      unfold well_formed; cbn;
      repeat split; intros; simplify_eq; eauto
  end.

Lemma well_formed_set_min v (p p' : LegendParameters D) r :
  well_formed p -> set_min v p = (r, p') -> well_formed p'.
Proof. intros Hwf Hs. unfold set_min in Hs. setter Hs; keep. Qed.

Lemma well_formed_set_max v (p p' : LegendParameters D) r :
  well_formed p -> set_max v p = (r, p') -> well_formed p'.
Proof. intros Hwf Hs. unfold set_max in Hs. setter Hs; keep. Qed.

Lemma well_formed_set_segment_count v (p p' : LegendParameters D) r :
  well_formed p -> set_segment_count v p = (r, p') -> well_formed p'.
Proof.
  intros Hwf Hs. unfold set_segment_count in Hs. setter Hs; keep.
  - now apply int_at_least_2.
  - lia.
Qed.

Lemma well_formed_set_colors v (p p' : LegendParameters D) r :
  (1 < length original)%nat ->
  well_formed p -> set_colors v p = (r, p') -> well_formed p'.
Proof.
  intros Horig Hwf Hs. unfold set_colors in Hs. setter Hs; keep.
  now apply Nat.ltb_lt.
Qed.

Lemma well_formed_set_segment_height v (p p' : LegendParameters D) r :
  well_formed p -> set_segment_height v p = (r, p') -> well_formed p'.
Proof.
  intros Hwf Hs. unfold set_segment_height in Hs. setter Hs; keep.
Qed.

Lemma well_formed_set_segment_width v (p p' : LegendParameters D) r :
  well_formed p -> set_segment_width v p = (r, p') -> well_formed p'.
Proof.
  intros Hwf Hs. unfold set_segment_width in Hs. setter Hs; keep.
Qed.

Lemma well_formed_set_text_height v (p p' : LegendParameters D) r :
  well_formed p -> set_text_height v p = (r, p') -> well_formed p'.
Proof.
  intros Hwf Hs. unfold set_text_height in Hs. setter Hs; keep.
Qed.

Lemma well_formed_set_title v (p p' : LegendParameters D) r :
  well_formed p -> set_title v p = (r, p') -> well_formed p'.
Proof. intros Hwf Hs. unfold set_title in Hs. setter Hs; keep. Qed.

Lemma well_formed_set_base_plane v (p p' : LegendParameters D) r :
  well_formed p -> set_base_plane v p = (r, p') -> well_formed p'.
Proof. intros Hwf Hs. unfold set_base_plane in Hs. setter Hs; keep. Qed.

Lemma well_formed_set_continuous_colors v (p p' : LegendParameters D) r :
  well_formed p -> set_continuous_colors v p = (r, p') -> well_formed p'.
Proof.
  intros Hwf Hs. unfold set_continuous_colors in Hs. setter Hs; keep.
Qed.

Lemma well_formed_set_continuous_legend v (p p' : LegendParameters D) r :
  well_formed p -> set_continuous_legend v p = (r, p') -> well_formed p'.
Proof.
  intros Hwf Hs. unfold set_continuous_legend in Hs. setter Hs; keep.
Qed.

Lemma well_formed_set_ordinal_dictionary v (p p' : LegendParameters D) r :
  well_formed p -> set_ordinal_dictionary v p = (r, p') -> well_formed p'.
Proof.
  intros Hwf Hs. unfold set_ordinal_dictionary in Hs. setter Hs; keep.
Qed.

Lemma well_formed_set_decimal_count v (p p' : LegendParameters D) r :
  well_formed p -> set_decimal_count v p = (r, p') -> well_formed p'.
Proof.
  intros Hwf Hs. unfold set_decimal_count in Hs. setter Hs; keep.
Qed.

Lemma well_formed_set_include_larger_smaller v (p p' : LegendParameters D)
    r :
  well_formed p -> set_include_larger_smaller v p = (r, p') ->
  well_formed p'.
Proof.
  intros Hwf Hs. unfold set_include_larger_smaller in Hs. setter Hs; keep.
Qed.

Lemma well_formed_set_vertical v (p p' : LegendParameters D) r :
  well_formed p -> set_vertical v p = (r, p') -> well_formed p'.
Proof. intros Hwf Hs. unfold set_vertical in Hs. setter Hs; keep. Qed.

Lemma well_formed_set_font v (p p' : LegendParameters D) r :
  well_formed p -> set_font v p = (r, p') -> well_formed p'.
Proof. intros Hwf Hs. unfold set_font in Hs. setter Hs; keep. Qed.


Ltac setters :=
  repeat match goal with
    | Hx : set_min _ _ = _ |- _ => unfold set_min in Hx; setter Hx
    | Hx : set_max _ _ = _ |- _ => unfold set_max in Hx; setter Hx
    | Hx : set_segment_count _ _ = _ |- _ =>
        unfold set_segment_count in Hx; setter Hx
    | Hx : set_colors _ _ = _ |- _ => unfold set_colors in Hx; setter Hx
    | Hx : set_title _ _ = _ |- _ => unfold set_title in Hx; setter Hx
    | Hx : set_base_plane _ _ = _ |- _ =>
        unfold set_base_plane in Hx; setter Hx
    | Hx : set_continuous_colors _ _ = _ |- _ =>
        unfold set_continuous_colors in Hx; setter Hx
    | Hx : set_continuous_legend _ _ = _ |- _ =>
        unfold set_continuous_legend in Hx; setter Hx
    | Hx : set_ordinal_dictionary _ _ = _ |- _ =>
        unfold set_ordinal_dictionary in Hx; setter Hx
    | Hx : set_decimal_count _ _ = _ |- _ =>
        unfold set_decimal_count in Hx; setter Hx
    | Hx : set_include_larger_smaller _ _ = _ |- _ =>
        unfold set_include_larger_smaller in Hx; setter Hx
    | Hx : set_vertical _ _ = _ |- _ => unfold set_vertical in Hx; setter Hx
    | Hx : set_segment_height _ _ = _ |- _ =>
        unfold set_segment_height in Hx; setter Hx
    | Hx : set_segment_width _ _ = _ |- _ =>
        unfold set_segment_width in Hx; setter Hx
    | Hx : set_text_height _ _ = _ |- _ =>
        unfold set_text_height in Hx; setter Hx
    | Hx : set_font _ _ = _ |- _ => unfold set_font in Hx; setter Hx
    | Hx : St.modify _ _ = _ |- _ => setter Hx
    end.

(** X5. Whenever [LegendParameters(...)] returns, the object is well formed:
    a minimum and a maximum that are both given are in order, the segment
    count is 2 or more, there are two colours or more, and the segment
    height, the segment width and a text height that is set are positive. *)
Lemma LegendParameters__init__well_formed mn mx sc cols t bp
    (p : LegendParameters D) :
  (1 < length original)%nat ->
  LegendParameters__init__ mn mx sc cols t bp = Ok p -> well_formed p.
Proof.
  intros Horig. unfold LegendParameters__init__, St.built.
  destruct (LegendParameters__init__body mn mx sc cols t bp blank)
    as [[u|e] s] eqn:Hb; [|discriminate].
  intros [= <-]. unfold LegendParameters__init__body in Hb.
  do 17 next Hb.
  setters.
  all: unfold well_formed; cbn; repeat split; intros; simplify_eq; eauto;
    try (apply Nat.ltb_lt; assumption); try (now apply int_at_least_2);
    try lia; try reflexivity.
  all: cbn in *; simplify_eq; assumption.
Qed.


Lemma num_leb_2 (z : Z) : 2 <= z -> num_leb (Int 2) (Int z) = true.
Proof.
  intros Hz. apply Qle_bool_iff. unfold Qle, to_Q, inject_Z.
  cbn [Qnum Qden]. lia.
Qed.

(** The copy of a well-formed parameter object holds the same values. *)
Lemma duplicate_well_formed (p : LegendParameters D) :
  well_formed p -> duplicate p = Ok p.
Proof.
  intros (Hmm & Hsc & Hcol & _).
  destruct p as [mn mx sc scd cols t td bp bpd cc cl od dc ils v sh shd
                   sw swd th thd f].
  cbn [_min _max _segment_count _colors] in *.
  apply num_leb_2 in Hsc. apply Nat.ltb_lt in Hcol.
  unfold duplicate, LegendParameters__copy__, LegendParameters__init__,
    St.built, LegendParameters__init__body.
  cbn [_min _max _segment_count _colors _title _base_plane].
  unfold set_min, set_max, set_segment_count, set_colors, set_title,
    set_base_plane, set_continuous_colors, set_continuous_legend,
    set_ordinal_dictionary, set_decimal_count, set_include_larger_smaller,
    set_vertical, set_segment_height, set_segment_width, set_text_height,
    set_font.
  unfold St.bind, St.modify, St.get, St.assert_, St.ret.
  assert (Hle : forall a b, mn = Some a -> mx = Some b ->
                            num_leb a b = true).
  { intros a b Ha Hb. apply Qle_bool_iff. now apply Hmm. }
  destruct mn as [a|], mx as [b|];
    cbn -[num_leb Nat.ltb];
    rewrite ?(Hle _ _ eq_refl eq_refl), ?Hsc;
    cbn -[num_leb Nat.ltb]; rewrite ?Hsc;
    cbn -[num_leb Nat.ltb]; rewrite Hcol; reflexivity.
Qed.


(** [Legend.__init__] on a well-formed parameter object that is vertical
    or has a segment width of its own. *)
Lemma Legend__init__closed (values : list num) (p : LegendParameters D)
    (lo hi : num) :
  well_formed p ->
  _vertical p = true \/ _is_segment_width_default p = false ->
  Num.min values = Ok lo -> Num.max values = Ok hi ->
  Legend__init__ values (Some p)
  = if num_leb (default lo (_min p)) (default hi (_max p))
    then Ok {| _values := values;
               _legend_par :=
                 assign_max (Some (default hi (_max p)))
                   (assign_min (Some (default lo (_min p))) p);
               _is_min_default := bool_decide (_min p = None);
               _is_max_default := bool_decide (_max p = None) |}
    else Raise AssertionError.
Proof.
  intros Hwf Hside Hlo Hhi. unfold Legend__init__.
  rewrite (duplicate_well_formed p Hwf). cbn [Py.bind].
  destruct Hwf as (Hmm & _).
  assert (Hwidth : negb (_vertical p) && _is_segment_width_default p = false).
  { destruct Hside as [-> | ->]; [reflexivity|apply andb_false_r]. }
  destruct p as [mn mx sc scd cols t td bp bpd cc cl od dc ils v sh shd
                   sw swd th thd f].
  cbn [_min _max _vertical _is_segment_width_default] in *.
  unfold Legend__init__defaults, set_min, set_max.
  unfold St.bind, St.get, St.lift, St.modify, St.assert_, St.ret.
  destruct mn as [a|], mx as [b|]; cbn -[num_leb]; rewrite ?Hlo, ?Hhi;
    cbn -[num_leb].
  - rewrite Hwidth. pose proof (Hmm a b eq_refl eq_refl) as Hle.
    apply Qle_bool_iff in Hle. fold (num_leb a b) in Hle. now rewrite Hle.
  - destruct (num_leb a hi); [|reflexivity]. cbn. now rewrite Hwidth.
  - destruct (num_leb lo b); [|reflexivity]. cbn. now rewrite Hwidth.
  - destruct (num_leb lo hi); [|reflexivity]. cbn. now rewrite Hwidth.
Qed.




(** X7. [Legend] on no values: a [ValueError] unless both the minimum and
    the maximum are set. *)
Theorem Legend__init__no_values (p : LegendParameters D) :
  Legend__init__ (D := D) [] None = Raise ValueError
  /\ (well_formed p -> _min p = None \/ _max p = None ->
      Legend__init__ [] (Some p) = Raise ValueError).
Proof.
  split; [reflexivity|].
  intros Hwf Hnone. unfold Legend__init__.
  rewrite (duplicate_well_formed p Hwf). cbn [Py.bind].
  destruct p as [mn mx sc scd cols t td bp bpd cc cl od dc ils v sh shd
                   sw swd th thd f].
  cbn [_min _max] in Hnone.
  unfold Legend__init__defaults, set_min, set_max.
  unfold St.bind, St.get, St.lift, St.modify, St.assert_, St.ret.
  destruct mn as [a|], mx as [b|]; cbn; try reflexivity.
  now destruct Hnone.
Qed.

Ltac unfold_setters :=
  unfold set_min, set_max, set_segment_count, set_colors, set_title,
    set_base_plane, set_continuous_colors, set_continuous_legend,
    set_ordinal_dictionary, set_decimal_count, set_include_larger_smaller,
    set_vertical, set_segment_height, set_segment_width, set_text_height,
    set_font.

Lemma titled_set_min v : keeps (titled (D := D)) (set_min v).
Proof. unfold set_min. keeps_with by_modify. Qed.
Lemma titled_set_max v : keeps (titled (D := D)) (set_max v).
Proof. unfold set_max. keeps_with by_modify. Qed.
Lemma titled_set_segment_count v : keeps (titled (D := D)) (set_segment_count v).
Proof. unfold set_segment_count. keeps_with by_modify. Qed.
Lemma titled_set_ordinal_dictionary v :
  keeps (titled (D := D)) (set_ordinal_dictionary v).
Proof. unfold set_ordinal_dictionary. keeps_with by_modify. Qed.
Lemma titled_set_segment_height v : keeps (titled (D := D)) (set_segment_height v).
Proof. unfold set_segment_height. keeps_with by_modify. Qed.
Lemma titled_set_segment_width v : keeps (titled (D := D)) (set_segment_width v).
Proof. unfold set_segment_width. keeps_with by_modify. Qed.
Lemma titled_set_base_plane v : keeps (titled (D := D)) (set_base_plane v).
Proof. unfold set_base_plane. keeps_with by_modify. Qed.

Lemma heights_set_min v : keeps (heights (D := D)) (set_min v).
Proof. unfold set_min. keeps_with by_modify. Qed.
Lemma heights_set_max v : keeps (heights (D := D)) (set_max v).
Proof. unfold set_max. keeps_with by_modify. Qed.
Lemma heights_set_segment_count v : keeps (heights (D := D)) (set_segment_count v).
Proof. unfold set_segment_count. keeps_with by_modify. Qed.
Lemma heights_set_ordinal_dictionary v :
  keeps (heights (D := D)) (set_ordinal_dictionary v).
Proof. unfold set_ordinal_dictionary. keeps_with by_modify. Qed.
Lemma heights_set_title v : keeps (heights (D := D)) (set_title v).
Proof. unfold set_title. keeps_with by_modify. Qed.
Lemma heights_set_segment_width v : keeps (heights (D := D)) (set_segment_width v).
Proof. unfold set_segment_width. keeps_with by_modify. Qed.
Lemma heights_set_base_plane v : keeps (heights (D := D)) (set_base_plane v).
Proof. unfold set_base_plane. keeps_with by_modify. Qed.


(** A copy that is returned holds the values of the original. *)
Lemma duplicate_Ok (p q : LegendParameters D) : duplicate p = Ok q -> q = p.
Proof.
  destruct p as [mn mx sc scd cols t td bp bpd cc cl od dc ils v sh shd
                   sw swd th thd f].
  unfold duplicate, LegendParameters__copy__, LegendParameters__init__,
    St.built, LegendParameters__init__body.
  cbn [_min _max _segment_count _colors _title _base_plane].
  unfold_setters.
  unfold St.bind, St.modify, St.get, St.assert_, St.ret.
  destruct mn as [a|], mx as [b|]; cbn -[num_leb Nat.ltb];
    repeat match goal with
      | |- context [if ?c then _ else _] =>
          destruct c; cbn -[num_leb Nat.ltb]
      end;
    intros Hq; try discriminate; now injection Hq as <-.
Qed.

Lemma titled_defaults values :
  keeps (titled (D := D)) (Legend__init__defaults values).
Proof.
  unfold Legend__init__defaults.
  keeps_with ltac:(first [apply titled_set_min | apply titled_set_max
                        | apply titled_set_segment_width]).
Qed.

Lemma heights_defaults values :
  keeps (heights (D := D)) (Legend__init__defaults values).
Proof.
  unfold Legend__init__defaults.
  keeps_with ltac:(first [apply heights_set_min | apply heights_set_max
                        | apply heights_set_segment_width]).
Qed.

(** The title, the segment height and the orientation of the parameters
    of a legend are those of the parameters it was given, or those of
    [LegendParameters()]. *)
Lemma Legend__init__views (values : list num)
    (lp : option (LegendParameters D)) (lg : Legend D) :
  Legend__init__ values lp = Ok lg ->
  titled (_legend_par lg) = from_option titled (EmptyString, true, true) lp
  /\ heights (_legend_par lg) = from_option heights (Int 1, true, true) lp.
Proof.
  unfold Legend__init__.
  destruct (match lp with Some p => _ | None => _ end) as [q|e] eqn:Hq;
    [|discriminate].
  cbn [Py.bind].
  destruct (Legend__init__defaults values q) as [[[fmin fmax]|e] q'] eqn:Hd;
    [|discriminate].
  intros [= <-]. cbn [_legend_par].
  rewrite (titled_defaults _ _ _ _ Hd), (heights_defaults _ _ _ _ Hd).
  destruct lp as [p|].
  - apply duplicate_Ok in Hq. now subst q.
  - injection Hq as <-. split; reflexivity.
Qed.

(** X8. Every property setter of [LegendParameters] keeps a well-formed
    object well formed, whether it assigns or raises: the minimum stays
    below the maximum, the segment count at 2 or more, the colours at two or
    more, and the segment height, segment width and text height positive. *)
Theorem setters_keep_well_formed (p p' : LegendParameters D)
    (r : result Datatypes.unit) :
  (1 < length original)%nat ->
  well_formed p ->
  (forall v, set_min v p = (r, p') -> well_formed p')
  /\ (forall v, set_max v p = (r, p') -> well_formed p')
  /\ (forall v, set_segment_count v p = (r, p') -> well_formed p')
  /\ (forall v, set_colors v p = (r, p') -> well_formed p')
  /\ (forall v, set_title v p = (r, p') -> well_formed p')
  /\ (forall v, set_base_plane v p = (r, p') -> well_formed p')
  /\ (forall v, set_continuous_colors v p = (r, p') -> well_formed p')
  /\ (forall v, set_continuous_legend v p = (r, p') -> well_formed p')
  /\ (forall v, set_ordinal_dictionary v p = (r, p') -> well_formed p')
  /\ (forall v, set_decimal_count v p = (r, p') -> well_formed p')
  /\ (forall v, set_include_larger_smaller v p = (r, p') ->
        well_formed p')
  /\ (forall v, set_vertical v p = (r, p') -> well_formed p')
  /\ (forall v, set_segment_height v p = (r, p') -> well_formed p')
  /\ (forall v, set_segment_width v p = (r, p') -> well_formed p')
  /\ (forall v, set_text_height v p = (r, p') -> well_formed p')
  /\ (forall v, set_font v p = (r, p') -> well_formed p').
Proof.
  intros Horig Hwf.
  repeat match goal with |- _ /\ _ => split end; intros v Hs.
  - exact (well_formed_set_min _ _ _ _ Hwf Hs).
  - exact (well_formed_set_max _ _ _ _ Hwf Hs).
  - exact (well_formed_set_segment_count _ _ _ _ Hwf Hs).
  - exact (well_formed_set_colors _ _ _ _ Horig Hwf Hs).
  - exact (well_formed_set_title _ _ _ _ Hwf Hs).
  - exact (well_formed_set_base_plane _ _ _ _ Hwf Hs).
  - exact (well_formed_set_continuous_colors _ _ _ _ Hwf Hs).
  - exact (well_formed_set_continuous_legend _ _ _ _ Hwf Hs).
  - exact (well_formed_set_ordinal_dictionary _ _ _ _ Hwf Hs).
  - exact (well_formed_set_decimal_count _ _ _ _ Hwf Hs).
  - exact (well_formed_set_include_larger_smaller _ _ _ _ Hwf Hs).
  - exact (well_formed_set_vertical _ _ _ _ Hwf Hs).
  - exact (well_formed_set_segment_height _ _ _ _ Hwf Hs).
  - exact (well_formed_set_segment_width _ _ _ _ Hwf Hs).
  - exact (well_formed_set_text_height _ _ _ _ Hwf Hs).
  - exact (well_formed_set_font _ _ _ _ Hwf Hs).
Qed.

(** X9. The copy of a parameter object holds the same values: whenever
    [duplicate] returns, the copy equals the original attribute by
    attribute, and on a well-formed object it returns. *)
Theorem duplicate_equal (p : LegendParameters D) :
  (forall q, duplicate p = Ok q -> q = p)
  /\ (well_formed p -> duplicate p = Ok p).
Proof.
  split; [intros q; apply duplicate_Ok|apply duplicate_well_formed].
Qed.

(** X10. The bounds of a legend. On well-formed parameters that are vertical
    or have a segment width of their own, and values that are not empty,
    [Legend] takes the minimum and the maximum that are set and fills the
    others with the least and the greatest value; it returns when the
    resulting minimum is not above the resulting maximum and raises
    [AssertionError] when it is (a maximum below every value, a minimum
    above every value). *)
Theorem Legend__init__bounds (values : list num) (p : LegendParameters D)
    (lo hi : num) :
  well_formed p ->
  _vertical p = true \/ _is_segment_width_default p = false ->
  Num.min values = Ok lo -> Num.max values = Ok hi ->
  let mn := default lo (_min p) in
  let mx := default hi (_max p) in
  ((to_Q mn <= to_Q mx)%Q ->
   exists lg,
     Legend__init__ values (Some p) = Ok lg
     /\ _values lg = values
     /\ _legend_par lg = assign_max (Some mx) (assign_min (Some mn) p)
     /\ _is_min_default lg = bool_decide (_min p = None)
     /\ _is_max_default lg = bool_decide (_max p = None))
  /\ ((to_Q mx < to_Q mn)%Q ->
      Legend__init__ values (Some p) = Raise AssertionError).
Proof.
  intros Hwf Hside Hlo Hhi mn mx.
  rewrite (Legend__init__closed values p lo hi Hwf Hside Hlo Hhi).
  fold mn mx. split.
  - intros Hle. apply Qle_bool_iff in Hle. fold (num_leb mn mx) in Hle.
    rewrite Hle. eexists. split; [reflexivity|]. now repeat split.
  - intros Hlt. now rewrite (num_leb_false mn mx Hlt).
Qed.

End Invariant.

#[local] Existing Instance sample.colors.

Lemma parameters_from_0_well_formed : well_formed sample.parameters_from_0.
Proof.
  unfold well_formed. cbn.
  repeat split; try discriminate; try lia; intros; discriminate.
Qed.

(** The parameters [LegendParameters(min=0)] after [max = 10]. *)
Lemma setters_keep_well_formed_witness :
  well_formed (snd (set_max (Some (Int 10)) sample.parameters_from_0)).
Proof.
  destruct (setters_keep_well_formed sample.parameters_from_0
              (snd (set_max (Some (Int 10)) sample.parameters_from_0))
              (fst (set_max (Some (Int 10)) sample.parameters_from_0)))
    as (_ & Hmax & _).
  - cbn. lia.
  - exact parameters_from_0_well_formed.
  - apply (Hmax (Some (Int 10))). apply surjective_pairing.
Defined.

Lemma LegendParameters__init__well_formed_witness :
  well_formed sample.parameters_from_0.
Proof.
  apply (LegendParameters__init__well_formed
           (Some (Int 0)) None None None None None).
  - cbn. lia.
  - reflexivity.
Defined.

Lemma duplicate_equal_witness :
  duplicate sample.parameters_from_0 = Ok sample.parameters_from_0.
Proof.
  apply (proj2 (duplicate_equal sample.parameters_from_0)).
  exact parameters_from_0_well_formed.
Defined.

(** With [LegendParameters(min=0)]: the values 3 and 7 give the bounds 0
    and 7, and the values -5 and -2 are refused. *)
Lemma Legend__init__bounds_witness :
  (exists lg,
     Legend__init__ [Int 3; Int 7] (Some sample.parameters_from_0) = Ok lg
     /\ _min (_legend_par lg) = Some (Int 0)
     /\ _max (_legend_par lg) = Some (Int 7)
     /\ _is_min_default lg = false /\ _is_max_default lg = true)
  /\ Legend__init__ [Int (-5); Int (-2)] (Some sample.parameters_from_0)
     = Raise AssertionError.
Proof.
  split.
  - destruct (Legend__init__bounds [Int 3; Int 7] sample.parameters_from_0
                (Int 3) (Int 7)) as [Hok _];
      [exact parameters_from_0_well_formed|now left|reflexivity
      |reflexivity|].
    destruct Hok as (lg & Hlg & _ & Hpar & Hmin & Hmax); [discriminate|].
    exists lg. split; [exact Hlg|]. rewrite Hpar, Hmin, Hmax.
    repeat split.
  - destruct (Legend__init__bounds [Int (-5); Int (-2)]
                sample.parameters_from_0 (Int (-5)) (Int (-2)))
      as [_ Hraise];
      [exact parameters_from_0_well_formed|now left|reflexivity
      |reflexivity|].
    apply Hraise. reflexivity.
Defined.

Lemma Legend__init__no_values_witness :
  Legend__init__ [] (Some sample.parameters_from_0) = Raise ValueError.
Proof.
  apply (proj2 (Legend__init__no_values sample.parameters_from_0)).
  - exact parameters_from_0_well_formed.
  - now right.
Defined.


End legend_invariant_facts.

(** ** Graphic containers *)

Module graphic_facts.

Import legend graphic legend_facts.

(** *** Slices of sorted keys *)

Lemma position_elem_of (keys : list Z) (key : Z) (i : nat) :
  position keys key = Some i -> key ∈ keys.
Proof.
  revert i. induction keys as [|k rest IH]; intros i; cbn; [discriminate|].
  destruct (Z.eqb_spec k key) as [->|_]; [left|].
  destruct (position rest key) eqn:Hp; [|discriminate].
  intros _. right. eauto.
Qed.

Lemma filter_none (P : Z -> Prop) `{forall k, Decision (P k)} (keys : list Z) :
  Forall (fun k => ~ P k) keys -> filter P keys = [].
Proof.
  induction 1 as [|k rest Hk _ IH]; [reflexivity|].
  now rewrite filter_cons_False.
Qed.

Lemma take_position_filter (keys : list Z) (hi lo : Z) (j : nat) :
  StronglySorted Z.lt keys -> position keys hi = Some j ->
  Forall (fun k => lo <= k) keys ->
  take (S j) keys = filter (fun k => lo <= k <= hi) keys.
Proof.
  revert j. induction keys as [|k rest IH]; intros j Hs Hp Hlo;
    [discriminate|].
  apply StronglySorted_inv in Hs as [Hs Hall].
  apply Forall_cons in Hlo as [Hk Hlo].
  cbn in Hp. destruct (Z.eqb_spec k hi) as [->|Hne].
  - injection Hp as <-. cbn [take].
    rewrite filter_cons_True by lia.
    rewrite filter_none; [reflexivity|].
    eapply Forall_impl; [exact Hall|]. cbn. intros; lia.
  - destruct (position rest hi) as [j'|] eqn:Hj; [|discriminate].
    injection Hp as <-. cbn [take].
    assert (k < hi).
    { rewrite Forall_forall in Hall. apply Hall.
      eapply position_elem_of, Hj. }
    rewrite filter_cons_True by lia. f_equal. now apply IH.
Qed.

(** The slice between the positions of two keys of a strictly sorted
    list holds the keys between them. *)
Lemma slice_position_filter (keys : list Z) (lo hi : Z) (i j : nat) :
  StronglySorted Z.lt keys ->
  position keys lo = Some i -> position keys hi = Some j ->
  slice keys i (j + 1) = filter (fun k => lo <= k <= hi) keys.
Proof.
  unfold slice. rewrite Nat.add_1_r.
  revert i j. induction keys as [|k rest IH]; intros i j Hs Hi Hj;
    [discriminate|].
  pose proof Hs as Hs'. apply StronglySorted_inv in Hs' as [Hrest Hall].
  cbn in Hi. destruct (Z.eqb_spec k lo) as [->|Hne].
  - injection Hi as <-. rewrite drop_0.
    apply take_position_filter; [exact Hs|exact Hj|].
    constructor; [lia|]. eapply Forall_impl; [exact Hall|]. cbn. intros; lia.
  - destruct (position rest lo) as [i'|] eqn:Hi'; [|discriminate].
    injection Hi as <-.
    assert (k < lo).
    { rewrite Forall_forall in Hall. apply Hall.
      eapply position_elem_of, Hi'. }
    rewrite filter_cons_False by lia.
    cbn in Hj. destruct (Z.eqb_spec k hi) as [->|Hne'].
    + injection Hj as <-. cbn. rewrite take_0, drop_nil.
      symmetry. apply filter_none.
      eapply Forall_impl; [exact Hall|]. cbn. intros; lia.
    + destruct (position rest hi) as [j'|] eqn:Hj'; [|discriminate].
      injection Hj as <-. cbn [take drop]. now apply IH.
Qed.

Lemma strictly_sorted (keys : list Z) :
  StronglySorted Z.le keys -> NoDup keys -> StronglySorted Z.lt keys.
Proof.
  induction 1 as [|k rest Hs IH Hall]; intros Hnd; constructor.
  - apply IH. now apply NoDup_cons in Hnd.
  - apply NoDup_cons in Hnd as [Hk _].
    rewrite Forall_forall in Hall |- *. intros k' Hin.
    specialize (Hall k' Hin). assert (k <> k') by congruence. lia.
Qed.

Lemma sorted_keys_of_perm (d : gmap Z string) :
  sorted_keys_of d ≡ₚ map fst (map_to_list d).
Proof. apply merge_sort_Permutation. Qed.

Lemma sorted_keys_of_sorted (d : gmap Z string) :
  StronglySorted Z.lt (sorted_keys_of d).
Proof.
  apply strictly_sorted.
  - apply StronglySorted_merge_sort; apply _.
  - rewrite sorted_keys_of_perm. apply NoDup_fst_map_to_list.
Qed.

Lemma elem_of_sorted_keys_of (d : gmap Z string) (k : Z) :
  k ∈ sorted_keys_of d <-> is_Some (d !! k).
Proof.
  rewrite sorted_keys_of_perm, list_elem_of_fmap. split.
  - intros ([k' v] & -> & Hin). apply elem_of_map_to_list in Hin.
    now exists v.
  - intros [v Hv]. exists (k, v). split; [reflexivity|].
    now apply elem_of_map_to_list.
Qed.

(** [sorted_keys[0]] is the smallest key. *)
Lemma first_key_least (d : gmap Z string) (k : Z) :
  first_key (sorted_keys_of d) = Ok k ->
  is_Some (d !! k) /\ forall k', is_Some (d !! k') -> k <= k'.
Proof.
  intros Hk. pose proof (sorted_keys_of_sorted d) as Hs.
  pose proof (elem_of_sorted_keys_of d) as Hin.
  destruct (sorted_keys_of d) as [|k0 rest]; [discriminate|].
  injection Hk as ->. split; [apply Hin; left|].
  intros k' Hk'. apply Hin, elem_of_cons in Hk' as [->|Hk']; [lia|].
  apply StronglySorted_inv in Hs as [_ Hall].
  rewrite Forall_forall in Hall. specialize (Hall k' Hk'). lia.
Qed.

Lemma last_greatest (keys : list Z) (k : Z) :
  StronglySorted Z.lt keys -> last keys = Some k ->
  forall k', k' ∈ keys -> k' <= k.
Proof.
  induction 1 as [|k0 rest Hs IH Hall]; [discriminate|].
  intros Hlast k' Hin. destruct rest as [|k1 rest'].
  - injection Hlast as <-. apply list_elem_of_singleton in Hin. lia.
  - change (last (k1 :: rest') = Some k) in Hlast.
    apply elem_of_cons in Hin as [->|Hin]; [|now apply IH].
    rewrite Forall_forall in Hall.
    assert (k0 < k) by (apply Hall; eapply last_Some_elem_of, Hlast). lia.
Qed.

(** [sorted_keys[-1]] is the largest key. *)
Lemma last_key_greatest (d : gmap Z string) (k : Z) :
  last_key (sorted_keys_of d) = Ok k ->
  is_Some (d !! k) /\ forall k', is_Some (d !! k') -> k' <= k.
Proof.
  unfold last_key. destruct (last (sorted_keys_of d)) as [k0|] eqn:Hl;
    [|discriminate].
  intros [= ->]. split.
  - eapply elem_of_sorted_keys_of, last_Some_elem_of, Hl.
  - intros k' Hk'. eapply last_greatest;
      [apply sorted_keys_of_sorted|exact Hl|].
    now apply elem_of_sorted_keys_of.
Qed.

Lemma index_position (keys : list Z) (v : num) (i : nat) :
  index keys v = Ok i ->
  exists key, (to_Q v == inject_Z key)%Q /\ position keys key = Some i.
Proof.
  revert i. induction keys as [|k rest IH]; intros i; cbn; [discriminate|].
  destruct (num_eqb (Int k) v) eqn:Heq.
  - intros [= <-]. apply Qeq_bool_iff in Heq. cbn in Heq.
    exists k. split; [now symmetry|]. now rewrite Z.eqb_refl.
  - destruct (index rest v) as [i'|e]; [|discriminate].
    cbn. intros [= <-]. destruct (IH i' eq_refl) as (key & Hq & Hp).
    exists key. split; [exact Hq|].
    destruct (Z.eqb_spec k key) as [->|_]; [|now rewrite Hp].
    apply Qeq_bool_neq in Heq. exfalso. apply Heq. cbn. now symmetry.
Qed.

Lemma num_leb_key (v : num) (key k : Z) :
  (to_Q v == inject_Z key)%Q ->
  (num_leb v (Int k) <-> key <= k) /\ (num_leb (Int k) v <-> k <= key).
Proof.
  intros Hq. unfold num_leb. cbn [to_Q].
  rewrite !Is_true_true, !Qle_bool_iff, Hq, <- !Zle_Qle. tauto.
Qed.

(** The length of the slice that [__init__] counts is the number of keys
    between the two numbers. *)
Lemma slice_length_keys_between (d : gmap Z string) (lo hi : num)
    (i j : nat) :
  index (sorted_keys_of d) lo = Ok i -> index (sorted_keys_of d) hi = Ok j ->
  length (slice (sorted_keys_of d) i (j + 1)) = keys_between d lo hi.
Proof.
  intros Hi Hj.
  apply index_position in Hi as (klo & Hlo & Hi).
  apply index_position in Hj as (khi & Hhi & Hj).
  rewrite (slice_position_filter _ klo khi) by
    auto using sorted_keys_of_sorted.
  unfold keys_between. rewrite <- (sorted_keys_of_perm d).
  f_equal. apply list_filter_iff. intros k.
  rewrite andb_True.
  destruct (num_leb_key lo klo k Hlo) as [-> _].
  destruct (num_leb_key hi khi k Hhi) as [_ ->]. reflexivity.
Qed.

(** *** The ordinal alignment *)

Lemma index_Raise (keys : list Z) (v : num) (e : exn) :
  index keys v = Raise e -> e = ValueError.
Proof.
  induction keys as [|k rest IH]; cbn; [now intros [= <-]|].
  destruct (num_eqb (Int k) v); [discriminate|].
  destruct (index rest v); [discriminate|]. cbn. intros [= <-]. now apply IH.
Qed.

Section Alignment.

Context `{Colorset}.

(** The [try] block that counts the segments raises no [IndexError]. *)
Lemma count_segments_Raise (sorted_keys : list Z) (par par' : Parameters)
    (e : exn) :
  (par <~ St.get ;;
   match _min par, _max par with
   | Some mn, Some mx =>
       min_i <~ St.lift (index sorted_keys mn) ;;
       max_i <~ St.lift (index sorted_keys mx) ;;
       set_segment_count
         (Some (Int (Z.of_nat (length (slice sorted_keys min_i (max_i + 1))))))
   | _, _ => St.raise ValueError
   end) par = (Raise e, par') ->
  issubclass e IndexError = false.
Proof.
  unfold St.bind at 1, St.get.
  destruct (_min par) as [mn|], (_max par) as [mx|];
    try (unfold St.raise; now intros [= <- <-]).
  unfold St.bind, St.lift.
  destruct (index sorted_keys mn) as [i|e1] eqn:Hi.
  2:{ intros [= <- <-]. now rewrite (index_Raise _ _ _ Hi). }
  destruct (index sorted_keys mx) as [j|e2] eqn:Hj.
  2:{ intros [= <- <-]. now rewrite (index_Raise _ _ _ Hj). }
  intros Hset. now rewrite (set_segment_count_Raise _ _ _ _ Hset).
Qed.

Lemma align_with_unit_descr_outcome (unit_descr : gmap Z string)
    (is_min_default is_max_default : bool) (par0 par1 : Parameters) u :
  align_with_unit_descr unit_descr is_min_default is_max_default par0
  = (Ok u, par1) ->
  _ordinal_dictionary par1 = Some unit_descr /\
  (if is_min_default
   then exists k, first_key (sorted_keys_of unit_descr) = Ok k /\
                  _min par1 = Some (Int k)
   else _min par1 = _min par0) /\
  (if is_max_default
   then exists k, last_key (sorted_keys_of unit_descr) = Ok k /\
                  _max par1 = Some (Int k)
   else _max par1 = _max par0) /\
  (if _is_segment_count_default par0
   then exists mn mx, _min par1 = Some mn /\ _max par1 = Some mx /\
          _segment_count par1 = Z.of_nat (keys_between unit_descr mn mx)
   else _segment_count par1 = _segment_count par0).
Proof.
  intros Ha. unfold align_with_unit_descr in Ha.
  step Ha as u0 s0 Hod. assigned.
  step Ha as u1 s1 Hmin.
  step Ha as u2 s2 Hmax.
  step Ha as par_ s2' Hget. assigned.
  set (s0 := assign_ordinal_dictionary (Some unit_descr) par0) in *.
  assert (H1 : core s1 = (_min s1, _max s0, _segment_count s0,
                          _is_segment_count_default s0,
                          _ordinal_dictionary s0) /\
               if is_min_default
               then exists k, first_key (sorted_keys_of unit_descr) = Ok k /\
                              _min s1 = Some (Int k)
               else _min s1 = _min s0).
  { destruct is_min_default.
    - step Hmin as k s Hk. assigned. eauto.
    - assigned. eauto. }
  destruct H1 as [Hc1 Hm1].
  assert (H2 : core s2 = (_min s1, _max s2, _segment_count s1,
                           _is_segment_count_default s1,
                           _ordinal_dictionary s1) /\
               if is_max_default
               then exists k, last_key (sorted_keys_of unit_descr) = Ok k /\
                              _max s2 = Some (Int k)
               else _max s2 = _max s1).
  { destruct is_max_default.
    - step Hmax as k s Hk. assigned. eauto.
    - assigned. eauto. }
  destruct H2 as [Hc2 Hm2].
  unfold core in Hc1, Hc2.
  injection Hc1 as E2 E3 E4 E5. injection Hc2 as F1 F3 F4 F5.
  assert (H3 : _ordinal_dictionary par1 = _ordinal_dictionary s2 /\
               _min par1 = _min s2 /\ _max par1 = _max s2 /\
               if _is_segment_count_default s2
               then exists mn mx, _min s2 = Some mn /\ _max s2 = Some mx /\
                      _segment_count par1
                      = Z.of_nat (keys_between unit_descr mn mx)
               else _segment_count par1 = _segment_count s2).
  { destruct (_is_segment_count_default s2); [|now assigned].
    apply St_facts.try_except_Ok in Ha
      as [Hbody|(e & s & Hbody & He & _)].
    2:{ apply count_segments_Raise in Hbody. congruence. }
    step Hbody as par_ s Hget. assigned.
    destruct (_min s2) as [mn|] eqn:Hmn; [|discriminate].
    destruct (_max s2) as [mx|] eqn:Hmx; [|discriminate].
    step Hbody as i s Hi. step Hbody as j s' Hj. assigned.
    cbn. rewrite Hmn, Hmx. repeat split; try reflexivity.
    exists mn, mx. repeat split.
    now rewrite (slice_length_keys_between _ _ _ _ _ Hi Hj). }
  destruct H3 as (G5 & G1 & G2 & Hcount).
  subst s0. cbn in E2, E3, E4, E5, Hm1.
  split; [now rewrite G5, F5, E5|].
  split; [rewrite G1, F1; exact Hm1|].
  split.
  { rewrite G2. destruct is_max_default; [exact Hm2|]. now rewrite Hm2, E2. }
  rewrite F4, E4 in Hcount.
  destruct (_is_segment_count_default par0).
  - destruct Hcount as (mn & mx & Hmn & Hmx & Hc). exists mn, mx.
    now rewrite G1, G2.
  - now rewrite Hcount, F3, E3.
Qed.

End Alignment.

(** *** The constructor *)

Section Constructor.

Context `{Colorset}.

(** With a data type that has categories and a legend without ordinal
    dictionary, [__init__] runs the alignment between statements that
    leave minimum, maximum and segment count alone. *)
Lemma __init__body_outcome (min_point max_point : Point3D)
    (is_min_default is_max_default : bool) (dt : DataType.t)
    (unit : option string) (unit_descr : gmap Z string)
    (par0 par1 : Parameters) u :
  DataType.unit_descr dt = Some unit_descr ->
  _ordinal_dictionary par0 = None ->
  __init__body min_point max_point is_min_default is_max_default
    (Some dt) unit par0 = (Ok u, par1) ->
  exists (pa pb : Parameters) ua,
    core pa = core par0 /\
    align_with_unit_descr unit_descr is_min_default is_max_default pa
    = (Ok ua, pb) /\
    core par1 = core pb.
Proof.
  intros Hud Hod Hb. unfold __init__body in Hb.
  step Hb as u1 s1 Hfirst.
  step Hfirst as par_ s Hget. assigned.
  step Hfirst as u2 sa Htitle.
  step Hfirst as par_ s Hget. assigned.
  assert (Ha : core sa = core par0).
  { destruct (_is_title_default par0); [|now assigned].
    step Htitle as unit' s Hu. step Htitle as ok s' Hok.
    step Htitle as par_ s'' Hget. assigned. frames. exact Htitle. }
  rewrite Hud in Hfirst.
  assert (Hoda : _ordinal_dictionary sa = None).
  { unfold core in Ha. injection Ha as _ _ _ _ ->. exact Hod. }
  rewrite Hoda in Hfirst.
  exists sa, s1, u1. split; [exact Ha|]. split; [exact Hfirst|].
  step Hb as par_ s Hget. assigned.
  step Hb as u3 s2 Hheight.
  step Hb as par_ s Hget. assigned.
  assert (Hh : core s2 = core s1).
  { destruct (_is_segment_height_default s1); [|now assigned].
    frames. exact Hheight. }
  rewrite <- Hh.
  destruct (_is_base_plane_default s2); [|now assigned].
  step Hb as base_pt s3 Hpt.
  assert (s3 = s2) as ->.
  { destruct (_vertical s2).
    - step Hpt as w s Hw. now assigned.
    - destruct (text_height s2); [now assigned|discriminate]. }
  frames. exact Hb.
Qed.

(** C5. When a graphic container is built with a data type that has a
    [unit_descr] and with legend parameters whose ordinal dictionary is
    unset: a minimum that the caller set is kept, and an unset minimum
    becomes the smallest key of [unit_descr]; a maximum that the caller
    set is kept, and an unset maximum becomes the largest key; a segment
    count that the caller set is kept, and a default one becomes the
    number of keys between the minimum and the maximum. *)
Theorem ordinal_defaults_keep_user_values (values : list num)
    (min_point max_point : Point3D) (legend_parameters : option Parameters)
    (dt : DataType.t) (unit : option string) (unit_descr : gmap Z string)
    (gc : GraphicContainer) :
  DataType.unit_descr dt = Some unit_descr ->
  legend_parameters ≫= _ordinal_dictionary = None ->
  __init__ values min_point max_point legend_parameters (Some dt) unit
  = Ok gc ->
  let par := graphic.legend_parameters gc in
  match legend_parameters ≫= _min with
  | Some m => _min par = Some m
  | None =>
      exists k, _min par = Some (Int k) /\ is_Some (unit_descr !! k) /\
                forall k', is_Some (unit_descr !! k') -> k <= k'
  end /\
  match legend_parameters ≫= _max with
  | Some m => _max par = Some m
  | None =>
      exists k, _max par = Some (Int k) /\ is_Some (unit_descr !! k) /\
                forall k', is_Some (unit_descr !! k') -> k' <= k
  end /\
  if from_option _is_segment_count_default true legend_parameters
  then exists mn mx, _min par = Some mn /\ _max par = Some mx /\
         _segment_count par = Z.of_nat (keys_between unit_descr mn mx)
  else _segment_count par = from_option _segment_count 11 legend_parameters.
Proof.
  intros Hud Hod Hinit. unfold __init__ in Hinit.
  destruct (Legend__init__ values legend_parameters) as [lg|e] eqn:Hlg;
    [|discriminate].
  cbn [Py.bind] in Hinit.
  destruct (__init__body _ _ _ _ _ _ _) as [[u|e] par1] eqn:Hb;
    [|discriminate].
  injection Hinit as <-. cbn.
  apply Legend__init__core in Hlg
    as (Hfmin & Hfmax & Hmin & Hmax & _ & _ & Hsc & Hscd & Hodl).
  rewrite Hod in Hodl.
  destruct (__init__body_outcome _ _ _ _ _ _ _ _ _ _ Hud Hodl Hb)
    as (pa & pb & ua & Hpa & Halign & Hpb).
  apply align_with_unit_descr_outcome in Halign as (_ & Amin & Amax & Acount).
  unfold core in Hpa, Hpb.
  injection Hpa as P1 P2 P3 P4 _. injection Hpb as Q1 Q2 Q3 Q4 _.
  rewrite Q1, Q2, Q3. rewrite P4, Hscd in Acount.
  rewrite Hfmin in Amin. rewrite Hfmax in Amax.
  split; [|split].
  - destruct (legend_parameters ≫= _min) as [m|] eqn:Hm.
    + rewrite bool_decide_eq_false_2 in Amin by discriminate.
      rewrite Amin, P1. now apply Hmin.
    + rewrite bool_decide_eq_true_2 in Amin by reflexivity.
      destruct Amin as (k & Hk & ->). exists k. split; [reflexivity|].
      now apply first_key_least.
  - destruct (legend_parameters ≫= _max) as [m|] eqn:Hm.
    + rewrite bool_decide_eq_false_2 in Amax by discriminate.
      rewrite Amax, P2. now apply Hmax.
    + rewrite bool_decide_eq_true_2 in Amax by reflexivity.
      destruct Amax as (k & Hk & ->). exists k. split; [reflexivity|].
      now apply last_key_greatest.
  - destruct (from_option _is_segment_count_default true legend_parameters).
    + exact Acount.
    + now rewrite Acount, P3.
Qed.

End Constructor.

#[local] Existing Instance sample.colors.

(** A container for a thermal-condition scale with keys -1 to 2, built
    with [LegendParameters(min=0)]: the minimum stays 0, the maximum
    becomes 2 and there are 3 segments. *)
Lemma ordinal_defaults_keep_user_values_witness :
  exists gc : GraphicContainer,
    __init__ (map Int [0; 1]) {| x := 0; y := 0; z := 0 |}
      {| x := 10; y := 10; z := 0 |} (Some sample.parameters_from_0)
      (Some (DataType.Instance sample.ThermalCondition None)) None = Ok gc /\
    _min (graphic.legend_parameters gc) = Some (Int 0) /\
    (exists k, _max (graphic.legend_parameters gc) = Some (Int k) /\
               is_Some (sample.sensation !! k) /\
               forall k', is_Some (sample.sensation !! k') -> k' <= k) /\
    exists mn mx,
      _min (graphic.legend_parameters gc) = Some mn /\
      _max (graphic.legend_parameters gc) = Some mx /\
      _segment_count (graphic.legend_parameters gc)
      = Z.of_nat (keys_between sample.sensation mn mx).
Proof.
  eexists. split; [vm_compute; reflexivity|].
  refine (ordinal_defaults_keep_user_values (map Int [0; 1])
            {| x := 0; y := 0; z := 0 |} {| x := 10; y := 10; z := 0 |}
            (Some sample.parameters_from_0)
            (DataType.Instance sample.ThermalCondition None) None
            sample.sensation _ _ _ _).
  - reflexivity.
  - reflexivity.
  - vm_compute. reflexivity.
Defined.

End graphic_facts.

(** ** Titles and segment heights of graphic containers *)

Module graphic_default_facts.

Import St St_facts legend legend_facts legend_invariant_facts.
Import graphic graphic_facts.

Section Defaults.

Context `{Colorset}.

Ltac kept view Hb :=
  match type of Hb with
  | ?m ?s = (_, ?s') =>
      let Hk := fresh "Hk" in
      assert (Hk : keeps view m); [|apply Hk in Hb]
  end.

Lemma titled_align ud a b :
  keeps titled (align_with_unit_descr ud a b).
Proof.
  unfold align_with_unit_descr.
  keeps_with ltac:(first [apply titled_set_min | apply titled_set_max
                        | apply titled_set_segment_count
                        | apply titled_set_ordinal_dictionary]).
Qed.

Lemma heights_align ud a b :
  keeps heights (align_with_unit_descr ud a b).
Proof.
  unfold align_with_unit_descr.
  keeps_with ltac:(first [apply heights_set_min | apply heights_set_max
                        | apply heights_set_segment_count
                        | apply heights_set_ordinal_dictionary]).
Qed.

Lemma is_unit_acceptable_Ok (d : DataType.t) (u : string) (ok : bool) :
  DataType.is_unit_acceptable d u true = Ok ok -> u ∈ DataType.units d.
Proof.
  unfold DataType.is_unit_acceptable.
  destruct (existsb _ _) eqn:Hex; [|discriminate]. intros _.
  apply existsb_exists in Hex as (u' & Hin & Heq).
  apply String.eqb_eq in Heq. subst u'. now apply list_elem_of_In.
Qed.

(** X11. The title of a graphic container. The orientation of the legend is
    the one of the parameters given. A title that the caller set is kept. A
    default title becomes, with a data type, the unit given or else the
    first unit of the data type, which must be a unit of the data type
    (alone when the legend is vertical, after the name of the data type when
    it is not); without a data type it becomes the unit given, and stays as
    it is when none is given. *)
Theorem title_defaults (values : list num) (min_point max_point : Point3D)
    (lp : option Parameters) (dt : option DataType.t)
    (unit : option string) (gc : GraphicContainer) :
  __init__ values min_point max_point lp dt unit = Ok gc ->
  let par := legend_parameters gc in
  _vertical par = from_option _vertical true lp
  /\ if from_option _is_title_default true lp
     then match dt, unit with
          | Some d, _ =>
              exists u,
                (unit = Some u
                 \/ unit = None /\ head (DataType.units d) = Some u)
                /\ u ∈ DataType.units d
                /\ _title par
                   = if _vertical par then u
                     else (DataType.name d ++ " (" ++ u ++ ")")%string
          | None, Some u => _title par = u
          | None, None => _title par = from_option _title EmptyString lp
          end
     else _title par = from_option _title EmptyString lp.
Proof.
  intros Hinit. unfold __init__ in Hinit.
  destruct (Legend__init__ values lp) as [lg|e] eqn:Hlg; [|discriminate].
  cbn [Py.bind] in Hinit.
  destruct (__init__body _ _ _ _ _ _ _) as [[u0|e] par1] eqn:Hb;
    [|discriminate].
  injection Hinit as <-. cbn [legend_parameters _legend _legend_par].
  apply Legend__init__views in Hlg as [Hview _].
  set (par0 := _legend_par lg) in *. clearbody par0.
  unfold __init__body in Hb.
  step Hb as u1 s1 Hfirst.
  kept (titled (D := gmap Z string)) Hb.
  { keeps_with ltac:(first [apply titled_set_segment_height
                          | apply titled_set_base_plane]). }
  assert (Hfrom : titled par0
                  = (from_option _title EmptyString lp,
                     from_option _is_title_default true lp,
                     from_option _vertical true lp)).
  { rewrite Hview. now destruct lp. }
  clear Hview. unfold titled in Hb, Hfrom.
  injection Hfrom as Ht0 Hd0 Hv0. injection Hb as Ht1 Hd1 Hv1.
  rewrite Ht1, Hv1. rewrite <- Hd0.
  destruct dt as [d|].
  - step Hfirst as par_ s Hget. assigned.
    step Hfirst as u2 sa Htitle.
    kept (titled (D := gmap Z string)) Hfirst.
    { keeps_with ltac:(apply titled_align). }
    unfold titled in Hfirst. injection Hfirst as Hta Hda Hva.
    rewrite Hta, Hva.
    destruct (_is_title_default par0).
    + step Htitle as u s Hu. step Htitle as ok s' Hok.
      step Htitle as par_ s'' Hget. assigned.
      unfold set_title, St.bind, St.modify in Htitle.
      injection Htitle as _ <-. cbn. rewrite Hv0.
      split; [reflexivity|].
      exists u. split; [|split].
      * destruct unit as [u'|]; [left; congruence|].
        right. split; [reflexivity|].
        destruct (DataType.units d); [discriminate|]. cbn. congruence.
      * eapply is_unit_acceptable_Ok, Hok.
      * reflexivity.
    + assigned. now split.
  - step Hfirst as par_ s Hget. assigned.
    destruct unit as [u|].
    + destruct (_is_title_default par0).
      * unfold set_title, St.bind, St.modify in Hfirst.
        injection Hfirst as _ <-. cbn. now split.
      * assigned. now split.
    + assigned. now destruct (_is_title_default par0).
Qed.

(** X12. With a default title, a unit that the data type does not list makes
    the constructor raise [ValueError]. *)
Theorem unit_not_acceptable (values : list num)
    (min_point max_point : Point3D) (lp : option Parameters)
    (d : DataType.t) (u : string) (lg : Legend (gmap Z string)) :
  Legend__init__ values lp = Ok lg ->
  from_option _is_title_default true lp = true ->
  u ∉ DataType.units d ->
  __init__ values min_point max_point lp (Some d) (Some u)
  = Raise ValueError.
Proof.
  intros Hlg Hdef Hu. unfold __init__. rewrite Hlg. cbn [Py.bind].
  apply Legend__init__views in Hlg as [Hview _].
  assert (Hflag : _is_title_default (_legend_par lg) = true).
  { unfold titled in Hview.
    destruct lp as [p|]; cbn in Hview, Hdef; injection Hview as _ -> _;
      [exact Hdef|reflexivity]. }
  assert (Hno : DataType.is_unit_acceptable d u true = Raise ValueError).
  { unfold DataType.is_unit_acceptable.
    destruct (existsb _ _) eqn:Hex; [|reflexivity].
    apply existsb_exists in Hex as (u' & Hin & Heq).
    apply String.eqb_eq in Heq. subst u'.
    exfalso. apply Hu. now apply list_elem_of_In. }
  unfold __init__body, St.bind, St.get, St.lift.
  now rewrite Hflag, Hno.
Qed.

Lemma num_ltb_0 (q : Q) : num_ltb (Int 0) (Float q) = true -> (0 < q)%Q.
Proof.
  unfold num_ltb. intros Hlt. apply negb_true_iff in Hlt.
  apply Qnot_le_lt. intros Hle. apply Qle_bool_iff in Hle.
  cbn [to_Q] in Hlt. change (inject_Z 0) with 0%Q in Hlt. congruence.
Qed.

(** X13. The segment height of a graphic container. A height that the caller
    set is kept. A default height becomes a twentieth of the extent of the
    bounding box, along y for a vertical legend and along x for a horizontal
    one, and the container is built only when that extent is positive. *)
Theorem segment_height_defaults (values : list num)
    (min_point max_point : Point3D) (lp : option Parameters)
    (dt : option DataType.t) (unit : option string)
    (gc : GraphicContainer) :
  __init__ values min_point max_point lp dt unit = Ok gc ->
  let par := legend_parameters gc in
  if from_option _is_segment_height_default true lp
  then
    let extent :=
      (if _vertical par then y max_point - y min_point
       else x max_point - x min_point)%Q in
    (0 < extent)%Q
    /\ _segment_height par = Float (extent / 20)
    /\ _is_segment_height_default par = false
  else _segment_height par = from_option _segment_height (Int 1) lp.
Proof.
  intros Hinit. unfold __init__ in Hinit.
  destruct (Legend__init__ values lp) as [lg|e] eqn:Hlg; [|discriminate].
  cbn [Py.bind] in Hinit.
  destruct (__init__body _ _ _ _ _ _ _) as [[u0|e] par1] eqn:Hb;
    [|discriminate].
  injection Hinit as <-. cbn [legend_parameters _legend _legend_par].
  apply Legend__init__views in Hlg as [_ Hview].
  set (par0 := _legend_par lg) in *. clearbody par0.
  assert (Hfrom : heights par0
                  = (from_option _segment_height (Int 1) lp,
                     from_option _is_segment_height_default true lp,
                     from_option _vertical true lp)).
  { rewrite Hview. now destruct lp. }
  clear Hview.
  unfold __init__body in Hb.
  step Hb as u1 s1 Hfirst.
  kept (heights (D := gmap Z string)) Hfirst.
  { keeps_with ltac:(first [apply heights_set_title
                          | apply heights_align]). }
  rewrite <- Hfirst in Hfrom. clear Hfirst.
  step Hb as par_ s Hget. assigned.
  step Hb as u2 s2 Hheight.
  kept (heights (D := gmap Z string)) Hb.
  { keeps_with ltac:(apply heights_set_base_plane). }
  unfold heights in Hb, Hfrom.
  injection Hfrom as Hh0 Hd0 Hv0. injection Hb as Hh1 Hd1 Hv1.
  rewrite Hh1, Hd1, Hv1. rewrite <- Hd0.
  destruct (_is_segment_height_default s1).
  - unfold set_segment_height, St.bind, St.assert_, St.modify in Hheight.
    destruct (num_ltb _ _) eqn:Hpos; [|discriminate].
    injection Hheight as _ <-. cbn.
    destruct (_vertical s1); apply num_ltb_0 in Hpos.
    + split; [|now split].
      apply (Qmult_lt_r _ _ (/ 20)); [reflexivity|].
      now rewrite Qmult_0_l.
    + split; [|now split].
      apply (Qmult_lt_r _ _ (/ 20)); [reflexivity|].
      now rewrite Qmult_0_l.
  - assigned. exact Hh0.
Qed.

Lemma index_absent (keys : list Z) (v : num) :
  (forall k, k ∈ keys -> num_eqb (Int k) v = false) ->
  index keys v = Raise ValueError.
Proof.
  induction keys as [|k rest IH]; intros Habs; [reflexivity|].
  cbn. rewrite (Habs k) by left.
  rewrite IH; [reflexivity|]. intros k' Hk'. apply Habs. now right.
Qed.

(** X14. When the legend itself can be built from parameters that set a
    minimum, a maximum and a title, leave the segment count at its default
    and have no ordinal dictionary, a data type whose [unit_descr] has no
    key equal to that minimum makes the constructor raise [ValueError]:
    [sorted_keys.index(min)] raises it and the clause [except IndexError]
    does not catch it. *)
Theorem minimum_not_a_key (values : list num)
    (min_point max_point : Point3D) (p : Parameters) (d : DataType.t)
    (unit : option string) (unit_descr : gmap Z string) (m mx : num)
    (lg : Legend (gmap Z string)) :
  Legend__init__ values (Some p) = Ok lg ->
  _min p = Some m -> _max p = Some mx ->
  _is_title_default p = false ->
  _ordinal_dictionary p = None ->
  _is_segment_count_default p = true ->
  DataType.unit_descr d = Some unit_descr ->
  (forall k, is_Some (unit_descr !! k) -> num_eqb (Int k) m = false) ->
  __init__ values min_point max_point (Some p) (Some d) unit
  = Raise ValueError.
Proof.
  intros Hlg Hmin Hmax Htitle Hod Hcount Hud Hkey.
  unfold __init__. rewrite Hlg. cbn [Py.bind].
  destruct (Legend__init__views _ _ _ Hlg) as [Hview _].
  destruct (Legend__init__core _ _ _ Hlg)
    as (Hdmin & Hdmax & Hkmin & Hkmax & _ & _ & _ & Hdcount & Hdict).
  cbn in Hdmin, Hdmax, Hkmin, Hkmax, Hdcount, Hdict, Hview.
  rewrite Hmin in Hdmin. rewrite Hmax in Hdmax.
  rewrite bool_decide_eq_false_2 in Hdmin by discriminate.
  rewrite bool_decide_eq_false_2 in Hdmax by discriminate.
  specialize (Hkmin m Hmin). specialize (Hkmax mx Hmax).
  rewrite Hcount in Hdcount. rewrite Hod in Hdict.
  unfold titled in Hview. injection Hview as _ Hdtitle _.
  rewrite Htitle in Hdtitle.
  rewrite Hdmin, Hdmax.
  set (q := _legend_par lg) in *.
  unfold __init__body, St.bind at 1 2 3.
  unfold St.get at 1. rewrite Hdtitle. unfold St.ret at 1.
  unfold St.bind at 1. unfold St.get at 1. rewrite Hud, Hdict.
  unfold align_with_unit_descr, set_ordinal_dictionary.
  unfold St.bind, St.modify, St.ret, St.get, St.try_except, St.lift.
  cbn [_is_segment_count_default assign_ordinal_dictionary _min _max].
  change (_is_segment_count_default
            (assign_ordinal_dictionary (Some unit_descr) q))
    with (_is_segment_count_default q).
  rewrite Hdcount. cbn beta.
  change (_min (assign_ordinal_dictionary (Some unit_descr) q)) with (_min q).
  change (_max (assign_ordinal_dictionary (Some unit_descr) q)) with (_max q).
  rewrite Hkmin, Hkmax.
  rewrite index_absent; [reflexivity|].
  intros k Hk. apply Hkey. now apply elem_of_sorted_keys_of.
Qed.

End Defaults.

#[local] Existing Instance sample.colors.

(** A box of 10 by 10 with temperatures: the title is the first unit. *)
Lemma title_defaults_witness :
  exists gc,
    __init__ [Int 0; Int 10] {| x := 0; y := 0; z := 0 |}
      {| x := 10; y := 10; z := 0 |} None
      (Some (DataType.Instance sample.Temperature None)) None = Ok gc
    /\ _title (legend_parameters gc) = "C".
Proof.
  destruct (__init__ [Int 0; Int 10] {| x := 0; y := 0; z := 0 |}
              {| x := 10; y := 10; z := 0 |} None
              (Some (DataType.Instance sample.Temperature None)) None)
    as [gc|e] eqn:Hgc; [|vm_compute in Hgc; discriminate].
  exists gc. split; [reflexivity|].
  destruct (title_defaults _ _ _ _ _ _ _ Hgc) as [Hv Ht].
  cbn in Hv, Ht. destruct Ht as (u & [Hu|[_ Hu]] & _ & Ht);
    [discriminate|].
  rewrite Ht, Hv. now injection Hu as <-.
Defined.

Lemma unit_not_acceptable_witness :
  __init__ [Int 0; Int 10] {| x := 0; y := 0; z := 0 |}
    {| x := 10; y := 10; z := 0 |} None
    (Some (DataType.Instance sample.Temperature None)) (Some "m/s")
  = Raise ValueError.
Proof.
  destruct (Legend__init__ (D := gmap Z string) [Int 0; Int 10] None)
    as [lg|e] eqn:Hlg; [|vm_compute in Hlg; discriminate].
  apply (unit_not_acceptable _ _ _ _ _ _ lg Hlg); [reflexivity|].
  cbn. intros Hin.
  repeat (apply elem_of_cons in Hin as [Hin|Hin]; [discriminate|]).
  now apply elem_of_nil in Hin.
Defined.

(** The same box: segments of height one half. *)
Lemma segment_height_defaults_witness :
  exists gc,
    __init__ [Int 0; Int 10] {| x := 0; y := 0; z := 0 |}
      {| x := 10; y := 10; z := 0 |} None None None = Ok gc
    /\ _segment_height (legend_parameters gc) = Float ((10 - 0) / 20).
Proof.
  destruct (__init__ [Int 0; Int 10] {| x := 0; y := 0; z := 0 |}
              {| x := 10; y := 10; z := 0 |} None None None)
    as [gc|e] eqn:Hgc; [|vm_compute in Hgc; discriminate].
  exists gc. split; [reflexivity|].
  pose proof (segment_height_defaults _ _ _ _ _ _ _ Hgc) as Hh.
  assert (Hv : _vertical (legend_parameters gc) = true).
  { vm_compute in Hgc. now injection Hgc as <-. }
  cbn in Hh. rewrite Hv in Hh. now destruct Hh as (_ & -> & _).
Defined.

(** A scale of thermal sensation from -1 to 2 and a minimum of 0.5. *)
Lemma minimum_not_a_key_witness :
  __init__ [Int 0; Int 1] {| x := 0; y := 0; z := 0 |}
    {| x := 10; y := 10; z := 0 |} (Some sample.sensation_parameters)
    (Some (DataType.Instance sample.ThermalCondition None)) None
  = Raise ValueError.
Proof.
  destruct (Legend__init__ (D := gmap Z string) [Int 0; Int 1]
              (Some sample.sensation_parameters))
    as [lg|e] eqn:Hlg; [|vm_compute in Hlg; discriminate].
  apply (minimum_not_a_key _ _ _ _ _ _ sample.sensation
           (Float (1 # 2)) (Int 2) lg Hlg); try reflexivity.
  intros k [t Hk]. unfold num_eqb.
  apply not_true_is_false. intros Heq. apply Qeq_bool_iff in Heq.
  unfold Qeq in Heq. cbn in Heq. lia.
Defined.

End graphic_default_facts.

(** ** EPW objects *)

Module epw_facts.

Import epw.

(** Case analysis on the tests of [updated]. *)
Ltac range_split :=
  cbn [fmap option_fmap option_map];
  repeat match goal with
         | |- context [(?a <=? ?b)%nat] => destruct (Nat.leb_spec a b)
         | |- context [(?a <? ?b)%nat] => destruct (Nat.ltb_spec a b)
         end;
  cbn [andb]; try lia.

Ltac range_cases := range_split; reflexivity || lia.

Lemma move_last_to_start_snoc (values : list value) (v : value) :
  move_last_to_start (values ++ [v]) = Ok (v :: values).
Proof.
  unfold move_last_to_start. now rewrite last_snoc, removelast_last.
Qed.

Section Shifts.

Context `{DataTypeModules} `{Environment}.

(** One pass of the loop body, on the field that follows [pre]. *)
Lemma shift_field_at (flag : nat -> Data -> result bool)
    (move : list value -> result (list value)) (pre data : Data) :
  flag (length pre) (pre ++ data)
  = point_in_time_of_data (length pre) (pre ++ data) ->
  shift_field flag move (length pre) (pre ++ data)
  = match data with
    | [] => (Raise IndexError, pre ++ [])
    | coll :: rest =>
        match shift_collection move coll with
        | Ok coll' => (Ok tt, pre ++ coll' :: rest)
        | Raise e => (Raise e, pre ++ coll :: rest)
        end
    end.
Proof.
  intros Hflag. unfold shift_field, St.bind, St.get, St.lift.
  rewrite Hflag. unfold point_in_time_of_data, item.
  destruct data as [|coll rest].
  { rewrite lookup_ge_None_2 by (rewrite length_app; cbn; lia). reflexivity. }
  rewrite list_lookup_middle by reflexivity. cbn [Py.bind].
  unfold shift_collection.
  destruct (DataType.point_in_time (data_type (header coll))); [|reflexivity].
  destruct (move (_values coll)) as [values|e]; [|reflexivity].
  unfold St.modify. cbn [Py.bind].
  rewrite insert_app_r_alt, Nat.sub_diag by reflexivity. reflexivity.
Qed.

Lemma shift_collection_header (move : list value -> result (list value))
    (coll coll' : HourlyContinuousCollection) :
  shift_collection move coll = Ok coll' -> header coll' = header coll.
Proof.
  unfold shift_collection.
  destruct (DataType.point_in_time _); [|now intros [= <-]].
  destruct (move (_values coll)); [|discriminate]. now intros [= <-].
Qed.

(** The loop over field numbers is [shift_prefix]. *)
Lemma shift_fields_offset (flag : nat -> Data -> result bool)
    (move : list value -> result (list value)) (hs : list Header) :
  (forall k d, map header d = hs -> flag k d = point_in_time_of_data k d) ->
  forall (n : nat) (pre data : Data),
    map header (pre ++ data) = hs ->
    St.for_each (seq (length pre) n) (shift_field flag move) (pre ++ data)
    = (fst (shift_prefix move n data), pre ++ snd (shift_prefix move n data)).
Proof.
  intros Hflag n. induction n as [|n IH]; intros pre data Hhs; [reflexivity|].
  cbn [seq St.for_each shift_prefix]. unfold St.bind.
  rewrite shift_field_at by now apply Hflag.
  destruct data as [|coll rest]; [reflexivity|].
  destruct (shift_collection move coll) as [coll'|e] eqn:Hc; [|reflexivity].
  specialize (IH (pre ++ [coll']) rest).
  rewrite length_app, Nat.add_1_r, <- !app_assoc in IH. cbn in IH.
  rewrite IH; [reflexivity|].
  rewrite <- Hhs, !map_app. cbn.
  now rewrite (shift_collection_header _ _ _ Hc).
Qed.

Lemma shift_fields_prefix (move : list value -> result (list value))
    (n : nat) (data : Data) :
  shift_fields point_in_time_of_data move n data = shift_prefix move n data.
Proof.
  unfold shift_fields, xrange.
  pose proof (shift_fields_offset point_in_time_of_data move (map header data)
                (fun _ _ _ => eq_refl) n [] data eq_refl) as Hoff.
  cbn [length app] in Hoff. rewrite Hoff.
  now destruct (shift_prefix move n data).
Qed.

Lemma shift_fields_headers_prefix (headers : list Header)
    (move : list value -> result (list value)) (n : nat) (data : Data) :
  map header data = headers ->
  shift_fields (point_in_time_of_headers headers) move n data
  = shift_prefix move n data.
Proof.
  intros Hh. unfold shift_fields, xrange.
  assert (Hflag : forall k d, map header d = headers ->
            point_in_time_of_headers headers k d
            = point_in_time_of_data k d).
  { intros k d Hd.
    unfold point_in_time_of_headers, point_in_time_of_data, item.
    rewrite <- Hd, list_lookup_fmap. now destruct (d !! k). }
  pose proof (shift_fields_offset _ move headers Hflag n [] data Hh) as Hoff.
  cbn [length app] in Hoff. rewrite Hoff.
  now destruct (shift_prefix move n data).
Qed.

(** The loop of the [finally] block undoes the loop of the [try] block,
    and stops with the same outcome. *)
Lemma shift_prefix_restore (n : nat) (data : Data) :
  shift_prefix move_last_to_start n
    (snd (shift_prefix move_first_to_end n data))
  = (fst (shift_prefix move_first_to_end n data), data).
Proof.
  revert data. induction n as [|n IH]; intros data; [reflexivity|].
  destruct data as [|coll rest]; [reflexivity|].
  cbn [shift_prefix]. unfold shift_collection.
  destruct coll as [hd values]. cbn [header _values with_values].
  destruct (DataType.point_in_time (data_type hd)) eqn:Hpit.
  - destruct values as [|v values]; cbn.
    + now rewrite Hpit.
    + rewrite Hpit. cbn. rewrite move_last_to_start_snoc. cbn.
      now rewrite IH.
  - cbn. rewrite Hpit. cbn. now rewrite IH.
Qed.

End Shifts.

(** *** The [try] statement of [save] *)

Section Save.

Context `{DataTypeModules} `{Environment}.

Lemma assign_data_same (e : EPW) : assign_data (_data e) e = e.
Proof. now destruct e. Qed.

Lemma assign_data_twice (d d' : Data) (e : EPW) :
  assign_data d (assign_data d' e) = assign_data d e.
Proof. reflexivity. Qed.

Lemma shift_collection_Raise (move : list value -> result (list value))
    (coll : HourlyContinuousCollection) (x : exn) :
  (forall vs x', move vs = Raise x' -> x' = IndexError) ->
  shift_collection move coll = Raise x -> x = IndexError.
Proof.
  intros Hmove. unfold shift_collection.
  destruct (DataType.point_in_time _); [|discriminate].
  destruct (move (_values coll)) as [vs|x'] eqn:Hm; [discriminate|].
  intros [= <-]. eapply Hmove, Hm.
Qed.

Lemma move_first_to_end_Raise (vs : list value) (x : exn) :
  move_first_to_end vs = Raise x -> x = IndexError.
Proof. destruct vs; [now intros [= <-]|discriminate]. Qed.

(** A shift loop raises nothing but [IndexError]. *)
Lemma shift_prefix_Raise (n : nat) (data : Data) (x : exn) :
  fst (shift_prefix move_first_to_end n data) = Raise x -> x = IndexError.
Proof.
  revert data. induction n as [|n IH]; intros data; [discriminate|].
  destruct data as [|coll rest]; [now intros [= <-]|].
  cbn [shift_prefix].
  destruct (shift_collection move_first_to_end coll) as [coll'|x'] eqn:Hc.
  - cbn. apply IH.
  - cbn. intros [= <-].
    eapply shift_collection_Raise, Hc. apply move_first_to_end_Raise.
Qed.

Lemma traverse_Raise {A B} (f : A -> result B) (items : list A) (x : exn) :
  traverse f items = Raise x -> exists a, a ∈ items /\ f a = Raise x.
Proof.
  induction items as [|a items IH]; [discriminate|]. cbn.
  destruct (f a) as [b|x'] eqn:Hf.
  - cbn. destruct (traverse f items); [discriminate|]. cbn.
    intros Hx. destruct (IH Hx) as (a' & Hin & Ha').
    exists a'. split; [now right|exact Ha'].
  - cbn. intros [= <-]. exists a. split; [left|exact Hf].
Qed.

(** The lines of the data raise nothing but [IndexError]. *)
Lemma data_lines_Raise (data : Data) (n hours : nat) (x : exn) :
  traverse (data_line data n) (xrange hours) = Raise x -> x = IndexError.
Proof.
  intros Hx. apply traverse_Raise in Hx as (hour & _ & Hx).
  unfold data_line in Hx.
  destruct (traverse _ (xrange n)) as [line|x'] eqn:Hl; [discriminate|].
  cbn in Hx. injection Hx as <-.
  apply traverse_Raise in Hl as (field & _ & Hl).
  unfold item in Hl. destruct (data !! field) as [coll|]; cbn in Hl;
    [|now injection Hl as <-].
  destruct (_values coll !! hour); cbn in Hl; [discriminate|].
  now injection Hl as <-.
Qed.

(** The outcome of the [try] statement of [save] on an object whose
    header is loaded: the data are left as they were on every path. *)
Lemma save_statement_outcome (e : EPW) (fs : gmap string string)
    (lines : list string) (path : string) :
  _is_header_loaded e = true ->
  save_statement lines path {| obj := e; files := fs |}
  = match shift_prefix move_first_to_end (_num_of_fields e) (_data e) with
    | (Raise x, _) => (Raise x, {| obj := e; files := fs |})
    | (Ok _, shifted) =>
        match traverse (data_line shifted (_num_of_fields e))
                (xrange (length (datetimes (_is_leap_year e)))) with
        | Raise _ => (Raise ValueError, {| obj := e; files := fs |})
        | Ok data_lines =>
            if writable path
            then (Ok tt,
                  {| obj := e;
                     files :=
                       <[path := String.concat "" (lines ++ data_lines)]> fs |})
            else (Raise OSError, {| obj := e; files := fs |})
        end
    end.
Proof.
  intros Hloaded. destruct e as [fp hl dl ip data hs leap num].
  cbn in Hloaded. subst hl.
  unfold save_statement, St.try_finally, St.try_except_else, save_try,
    save_finally, is_leap_year, _load_header_check.
  unfold St.bind, self, on_data, St.ret, St.lift, St.raise.
  cbn [obj files _num_of_fields _data].
  rewrite shift_fields_prefix.
  pose proof (shift_prefix_restore num data) as Hrestore.
  pose proof (shift_prefix_Raise num data) as Hraise.
  destruct (shift_prefix move_first_to_end num data)
    as [[u|x] shifted]; cbn [fst snd] in *.
  - cbn [obj files _num_of_fields _data assign_data _is_header_loaded
         _is_leap_year negb].
    destruct (traverse _ _) as [data_lines|x] eqn:Hlines.
    + unfold write_to_file. destruct (writable path).
      * unfold St.modify.
        cbn [obj files _num_of_fields _data assign_data].
        now rewrite shift_fields_prefix, Hrestore.
      * unfold St.raise.
        cbn [obj files _num_of_fields _data assign_data].
        now rewrite shift_fields_prefix, Hrestore.
    + rewrite (data_lines_Raise _ _ _ _ Hlines). cbn [issubclass exn_eqb orb].
      cbn [obj files _num_of_fields _data assign_data].
      now rewrite shift_fields_prefix, Hrestore.
  - rewrite (Hraise x eq_refl) in *. cbn [issubclass exn_eqb orb].
    cbn [obj files _num_of_fields _data assign_data].
    now rewrite shift_fields_prefix, Hrestore.
Qed.

(** [save] on an object whose header and data are loaded. *)
Lemma save_loaded (e : EPW) (fs : gmap string string) (path : string) :
  _is_data_loaded e = true -> _is_header_loaded e = true ->
  save path {| obj := e; files := fs |}
  = match header_lines (_header_state e) (_is_leap_year e) with
    | Raise x => (Raise x, {| obj := in_si e; files := fs |})
    | Ok lines =>
        match save_statement lines path {| obj := in_si e; files := fs |} with
        | (Ok _, w') =>
            (Ok path,
             {| obj := if _is_ip e then in_ip (obj w') else obj w';
                files := files w' |})
        | (Raise x, w') => (Raise x, w')
        end
    end.
Proof.
  intros Hdata Hheader. destruct e as [fp hl dl ip data hs leap num].
  cbn in Hdata, Hheader. subst hl dl.
  unfold save, header_property, _load_header_check, in_si, in_ip.
  destruct ip.
  - unfold convert_to_si, convert_to_ip.
    unfold St.bind, self, on_data, on_obj, St.ret, St.lift, St.modify.
    cbn [obj files _is_data_loaded _is_header_loaded _is_ip _data
         _header_state _is_leap_year negb assign_is_ip assign_data].
    destruct (header_lines hs leap) as [lines|x]; [|reflexivity].
    rewrite save_statement_outcome by reflexivity.
    cbn [_num_of_fields _data _is_leap_year].
    destruct (shift_prefix _ _ _) as [[u|x] shifted]; [|reflexivity].
    destruct (traverse _ _); [|reflexivity].
    destruct (writable path); reflexivity.
  - unfold St.bind, self, on_data, on_obj, St.ret, St.lift, St.modify.
    cbn [obj files _is_data_loaded _is_header_loaded _is_ip _data
         _header_state _is_leap_year negb assign_is_ip assign_data].
    destruct (header_lines hs leap) as [lines|x]; [|reflexivity].
    rewrite save_statement_outcome by reflexivity.
    cbn [_num_of_fields _data _is_leap_year].
    destruct (shift_prefix _ _ _) as [[u|x] shifted]; [|reflexivity].
    destruct (traverse _ _); [|reflexivity].
    destruct (writable path); reflexivity.
Qed.

Lemma in_si_fields (e : EPW) :
  _is_header_loaded (in_si e) = _is_header_loaded e
  /\ _num_of_fields (in_si e) = _num_of_fields e
  /\ _is_leap_year (in_si e) = _is_leap_year e
  /\ _header_state (in_si e) = _header_state e
  /\ _is_ip (in_si e) = false.
Proof. destruct e as [fp hl dl [] data hs leap num]; now cbn. Qed.

(** The object that [save] leaves on each of its exit paths. *)
Lemma save_object (e : EPW) (fs : gmap string string) (path : string) :
  _is_data_loaded e = true -> _is_header_loaded e = true ->
  obj (snd (save path {| obj := e; files := fs |}))
  = match fst (save path {| obj := e; files := fs |}) with
    | Ok _ => if _is_ip e then in_ip (in_si e) else e
    | Raise _ => in_si e
    end.
Proof.
  intros Hdata Hheader. rewrite save_loaded by assumption.
  destruct (header_lines _ _) as [lines|x]; [|reflexivity].
  destruct (in_si_fields e) as (Hl & _).
  rewrite save_statement_outcome by now rewrite Hl.
  destruct (shift_prefix _ _ _) as [[u|x] shifted]; [|reflexivity].
  destruct (traverse _ _); [|reflexivity].
  destruct (writable path); cbn [fst snd obj]; [|reflexivity].
  destruct (_is_ip e) eqn:Hip; [reflexivity|].
  unfold in_si. now rewrite Hip.
Qed.


(** *** Series that are too short *)

Lemma traverse_Ok_elem {A B} (f : A -> result B) (items : list A)
    (bs : list B) (a : A) :
  traverse f items = Ok bs -> a ∈ items -> exists b, f a = Ok b.
Proof.
  revert bs. induction items as [|a' items IH]; intros bs Hok Hin.
  { now apply elem_of_nil in Hin. }
  cbn in Hok. destruct (f a') as [b|] eqn:Hf; [|discriminate]. cbn in Hok.
  destruct (traverse f items) as [bs'|]; [|discriminate].
  apply elem_of_cons in Hin as [->|Hin]; [now exists b|].
  now apply (IH bs').
Qed.

(** The loop of the [try] block keeps the length of every series. *)
Lemma shift_prefix_lookup (n : nat) (data : Data) (k : nat)
    (coll : HourlyContinuousCollection) :
  data !! k = Some coll ->
  exists coll',
    snd (shift_prefix move_first_to_end n data) !! k = Some coll'
    /\ length (_values coll') = length (_values coll).
Proof.
  revert data k. induction n as [|n IH]; intros data k Hk.
  { now exists coll. }
  destruct data as [|c rest]; [discriminate|].
  cbn [shift_prefix].
  destruct (shift_collection move_first_to_end c) as [c'|x] eqn:Hc.
  - cbn [snd]. destruct k as [|k].
    + injection Hk as ->. exists c'. split; [reflexivity|].
      unfold shift_collection in Hc.
      destruct (DataType.point_in_time _); [|now injection Hc as <-].
      destruct (_values coll) as [|v vs] eqn:Hv; [discriminate|].
      cbn in Hc. injection Hc as <-. cbn. rewrite length_app. cbn. lia.
    + apply (IH rest k Hk).
  - now exists coll.
Qed.

(** The loop of the [try] block goes through when the first
    [num_of_fields] series exist and none that is point-in-time is empty. *)
Lemma shift_prefix_Ok (n : nat) (data : Data) :
  (n <= length data)%nat ->
  Forall (fun coll =>
            DataType.point_in_time (data_type (header coll)) = true ->
            _values coll <> []) (take n data) ->
  fst (shift_prefix move_first_to_end n data) = Ok tt.
Proof.
  revert data. induction n as [|n IH]; intros data Hlen Hall; [reflexivity|].
  destruct data as [|c rest]; [cbn in Hlen; lia|].
  cbn [take] in Hall. apply Forall_cons in Hall as [Hc Hall].
  cbn [shift_prefix]. unfold shift_collection.
  destruct (DataType.point_in_time _).
  - destruct (_values c) as [|v vs]; [now destruct Hc|].
    cbn. apply IH; [cbn in Hlen; lia|exact Hall].
  - cbn. apply IH; [cbn in Hlen; lia|exact Hall].
Qed.

(** A series among the first [n] that has no value for some hour of the
    year stops the loop over the hours. *)
Lemma data_lines_short (data : Data) (n hours field : nat)
    (coll : HourlyContinuousCollection) :
  (field < n)%nat -> data !! field = Some coll ->
  (length (_values coll) < hours)%nat ->
  traverse (data_line data n) (xrange hours) = Raise IndexError.
Proof.
  intros Hfield Hcoll Hshort.
  destruct (traverse _ (xrange hours)) as [data_lines|x] eqn:Ht.
  - apply (traverse_Ok_elem _ _ _ (length (_values coll))) in Ht as [l Hl].
    2:{ apply elem_of_seq. lia. }
    unfold data_line in Hl.
    destruct (traverse _ (xrange n)) as [line|] eqn:Hline; [|discriminate].
    apply (traverse_Ok_elem _ _ _ field) in Hline as [t Ht].
    2:{ apply elem_of_seq. lia. }
    unfold item in Ht. rewrite Hcoll in Ht. cbn in Ht.
    now rewrite lookup_ge_None_2 in Ht by lia.
  - now rewrite (data_lines_Raise _ _ _ _ Ht).
Qed.

End Save.

(** *** Loops over the fields *)

Section Loops.

Context `{DataTypeModules} `{Environment}.

Lemma updated_lookup {A} (a n : nat) (f : nat -> A -> A) (items : list A)
    (k : nat) :
  updated a n f items !! k
  = (fun c => if (a <=? k)%nat && (k <? a + n)%nat then f k c else c)
      <$> items !! k.
Proof. unfold updated. apply list_lookup_imap. Qed.

Lemma updated_length {A} (a n : nat) (f : nat -> A -> A) (items : list A) :
  length (updated a n f items) = length items.
Proof. unfold updated. apply length_imap. Qed.

Lemma for_each_index {A} (body : nat -> St.t (list A) Datatypes.unit)
    (f : nat -> A -> A) (n : nat) :
  forall (a : nat) (items : list A),
    (forall i d c, (a <= i < a + n)%nat -> d !! i = Some c ->
                   body i d = (Ok tt, <[i := f i c]> d)) ->
    (a + n <= length items)%nat ->
    St.for_each (seq a n) body items = (Ok tt, updated a n f items).
Proof.
  induction n as [|n IH]; intros a items Hbody Hlen.
  - cbn [seq St.for_each]. unfold St.ret. f_equal. apply list_eq. intros k.
    rewrite updated_lookup. destruct (items !! k); [|reflexivity].
    range_cases.
  - cbn [seq St.for_each]. unfold St.bind.
    destruct (lookup_lt_is_Some_2 items a) as [c Hc]; [lia|].
    rewrite (Hbody a items c) by (assumption || lia).
    rewrite (IH (S a)).
    + f_equal. apply list_eq. intros k. rewrite !updated_lookup.
      destruct (decide (k = a)) as [->|Hk].
      * rewrite list_lookup_insert_eq, Hc by lia. range_cases.
      * rewrite list_lookup_insert_ne by congruence.
        destruct (items !! k); [|reflexivity]. range_cases.
    + intros i d c' Hi Hd. apply Hbody; [lia|exact Hd].
    + rewrite length_insert. lia.
Qed.

Lemma append_value_at (k : nat) (v : value) (data : Data)
    (coll : HourlyContinuousCollection) :
  data !! k = Some coll ->
  append_value k v data
  = (Ok tt, <[k := with_values (_values coll ++ [v]) coll]> data).
Proof.
  intros Hk. unfold append_value, St.bind, St.get, St.lift, item.
  now rewrite Hk.
Qed.

(** [for _ in items: self._data[k].append(v)]. *)
Lemma append_value_repeat {A} (k : nat) (v : value) (items : list A) :
  forall (data : Data) (coll : HourlyContinuousCollection),
    data !! k = Some coll ->
    St.for_each items (fun _ => append_value k v) data
    = (Ok tt,
       <[k := with_values (_values coll ++ replicate (length items) v) coll]>
         data).
Proof.
  induction items as [|a items IH]; intros data coll Hk.
  - cbn. unfold St.ret. f_equal. rewrite app_nil_r.
    destruct coll. symmetry. now apply list_insert_id.
  - cbn [St.for_each]. unfold St.bind.
    rewrite (append_value_at _ _ _ _ Hk).
    rewrite (IH _ (with_values (_values coll ++ [v]) coll)).
    + f_equal. rewrite list_insert_insert_eq. cbn.
      now rewrite <- app_assoc.
    + apply list_lookup_insert_eq. now apply lookup_lt_Some in Hk.
Qed.

Lemma traverse_Ok {A B} (f : A -> result B) (items : list A) :
  (forall a, a ∈ items -> exists b, f a = Ok b) ->
  exists bs, traverse f items = Ok bs.
Proof.
  induction items as [|a items IH]; intros Hall; [now exists []|].
  destruct (Hall a) as [b Hb]; [left|].
  destruct IH as [bs Hbs]; [intros a' Ha'; apply Hall; now right|].
  exists (b :: bs). cbn. now rewrite Hb, Hbs.
Qed.

Lemma traverse_lookup {A B} (f : A -> result B) (items : list A)
    (bs : list B) :
  traverse f items = Ok bs ->
  length bs = length items
  /\ forall i a, items !! i = Some a ->
       exists b, bs !! i = Some b /\ f a = Ok b.
Proof.
  revert bs. induction items as [|a items IH]; intros bs Hbs.
  { injection Hbs as <-. split; [reflexivity|]. intros i a Hi.
    now rewrite lookup_nil in Hi. }
  cbn in Hbs. destruct (f a) as [b|] eqn:Hb; [|discriminate]. cbn in Hbs.
  destruct (traverse f items) as [bs'|]; [|discriminate].
  injection Hbs as <-. destruct (IH bs' eq_refl) as [Hlen Hlook].
  split; [cbn; now rewrite Hlen|].
  intros [|i] a' Hi.
  - injection Hi as <-. now exists b.
  - apply (Hlook i a' Hi).
Qed.

(** The loop that creates the headers and the empty lists. *)
Lemma create_headers_outcome (fields : list nat) :
  forall (hs : list Header) (data : Data),
    traverse field_header fields = Ok hs ->
    create_headers fields data = (Ok hs, data ++ map empty_series hs).
Proof.
  induction fields as [|k fields IH]; intros hs data Hhs.
  - injection Hhs as <-. cbn. unfold St.ret. now rewrite app_nil_r.
  - cbn in Hhs. unfold field_header at 1 in Hhs.
    cbn [create_headers]. unfold St.bind, St.lift, St.modify, St.ret.
    destruct (field_by_number (Z.of_nat k)) as [field|]; [|discriminate].
    cbn in Hhs.
    destruct (traverse field_header fields) as [hs'|] eqn:Hhs';
      [|discriminate].
    injection Hhs as <-. rewrite (IH hs' _ eq_refl).
    cbn. now rewrite <- app_assoc.
Qed.

(** The headers of the first fields of the table. *)
Lemma field_headers (n : nat) :
  (n <= 35)%nat -> exists hs, traverse field_header (xrange n) = Ok hs.
Proof.
  intros Hn. apply traverse_Ok. intros k Hk.
  apply elem_of_seq in Hk.
  destruct (epw_fields_facts.field_by_number_in_range k) as [fd Hfd]; [lia|].
  unfold field_header. rewrite Hfd. now eexists.
Qed.

(** The loop that builds the collections leaves data that have their
    headers as they are. *)
Lemma build_collections_same (headers : list Header) (n : nat)
    (data : Data) :
  (n <= length data)%nat ->
  (forall i coll, (i < n)%nat -> data !! i = Some coll ->
                  headers !! i = Some (header coll)) ->
  build_collections headers n data = (Ok tt, data).
Proof.
  intros Hlen Hheaders. unfold build_collections, xrange.
  rewrite (for_each_index _
             (fun i coll =>
                match headers !! i with
                | Some h => {| header := h; _values := _values coll |}
                | None => coll
                end)).
  - f_equal. apply list_eq. intros k. rewrite updated_lookup.
    destruct (data !! k) as [coll|] eqn:Hk; [|reflexivity].
    range_split; [|reflexivity].
    rewrite (Hheaders k coll) by (assumption || lia). now destruct coll.
  - intros i d c Hi Hd. unfold St.bind, St.get, St.lift, St.modify, item.
    destruct (lookup_lt_is_Some_2 data i) as [coll Hcoll]; [lia|].
    rewrite (Hheaders i coll) by (assumption || lia). cbn.
    now rewrite Hd.
  - cbn. lia.
Qed.

(** *** [from_missing_values] *)

Lemma with_values_app_nil (coll : HourlyContinuousCollection) :
  with_values (_values coll ++ []) coll = coll.
Proof. destruct coll. unfold with_values. cbn. now rewrite app_nil_r. Qed.

(** The loop over the hours of the year fills the first six fields. *)
Lemma append_dates (dts : list DateTime) :
  forall data : Data,
    (6 <= length data)%nat ->
    St.for_each dts append_date data
    = (Ok tt,
       updated 0 6
         (fun k coll =>
            with_values (_values coll ++ map (date_column k) dts) coll)
         data).
Proof.
  induction dts as [|dt dts IH]; intros data Hlen.
  - cbn [St.for_each map]. unfold St.ret. f_equal. apply list_eq. intros k.
    rewrite updated_lookup. destruct (data !! k); [|reflexivity].
    cbn [fmap option_fmap option_map]. rewrite with_values_app_nil.
    now destruct (_ && _).
  - destruct data as [|c0 [|c1 [|c2 [|c3 [|c4 [|c5 rest]]]]]];
      try (cbn in Hlen; lia).
    cbn [St.for_each]. unfold St.bind at 1.
    assert (Hbody :
      append_date dt (c0 :: c1 :: c2 :: c3 :: c4 :: c5 :: rest)
      = (Ok tt,
         with_values (_values c0 ++ [date_column 0 dt]) c0
         :: with_values (_values c1 ++ [date_column 1 dt]) c1
         :: with_values (_values c2 ++ [date_column 2 dt]) c2
         :: with_values (_values c3 ++ [date_column 3 dt]) c3
         :: with_values (_values c4 ++ [date_column 4 dt]) c4
         :: with_values (_values c5 ++ [date_column 5 dt]) c5 :: rest))
      by reflexivity.
    rewrite Hbody, IH by (cbn; lia).
    f_equal. apply list_eq. intros k. rewrite !updated_lookup.
    do 6 (destruct k as [|k];
          [cbn; unfold with_values; cbn; now rewrite <- app_assoc|]).
    cbn [lookup list_lookup]. destruct (rest !! k); reflexivity.
Qed.

(** The loop over the fields from 6 fills them with their missing
    value. *)
Lemma append_missing_values (hours a n : nat) (data : Data) :
  (a + n <= 35)%nat -> (a + n <= length data)%nat ->
  St.for_each (seq a n) (append_missing hours) data
  = (Ok tt,
     updated a n
       (fun k coll =>
          with_values
            (_values coll ++ replicate hours (missing_value k)) coll)
       data).
Proof.
  intros Hfields Hlen. apply for_each_index; [|exact Hlen].
  intros i d c Hi Hd. unfold append_missing, missing_value, St.bind, St.lift.
  destruct (epw_fields_facts.field_by_number_in_range i) as [fd Hfd]; [lia|].
  rewrite Hfd. rewrite (append_value_repeat _ _ _ _ _ Hd).
  unfold xrange. now rewrite length_seq.
Qed.

(** The series of [from_missing_values], from the headers of the 35
    fields. *)
Lemma missing_data_outcome (leap : bool) (hs : list Header) :
  traverse field_header (xrange 35) = Ok hs ->
  missing_data leap []
  = (Ok tt,
     updated 6 29
       (fun k coll =>
          with_values
            (_values coll
             ++ replicate (length (datetimes leap)) (missing_value k)) coll)
       (updated 0 6
          (fun k coll =>
             with_values
               (_values coll ++ map (date_column k) (datetimes leap)) coll)
          (map empty_series hs))).
Proof.
  intros Hhs. destruct (traverse_lookup _ _ _ Hhs) as [Hlen _].
  unfold xrange in Hlen. rewrite length_seq in Hlen.
  unfold missing_data, St.bind.
  rewrite (create_headers_outcome _ hs [] Hhs). cbn [app].
  rewrite append_dates by (rewrite length_map; lia).
  change (35 - 6)%nat with 29%nat.
  rewrite append_missing_values
    by (rewrite ?updated_length, ?length_map; lia).
  apply build_collections_same.
  { rewrite !updated_length, length_map. lia. }
  intros i coll Hi. rewrite !updated_lookup, list_lookup_fmap.
  destruct (hs !! i) as [h|]; [|discriminate].
  range_split; intros [= <-]; reflexivity.
Qed.

(** *** The loops of [_import_data] *)

Lemma updated_compose {A} (a n : nat) (f g : nat -> A -> A)
    (items : list A) :
  updated a n g (updated a n f items)
  = updated a n (fun k c => g k (f k c)) items.
Proof.
  apply list_eq. intros k. rewrite !updated_lookup.
  destruct (items !! k); [|reflexivity].
  cbn [fmap option_fmap option_map]. now destruct (_ && _).
Qed.

Lemma column_cons (k : nat) (row : list value) (table : list (list value)) :
  column k (row :: table) = column k [row] ++ column k table.
Proof. unfold column. cbn. now destruct (row !! k). Qed.

(** One line gives one more value to each of the first fields. *)
Lemma collect_line_outcome (n : nat) (line : string) (row : list value)
    (data : Data) :
  decode_row n line = Ok row -> (n <= length data)%nat ->
  collect_line n line data
  = (Ok tt,
     updated 0 n
       (fun k coll => with_values (_values coll ++ column k [row]) coll)
       data).
Proof.
  intros Hrow Hlen. unfold collect_line, xrange.
  apply for_each_index; [|cbn; lia].
  intros i d c Hi Hd.
  destruct (traverse_lookup _ _ _ Hrow) as [_ Hlook].
  destruct (Hlook i i) as (v & Hv & Hfield).
  { unfold xrange. rewrite lookup_seq. split; [reflexivity|lia]. }
  unfold St.bind, St.lift. rewrite Hfield.
  rewrite (append_value_at _ _ _ _ Hd).
  unfold column. cbn. now rewrite Hv.
Qed.

(** The lines of the file give the columns of their table to the first
    fields. *)
Lemma collect_outcome (n : nat) (rows : list string) :
  forall (table : list (list value)) (data : Data),
    traverse (decode_row n) rows = Ok table ->
    Forall (fun line => line <> EmptyString) rows ->
    (n <= length data)%nat ->
    collect n rows data
    = (Ok tt,
       updated 0 n
         (fun k coll => with_values (_values coll ++ column k table) coll)
         data).
Proof.
  induction rows as [|line rows IH]; intros table data Htable Hrows Hlen.
  - injection Htable as <-. cbn [collect]. unfold St.ret. f_equal.
    apply list_eq. intros k. rewrite updated_lookup.
    destruct (data !! k); [|reflexivity].
    cbn [fmap option_fmap option_map column omap list_omap].
    rewrite with_values_app_nil. now destruct (_ && _).
  - cbn in Htable.
    destruct (decode_row n line) as [row|] eqn:Hrow; [|discriminate].
    cbn in Htable.
    destruct (traverse (decode_row n) rows) as [table'|] eqn:Htable';
      [|discriminate].
    injection Htable as <-. apply Forall_cons in Hrows as [Hline Hrows].
    cbn [collect]. destruct (String.eqb_spec line ""); [contradiction|].
    unfold St.bind. rewrite (collect_line_outcome _ _ _ _ Hrow Hlen).
    rewrite (IH table') by (rewrite ?updated_length; auto).
    rewrite updated_compose. f_equal. apply list_eq. intros k.
    rewrite !updated_lookup. destruct (data !! k); [|reflexivity].
    cbn [fmap option_fmap option_map].
    destruct (_ && _); [|reflexivity].
    unfold with_values. cbn [header _values].
    now rewrite (column_cons k row table'), app_assoc.
Qed.

Lemma decode_row_length (n : nat) (line : string) (row : list value) :
  decode_row n line = Ok row -> length row = n.
Proof.
  intros Hrow. destruct (traverse_lookup _ _ _ Hrow) as [Hlen _].
  unfold xrange in Hlen. now rewrite length_seq in Hlen.
Qed.

Lemma table_rows (n : nat) (rows : list string) :
  forall table : list (list value),
    traverse (decode_row n) rows = Ok table ->
    length table = length rows
    /\ Forall (fun row => length row = n) table.
Proof.
  induction rows as [|line rows IH]; intros table Htable.
  - injection Htable as <-. now split.
  - cbn in Htable.
    destruct (decode_row n line) as [row|] eqn:Hrow; [|discriminate].
    cbn in Htable.
    destruct (traverse (decode_row n) rows) as [table'|]; [|discriminate].
    injection Htable as <-. destruct (IH table' eq_refl) as [Hlen Hall].
    split; [cbn; now rewrite Hlen|].
    constructor; [now apply decode_row_length in Hrow|exact Hall].
Qed.


Lemma column_length (n k : nat) (table : list (list value)) :
  Forall (fun row => length row = n) table -> (k < n)%nat ->
  length (column k table) = length table.
Proof.
  intros Hall Hk. induction Hall as [|row table Hrow Hall IH];
    [reflexivity|].
  rewrite column_cons, length_app, IH. unfold column. cbn.
  destruct (lookup_lt_is_Some_2 row k) as [v Hv]; [lia|]. now rewrite Hv.
Qed.

(** The fields after the loop over the lines. *)
Lemma collected_series (headers : list Header)
    (table : list (list value)) :
  updated 0 (length headers)
    (fun k coll => with_values (_values coll ++ column k table) coll)
    (map empty_series headers)
  = series_of headers table.
Proof.
  apply list_eq. intros k. unfold series_of.
  rewrite updated_lookup, list_lookup_fmap, list_lookup_imap.
  destruct (headers !! k) as [h|] eqn:Hk; [|reflexivity].
  apply lookup_lt_Some in Hk. range_split. reflexivity.
Qed.



(** The loop of [_import_data] on the point-in-time fields: every field
    that has a value is moved. *)
Lemma shift_prefix_last_to_front (data : Data) :
  Forall (fun coll => _values coll <> []) data ->
  shift_prefix move_last_to_start (length data) data
  = (Ok tt,
     map (fun coll =>
            if DataType.point_in_time (data_type (header coll))
            then with_values (last_to_front (_values coll)) coll
            else coll) data).
Proof.
  induction 1 as [|coll data Hcoll Hall IH]; [reflexivity|].
  cbn [length shift_prefix map]. rewrite IH. cbn [fst snd].
  unfold shift_collection, last_to_front.
  destruct (DataType.point_in_time _); [|reflexivity].
  destruct (_values coll) as [|v vs _] using rev_ind; [contradiction|].
  now rewrite move_last_to_start_snoc.
Qed.

(** The loop of the [try] block of [save] undoes the loop of
    [_import_data]. *)
Lemma shift_prefix_inverse (n : nat) (data : Data) :
  shift_prefix move_first_to_end n
    (snd (shift_prefix move_last_to_start n data))
  = (fst (shift_prefix move_last_to_start n data), data).
Proof.
  revert data. induction n as [|n IH]; intros data; [reflexivity|].
  destruct data as [|coll rest]; [reflexivity|].
  cbn [shift_prefix]. unfold shift_collection.
  destruct coll as [hd values]. cbn [header _values with_values].
  destruct (DataType.point_in_time (data_type hd)) eqn:Hpit.
  - destruct values as [|v vs _] using rev_ind.
    + cbn. now rewrite Hpit.
    + rewrite move_last_to_start_snoc. cbn. rewrite Hpit. cbn.
      now rewrite IH.
  - cbn. rewrite Hpit. cbn. now rewrite IH.
Qed.

Lemma series_of_headers (headers : list Header)
    (table : list (list value)) :
  map header (series_of headers table) = headers.
Proof.
  unfold series_of. apply list_eq. intros k.
  rewrite list_lookup_fmap, list_lookup_imap. now destruct (headers !! k).
Qed.

Lemma series_of_length (headers : list Header)
    (table : list (list value)) :
  length (series_of headers table) = length headers.
Proof. unfold series_of. apply length_imap. Qed.

Lemma series_of_values (headers : list Header)
    (table : list (list value)) :
  Forall (fun row => length row = length headers) table -> table <> [] ->
  Forall (fun coll => _values coll <> []) (series_of headers table).
Proof.
  intros Hall Hsome. apply Forall_forall. intros coll Hcoll.
  apply list_elem_of_lookup in Hcoll as [k Hk].
  unfold series_of in Hk. rewrite list_lookup_imap in Hk.
  destruct (headers !! k) as [h|] eqn:Hh; [|discriminate].
  injection Hk as <-. cbn [_values].
  apply lookup_lt_Some in Hh. intros Hempty.
  pose proof (column_length _ k table Hall Hh) as Hcol.
  rewrite Hempty in Hcol. now destruct table.
Qed.

(** The loop of [_import_data] makes [imported] of the series in the
    order of the file, and the loop of [save] makes these of [imported]. *)
Lemma shift_series (headers : list Header) (table : list (list value)) :
  Forall (fun row => length row = length headers) table -> table <> [] ->
  shift_prefix move_last_to_start (length headers)
    (series_of headers table)
  = (Ok tt, imported headers table).
Proof.
  intros Hall Hsome.
  rewrite <- (series_of_length headers table) at 1.
  now rewrite shift_prefix_last_to_front by now apply series_of_values.
Qed.

Lemma shift_imported (headers : list Header) (table : list (list value)) :
  Forall (fun row => length row = length headers) table -> table <> [] ->
  shift_prefix move_first_to_end (length headers)
    (imported headers table)
  = (Ok tt, series_of headers table).
Proof.
  intros Hall Hsome.
  pose proof (shift_prefix_inverse (length headers)
                (series_of headers table)) as Hinv.
  now rewrite (shift_series _ _ Hall Hsome) in Hinv.
Qed.

(** The data phase of [_import_data] on an object with no data yet. *)
Lemma import_hourly_data_outcome (e : EPW) (fs : gmap string string)
    (rows : list string) (n : nat) (headers : list Header)
    (table : list (list value)) :
  n = Nat.min (length (split_commas (strip (List.hd EmptyString rows)))) 35 ->
  _data e = [] ->
  traverse field_header (xrange n) = Ok headers ->
  traverse (decode_row n) rows = Ok table ->
  Forall (fun line => line <> EmptyString) rows ->
  rows <> [] ->
  import_hourly_data rows {| obj := e; files := fs |}
  = (Ok tt,
     {| obj := assign_is_data_loaded true
                 (assign_data (imported headers table)
                    (assign_num_of_fields n e));
        files := fs |}).
Proof.
  intros Hn Hdata Hheaders Htable Hrows Hsome.
  destruct e as [fp hl dl ip data hs leap num]. cbn in Hdata. subst data.
  destruct (traverse_lookup _ _ _ Hheaders) as [Hlen _].
  unfold xrange in Hlen. rewrite length_seq in Hlen.
  destruct (table_rows _ _ _ Htable) as [Hlength Hall].
  unfold import_hourly_data. cbv zeta. rewrite <- Hn.
  clear Hn. subst n.
  unfold St.bind, on_obj, on_data, St.modify.
  cbn [obj files _data assign_num_of_fields assign_data].
  rewrite (create_headers_outcome _ headers [] Hheaders). cbn [app].
  cbn [obj files _data assign_num_of_fields assign_data].
  rewrite (collect_outcome _ rows table) by
    (rewrite ?length_map; assumption || lia).
  cbn [obj files _data assign_num_of_fields assign_data].
  rewrite collected_series.
  rewrite shift_fields_headers_prefix by apply series_of_headers.
  assert (Hsome' : table <> []).
  { intros ->. destruct rows; [contradiction|discriminate]. }
  rewrite (shift_series _ _ Hall Hsome').
  cbn [obj files _data assign_num_of_fields assign_data].
  rewrite build_collections_same.
  - reflexivity.
  - unfold imported. rewrite length_map, series_of_length. lia.
  - intros i coll Hi. unfold imported, series_of.
    rewrite list_lookup_fmap, list_lookup_imap.
    destruct (headers !! i) as [h|]; [|discriminate].
    cbn [fmap option_fmap option_map header]. intros [= <-].
    now destruct (DataType.point_in_time _).
Qed.

Lemma readlines_lines (text : string) :
  Forall (fun line => line <> EmptyString) (readlines text).
Proof.
  induction text as [|c text IH]; [constructor|].
  cbn [readlines]. destruct (Str.code c =? 10)%N.
  - now constructor.
  - destruct (readlines text) as [|line lines].
    + now repeat constructor.
    + apply Forall_cons in IH as [_ IH]. now constructor.
Qed.

(** [_import_data()] on a new object for a file of the store. *)
Lemma _import_data_outcome (path content : string)
    (fs : gmap string string) (hs : header_state) (leap : bool) (n : nat)
    (headers : list Header) (table : list (list value)) :
  fs !! path = Some content ->
  endswith (lower path) "epw" = true ->
  parse_header (take 8 (readlines content)) header_state_init
  = Ok (hs, leap) ->
  n = Nat.min
        (length (split_commas
                   (strip (List.hd EmptyString (drop 8 (readlines content))))))
        35 ->
  traverse field_header (xrange n) = Ok headers ->
  traverse (decode_row n) (drop 8 (readlines content)) = Ok table ->
  table <> [] ->
  _import_data false {| obj := EPW__init__ (Some path); files := fs |}
  = (Ok tt,
     {| obj := {| _file_path := Some path; _is_header_loaded := true;
                  _is_data_loaded := true; _is_ip := false;
                  _data := imported headers table; _header_state := hs;
                  _is_leap_year := leap; _num_of_fields := n |};
        files := fs |}).
Proof.
  intros Hfile Hext Hparse Hn Hheaders Htable Hsome.
  unfold _import_data, EPW__init__.
  unfold St.bind at 1. unfold self at 1. cbn [obj].
  unfold St.bind at 1. unfold St.get at 1.
  cbn [_file_path files]. rewrite Hfile.
  unfold St.bind at 1. unfold St.assert_ at 1. rewrite Hext.
  cbn [_is_header_loaded negb _header_state]. rewrite Hparse.
  unfold St.bind, St.lift, on_obj, St.modify.
  cbn [obj files fst snd assign_header_state assign_is_leap_year
       assign_is_header_loaded _file_path _is_header_loaded _is_data_loaded
       _is_ip _data _header_state _is_leap_year _num_of_fields].
  erewrite import_hourly_data_outcome; try eassumption; try reflexivity.
  - apply Forall_drop, readlines_lines.
  - intros Hrows. rewrite Hrows in Htable. now injection Htable as <-.
Qed.

End Loops.

(** *** [save] on every object *)

Section SaveAll.

Import St St_facts.

Context `{DataTypeModules} `{Environment}.

Lemma keeps_on_data {A} (m : St.t Data A) :
  keeps (fun w : World => _is_header_loaded (obj w)) (on_data m).
Proof.
  intros w r w'. unfold on_data. destruct (m _) as [r' d].
  now intros [= <- <-].
Qed.

Lemma import_hourly_data_flags (lines : list string) (w w' : World) u :
  import_hourly_data lines w = (Ok u, w') ->
  _is_data_loaded (obj w') = true
  /\ _is_header_loaded (obj w') = _is_header_loaded (obj w).
Proof.
  intros Himport. split.
  - unfold import_hourly_data in Himport. cbv zeta in Himport.
    repeat (apply bind_Ok in Himport as (? & ? & _ & Himport)).
    unfold on_obj, St.modify in Himport. now injection Himport as _ <-.
  - change ((fun w : World => _is_header_loaded (obj w)) w'
            = (fun w : World => _is_header_loaded (obj w)) w).
    assert (Hk : keeps (fun w : World => _is_header_loaded (obj w))
                  (import_hourly_data lines)).
    { unfold import_hourly_data. cbv zeta.
      keeps_with ltac:(first [apply keeps_on_data
                             | apply keeps_modify; intros []; reflexivity]). }
    exact (Hk _ _ _ Himport).
Qed.

Lemma _import_data_flags (w w' : World) u :
  _import_data false w = (Ok u, w') ->
  _is_data_loaded (obj w') = true /\ _is_header_loaded (obj w') = true.
Proof.
  unfold _import_data. unfold St.bind at 1. unfold self at 1.
  unfold St.bind at 1. unfold St.get at 1.
  destruct (_file_path (obj w)) as [path|]; [|discriminate].
  destruct (files w !! path) as [content|]; [|discriminate].
  intros Hrun.
  apply bind_Ok in Hrun as (u1 & w1 & Hassert & Hrun).
  apply bind_Ok in Hrun as (u2 & w2 & Hheader & Hrun).
  apply import_hourly_data_flags in Hrun as [Hdata Hflag].
  split; [exact Hdata|]. rewrite Hflag.
  unfold St.assert_ in Hassert.
  destruct (endswith _ _); [|discriminate]. injection Hassert as _ <-.
  destruct (_is_header_loaded (obj w)) eqn:Hloaded; cbn [negb] in Hheader.
  - unfold St.ret in Hheader. now injection Hheader as _ <-.
  - repeat (apply bind_Ok in Hheader as (? & ? & _ & Hheader)).
    unfold on_obj, St.modify in Hheader. now injection Hheader as _ <-.
Qed.

(** [save] on an object whose data are not loaded: the import comes
    first, and what it raises is what [save] raises. *)
Lemma save_unloaded (w : World) (path : string) :
  _is_data_loaded (obj w) = false ->
  save path w
  = match _import_data false w with
    | (Ok _, w') => save path w'
    | (Raise x, w') => (Raise x, w')
    end.
Proof.
  intros Hdata. unfold save at 1.
  rewrite (bind_eq self _ w w (obj w)) by reflexivity. cbn beta.
  rewrite Hdata. cbn [negb].
  destruct (_import_data false w) as [[u|x] w'] eqn:Himport.
  - rewrite (bind_eq _ _ _ _ _ Himport).
    destruct (_import_data_flags _ _ _ Himport) as [Hloaded _].
    symmetry. unfold save at 1.
    rewrite (bind_eq self _ w' w' (obj w')) by reflexivity.
    cbn beta. rewrite Hloaded. cbn [negb].
    now rewrite (bind_eq (St.ret tt) _ w' w' tt) by reflexivity.
  - now rewrite (bind_raise_eq _ _ _ _ _ Himport).
Qed.

(** A file with no line after the header: the import makes one field of
    the empty first line, whose list of values stays empty, and the
    [pop()] of the hour shift raises [IndexError]. *)
Lemma _import_data_no_rows (path content : string)
    (fs : gmap string string) (hs : header_state) (leap : bool) :
  fs !! path = Some content ->
  endswith (lower path) "epw" = true ->
  parse_header (take 8 (readlines content)) header_state_init
  = Ok (hs, leap) ->
  drop 8 (readlines content) = [] ->
  _import_data false {| obj := EPW__init__ (Some path); files := fs |}
  = (Raise IndexError,
     {| obj := {| _file_path := Some path; _is_header_loaded := true;
                  _is_data_loaded := false; _is_ip := false;
                  _data := [ {| header := {| data_type := generic "Year" "yr";
                                             header_unit := Some "yr" |};
                                _values := [] |} ];
                  _header_state := hs; _is_leap_year := leap;
                  _num_of_fields := 1 |};
        files := fs |}).
Proof.
  intros Hfile Hext Hparse Hrows.
  unfold _import_data, EPW__init__.
  unfold St.bind at 1. unfold self at 1. cbn [obj].
  unfold St.bind at 1. unfold St.get at 1.
  cbn [_file_path files]. rewrite Hfile.
  unfold St.bind at 1. unfold St.assert_ at 1. rewrite Hext.
  cbn [_is_header_loaded negb _header_state]. rewrite Hparse, Hrows.
  vm_compute. reflexivity.
Qed.

Lemma split_commas_length (s : string) :
  (1 <= length (split_commas s))%nat.
Proof.
  induction s as [|c r IH]; cbn; [lia|].
  destruct (_ =? _)%N; cbn; [lia|].
  destruct (split_commas r); cbn; lia.
Qed.

(** [save] on a new object for a file with fewer rows than the year has
    hours: the import returns, the data lines cannot be made, and [save]
    raises [ValueError] with the object as the import made it. *)
Lemma save_imported_short (path out content : string)
    (fs : gmap string string) (hs : header_state) (leap : bool)
    (hl : list string) (n : nat) (table : list (list value)) :
  fs !! path = Some content ->
  endswith (lower path) "epw" = true ->
  parse_header (take 8 (readlines content)) header_state_init
  = Ok (hs, leap) ->
  n = Nat.min
        (length (split_commas
                   (strip (List.hd EmptyString (drop 8 (readlines content))))))
        35 ->
  traverse (decode_row n) (drop 8 (readlines content)) = Ok table ->
  table <> [] ->
  (length table < length (datetimes leap))%nat ->
  header_lines hs leap = Ok hl ->
  exists e,
    _import_data false {| obj := EPW__init__ (Some path); files := fs |}
    = (Ok tt, {| obj := e; files := fs |})
    /\ save out {| obj := EPW__init__ (Some path); files := fs |}
       = (Raise ValueError, {| obj := e; files := fs |}).
Proof.
  intros Hfile Hext Hparse Hn Htable Hsome Hshort Hhl.
  destruct (field_headers n) as [headers Hheaders].
  { rewrite Hn. apply Nat.le_min_r. }
  destruct (traverse_lookup _ _ _ Hheaders) as [Hlen _].
  unfold xrange in Hlen. rewrite length_seq in Hlen.
  destruct (table_rows _ _ _ Htable) as [_ Hall].
  assert (Hpos : (0 < n)%nat).
  { rewrite Hn. pose proof (split_commas_length
      (strip (List.hd EmptyString (drop 8 (readlines content))))). lia. }
  pose proof (_import_data_outcome path content fs hs leap n headers table
                Hfile Hext Hparse Hn Hheaders Htable Hsome) as Himport.
  eexists. split; [exact Himport|].
  rewrite save_unloaded by reflexivity. rewrite Himport.
  rewrite save_loaded by reflexivity.
  cbn [_header_state _is_leap_year]. rewrite Hhl.
  unfold in_si. cbn [_is_ip].
  rewrite save_statement_outcome by reflexivity.
  cbn [_num_of_fields _data _is_leap_year].
  rewrite <- Hlen in Hall.
  rewrite <- Hlen, (shift_imported _ _ Hall Hsome).
  destruct (lookup_lt_is_Some_2 headers 0%nat) as [h Hh]; [lia|].
  rewrite (data_lines_short _ _ _ 0%nat
             {| header := h; _values := column 0 table |}).
  - reflexivity.
  - lia.
  - unfold series_of. now rewrite list_lookup_imap, Hh.
  - cbn [_values].
    rewrite (column_length (length headers)) by (assumption || lia).
    exact Hshort.
Qed.

(** C2, as the code has it. [save] imports the file first when the data
    are not loaded: what the import raises is what [save] raises, with
    the object as the import left it, and when the import returns the
    data and the header are loaded and [save] goes on as on that object.
    On an object whose data and header are loaded, [save] leaves every
    series in the order it had, on every exit path, a failed write
    included: the data are those of the object before the call, but for
    the conversion of units of an object in IP mode; and when the first
    [_num_of_fields] series exist, no point-in-time series among them is
    empty, and one of them is shorter than the year, [save] raises
    [ValueError]. So it is for a new object whose file has at least one
    row of data and fewer rows than the year has hours: [save] raises
    [ValueError] and leaves the object as the import made it and the files
    as they were. For a new object whose file has no row after the header,
    [save] raises the [IndexError] of the import, before its [try]
    statement is reached. *)
Theorem save_restores_alignment
    (e : EPW) (fs : gmap string string) (path : string) :
  (_is_data_loaded e = false ->
   save path {| obj := e; files := fs |}
   = match _import_data false {| obj := e; files := fs |} with
     | (Ok _, w') => save path w'
     | (Raise x, w') => (Raise x, w')
     end
   /\ forall u w',
        _import_data false {| obj := e; files := fs |} = (Ok u, w') ->
        _is_data_loaded (obj w') = true
        /\ _is_header_loaded (obj w') = true)
  /\ (_is_data_loaded e = true -> _is_header_loaded e = true ->
      _data (obj (snd (save path {| obj := e; files := fs |})))
      = match fst (save path {| obj := e; files := fs |}) with
        | Ok _ => if _is_ip e then _data (in_ip (in_si e)) else _data e
        | Raise _ => _data (in_si e)
        end
      /\ forall (lines : list string) (field : nat)
           (coll : HourlyContinuousCollection),
           header_lines (_header_state e) (_is_leap_year e) = Ok lines ->
           (_num_of_fields e <= length (_data (in_si e)))%nat ->
           Forall (fun coll =>
                     DataType.point_in_time (data_type (header coll)) = true ->
                     _values coll <> [])
             (take (_num_of_fields e) (_data (in_si e))) ->
           (field < _num_of_fields e)%nat ->
           _data (in_si e) !! field = Some coll ->
           (length (_values coll) < length (datetimes (_is_leap_year e)))%nat ->
           fst (save path {| obj := e; files := fs |}) = Raise ValueError)
  /\ (forall (source content : string) (hs : header_state) (leap : bool),
        e = EPW__init__ (Some source) ->
        fs !! source = Some content ->
        endswith (lower source) "epw" = true ->
        parse_header (take 8 (readlines content)) header_state_init
        = Ok (hs, leap) ->
        (forall (hl : list string) (n : nat) (table : list (list value)),
           n = Nat.min
                 (length (split_commas
                    (strip (List.hd EmptyString
                              (drop 8 (readlines content)))))) 35 ->
           traverse (decode_row n) (drop 8 (readlines content)) = Ok table ->
           table <> [] ->
           (length table < length (datetimes leap))%nat ->
           header_lines hs leap = Ok hl ->
           exists e',
             _import_data false {| obj := e; files := fs |}
             = (Ok tt, {| obj := e'; files := fs |})
             /\ save path {| obj := e; files := fs |}
                = (Raise ValueError, {| obj := e'; files := fs |}))
        /\ (drop 8 (readlines content) = [] ->
            exists e',
              save path {| obj := e; files := fs |}
              = (Raise IndexError, {| obj := e'; files := fs |})
              /\ _is_data_loaded e' = false
              /\ Forall (fun coll => _values coll = []) (_data e'))).
Proof.
  split; [|split].
  { intros Hdata. split; [now apply save_unloaded|].
    intros u w' Himport. exact (_import_data_flags _ _ _ Himport). }
  { intros Hdata Hheader. split.
    - rewrite save_object by assumption.
      destruct (fst (save _ _)); [|reflexivity]. now destruct (_is_ip e).
    - intros lines field coll Hlines Hnum Hall Hfield Hcoll Hshort.
      rewrite save_loaded by assumption. rewrite Hlines.
      destruct (in_si_fields e) as (Hl & Hn & Hy & _).
      rewrite save_statement_outcome by now rewrite Hl.
      rewrite Hn, Hy.
      pose proof (shift_prefix_Ok _ _ Hnum Hall) as Hshift.
      destruct (shift_prefix_lookup (_num_of_fields e) _ _ _ Hcoll)
        as (coll' & Hcoll' & Hlen).
      destruct (shift_prefix _ _ _) as [[u|x] shifted]; [|discriminate].
      cbn [snd] in Hcoll'.
      rewrite (data_lines_short shifted _ _ field coll') by
        (assumption || lia).
      reflexivity. }
  intros source content hs leap -> Hfile Hext Hparse. split.
  - intros hl n table Hn Htable Hsome Hshort Hhl.
    now apply (save_imported_short source path content fs hs leap hl n table).
  - intros Hrows. eexists.
    rewrite save_unloaded by reflexivity.
    rewrite (_import_data_no_rows source content fs hs leap) by assumption.
    split; [reflexivity|]. split; [reflexivity|].
    cbn [_data]. now repeat constructor.
Qed.

End SaveAll.

#[local] Existing Instance sample.modules.
#[local] Existing Instance sample.environment.

(** [save] on a new object for the file of nine columns and three hours:
    [ValueError], and the object is the one that the import makes. *)
Lemma save_restores_alignment_witness :
  save "out.epw" sample.short_world
  = (Raise ValueError,
     {| obj := sample.short_epw; files := files sample.short_world |}).
Proof.
  destruct (save_restores_alignment (EPW__init__ (Some "short.epw"))
              (files sample.short_world) "out.epw")
    as (_ & _ & Hnew).
  destruct (Hnew "short.epw" sample.short_file tt false
              eq_refl eq_refl eq_refl eq_refl) as [Hshort _].
  pose (table :=
          [[Number (Int 2017); Number (Int 1); Number (Int 1);
            Number (Int 1); Number (Int 0); Text "?";
            Number (Float (15 # 10)); Number (Float (25 # 10));
            Number (Int 50)];
           [Number (Int 2017); Number (Int 1); Number (Int 1);
            Number (Int 2); Number (Int 0); Text "?";
            Number (Float (35 # 10)); Number (Float (45 # 10));
            Number (Int 60)];
           [Number (Int 2017); Number (Int 1); Number (Int 1);
            Number (Int 3); Number (Int 0); Text "?";
            Number (Float (55 # 10)); Number (Float (65 # 10));
            Number (Int 70)]]).
  assert (Hn : 9%nat
               = Nat.min
                   (length (split_commas
                      (strip (List.hd EmptyString
                                (drop 8 (readlines sample.short_file))))))
                   35) by (vm_compute; reflexivity).
  assert (Htable : traverse (decode_row 9)
                     (drop 8 (readlines sample.short_file)) = Ok table)
    by (vm_compute; reflexivity).
  assert (Hsome : table <> []) by discriminate.
  assert (Hlt : (length table < length (datetimes false))%nat)
    by (apply Nat.ltb_lt; vm_compute; reflexivity).
  destruct (Hshort sample.header_text 9%nat table Hn Htable Hsome Hlt
              eq_refl) as (e' & Himport & Hsave).
  unfold sample.short_epw.
  change sample.short_world
    with {| obj := EPW__init__ (Some "short.epw");
            files := files sample.short_world |}.
  rewrite Himport. cbn [obj snd files]. exact Hsave.
Defined.

(** C2 as stated fails: [save] on a new object for a file that ends with
    its header raises a raw [IndexError], that of [pop()] in
    [_import_data], and the one series that the import began is left with
    no value. *)
Lemma save_without_data_rows_raises_IndexError :
  _is_data_loaded (obj sample.header_only_world) = false
  /\ fst (save "out.epw" sample.header_only_world) = Raise IndexError
  /\ _data (obj (snd (save "out.epw" sample.header_only_world)))
     = [ {| header := {| data_type := generic "Year" "yr";
                         header_unit := Some "yr" |};
            _values := [] |} ].
Proof.
  split; [reflexivity|]. split; vm_compute; reflexivity.
Qed.




(** C4. [from_missing_values] returns an object that was given no file
    and is marked as loaded, with 35 series, each as long as the year:
    8760 hours, or 8784 hours for a leap year. Every value of a field
    from 6 to 34 is the missing value of the field, or 0 when the field
    declares none, and the fields from 0 to 5 hold the year, month, day,
    hour (24 for hour 0), minute 0 and uncertainty flags of each hour. *)
Theorem from_missing_values_series `{DataTypeModules} `{Environment}
    (leap : bool) :
  length (datetimes leap) = annual_hours leap ->
  exists e,
    from_missing_values leap = Ok e
    /\ _file_path e = None
    /\ _is_header_loaded e = true /\ _is_data_loaded e = true
    /\ _is_leap_year e = leap
    /\ length (_data e) = 35%nat
    /\ (forall coll, coll ∈ _data e ->
          length (_values coll) = annual_hours leap)
    /\ (forall k, (6 <= k < 35)%nat ->
          exists field coll,
            field_by_number (Z.of_nat k) = Ok field
            /\ _data e !! k = Some coll
            /\ header coll
               = {| data_type := name field; header_unit := unit field |}
            /\ _values coll
               = replicate (annual_hours leap)
                   (Number (default (Int 0) (missing field))))
    /\ (forall k, (k < 6)%nat ->
          exists coll,
            _data e !! k = Some coll
            /\ _values coll = map (date_column k) (datetimes leap)).
Proof.
  intros Hyear. destruct (field_headers 35) as [hs Hhs]; [lia|].
  destruct (traverse_lookup _ _ _ Hhs) as [Hlen Hlook].
  unfold xrange in Hlen, Hlook. rewrite length_seq in Hlen.
  unfold from_missing_values. cbn [_data EPW__init__ assign_is_leap_year
    assign_header_state].
  rewrite (missing_data_outcome leap hs Hhs).
  eexists. split; [reflexivity|].
  cbn [_file_path _is_header_loaded _is_data_loaded _is_leap_year _data
       assign_data assign_is_header_loaded assign_is_data_loaded].
  do 4 (split; [reflexivity|]).
  split; [now rewrite !updated_length, length_map|].
  assert (Hseries : forall k, (k < 35)%nat ->
            exists h,
              field_header k = Ok h
              /\ updated 6 29
                   (fun k coll =>
                      with_values
                        (_values coll
                         ++ replicate (length (datetimes leap))
                              (missing_value k)) coll)
                   (updated 0 6
                      (fun k coll =>
                         with_values
                           (_values coll
                            ++ map (date_column k) (datetimes leap)) coll)
                      (map empty_series hs)) !! k
                 = Some
                     {| header := h;
                        _values :=
                          if (k <? 6)%nat
                          then map (date_column k) (datetimes leap)
                          else replicate (length (datetimes leap))
                                 (missing_value k) |}).
  { intros k Hk.
    destruct (Hlook k k) as (h & Hh & Hfield).
    { rewrite lookup_seq. split; [reflexivity|lia]. }
    exists h. split; [exact Hfield|].
    rewrite !updated_lookup, list_lookup_fmap, Hh.
    unfold empty_series, with_values. range_split; reflexivity. }
  split; [|split].
  - intros coll Hcoll. apply list_elem_of_lookup in Hcoll as [k Hk].
    assert (k < 35)%nat as Hk35.
    { apply lookup_lt_Some in Hk.
      now rewrite !updated_length, length_map, Hlen in Hk. }
    destruct (Hseries k Hk35) as (h & _ & Hk').
    rewrite Hk' in Hk. injection Hk as <-. cbn [_values].
    destruct (k <? 6)%nat; now rewrite ?length_map, ?length_replicate.
  - intros k Hk. destruct (Hseries k) as (h & Hh & Hk'); [lia|].
    unfold field_header in Hh. unfold missing_value in Hk'.
    destruct (field_by_number (Z.of_nat k)) as [field|]; [|discriminate].
    injection Hh as <-. exists field. eexists.
    split; [reflexivity|]. split; [exact Hk'|].
    split; [reflexivity|]. cbn [_values].
    destruct (Nat.ltb_spec k 6); [lia|]. now rewrite Hyear.
  - intros k Hk. destruct (Hseries k) as (h & Hh & Hk'); [lia|].
    eexists. split; [exact Hk'|]. cbn [_values].
    destruct (Nat.ltb_spec k 6); [reflexivity|lia].
Qed.

Lemma from_missing_values_series_witness :
  length (datetimes false) = annual_hours false
  /\ exists e,
       from_missing_values false = Ok e
       /\ length (_data e) = 35%nat
       /\ (forall coll, coll ∈ _data e ->
             length (_values coll) = annual_hours false).
Proof.
  assert (Hyear : length (datetimes false) = annual_hours false)
    by (vm_compute; reflexivity).
  split; [exact Hyear|].
  destruct (from_missing_values_series false Hyear)
    as (e & He & _ & _ & _ & _ & Hlen & Hhours & _).
  exists e. split; [exact He|]. split; [exact Hlen|exact Hhours].
Defined.



End epw_facts.

(** ** Access to the series, unit systems and files of an [EPW] *)

Module epw_access_facts.

Import epw epw_facts.

Section Access.

Context `{DataTypeModules} `{Environment}.

(** X15. On an object whose data are loaded and hold the first
    [_num_of_fields] series, [_get_data_by_field] returns series [k] for a
    number [k] from 0 to [_num_of_fields - 1], raises [ValueError] for every
    other number, a negative one included, and leaves the object and the
    files as they are. *)
Theorem _get_data_by_field_range (e : EPW) (fs : gmap string string)
    (k : Z) :
  _is_data_loaded e = true ->
  (_num_of_fields e <= length (_data e))%nat ->
  (0 <= k < Z.of_nat (_num_of_fields e) ->
   exists coll,
     _data e !! Z.to_nat k = Some coll
     /\ _get_data_by_field k {| obj := e; files := fs |}
        = (Ok coll, {| obj := e; files := fs |}))
  /\ (~ (0 <= k < Z.of_nat (_num_of_fields e)) ->
      _get_data_by_field k {| obj := e; files := fs |}
      = (Raise ValueError, {| obj := e; files := fs |})).
Proof.
  intros Hloaded Hlen.
  unfold _get_data_by_field, St.bind, self, St.ret, St.raise, St.lift.
  cbn [obj]. rewrite Hloaded. cbn [negb obj].
  split.
  - intros Hk.
    destruct (lookup_lt_is_Some_2 (_data e) (Z.to_nat k)) as [coll Hcoll];
      [lia|].
    exists coll. split; [exact Hcoll|].
    destruct (Z.leb_spec 0 k); [|lia].
    destruct (Z.ltb_spec k (Z.of_nat (_num_of_fields e))); [|lia].
    cbn [andb negb]. unfold item. now rewrite Hcoll.
  - intros Hk.
    destruct (Z.leb_spec 0 k); [|reflexivity].
    destruct (Z.ltb_spec k (Z.of_nat (_num_of_fields e))); [lia|reflexivity].
Qed.

(** X16. On an object whose data are loaded, [convert_to_ip] converts every
    series when the object is in SI mode and changes nothing when it is in
    IP mode already, so a second call changes nothing; likewise for
    [convert_to_si]. *)
Theorem convert_twice (e : EPW) (fs : gmap string string) :
  _is_data_loaded e = true ->
  convert_to_ip {| obj := e; files := fs |}
  = (Ok tt, {| obj := if _is_ip e then e else in_ip e; files := fs |})
  /\ convert_to_si {| obj := e; files := fs |}
     = (Ok tt, {| obj := in_si e; files := fs |})
  /\ convert_to_ip (snd (convert_to_ip {| obj := e; files := fs |}))
     = convert_to_ip {| obj := e; files := fs |}
  /\ convert_to_si (snd (convert_to_si {| obj := e; files := fs |}))
     = convert_to_si {| obj := e; files := fs |}.
Proof.
  intros Hloaded. destruct e as [fp hl dl ip data hs leap num].
  cbn in Hloaded. subst dl.
  unfold convert_to_ip, convert_to_si, in_ip, in_si.
  unfold St.bind, self, on_data, on_obj, St.ret, St.modify.
  destruct ip; cbn; repeat split; reflexivity.
Qed.

(** X17. On an object whose data and header are loaded, a [save] that raises
    leaves every file as it was, and a [save] that returns gives back its
    path and has written that file and no other. *)
Theorem save_files (e : EPW) (fs : gmap string string) (path : string) :
  _is_data_loaded e = true -> _is_header_loaded e = true ->
  match fst (save path {| obj := e; files := fs |}) with
  | Raise _ => files (snd (save path {| obj := e; files := fs |})) = fs
  | Ok p =>
      p = path
      /\ is_Some (files (snd (save path {| obj := e; files := fs |})) !! path)
      /\ forall other, other <> path ->
           files (snd (save path {| obj := e; files := fs |})) !! other
           = fs !! other
  end.
Proof.
  intros Hdata Hheader. rewrite save_loaded by assumption.
  destruct (header_lines _ _) as [lines|x]; [|reflexivity].
  destruct (in_si_fields e) as (Hl & _).
  rewrite save_statement_outcome by now rewrite Hl.
  destruct (shift_prefix _ _ _) as [[u|x] shifted]; [|reflexivity].
  destruct (traverse _ _) as [data_lines|x]; [|reflexivity].
  destruct (writable path); [|reflexivity].
  cbn [fst snd files]. split; [reflexivity|]. split.
  - rewrite lookup_insert_eq. now eexists.
  - intros other Hother. now rewrite lookup_insert_ne.
Qed.

Lemma _get_data_by_field_loaded (e : EPW) (fs : gmap string string)
    (k : Z) :
  _is_data_loaded e = true ->
  _get_data_by_field k {| obj := e; files := fs |}
  = (if (0 <=? k)%Z && (k <? Z.of_nat (_num_of_fields e))%Z
     then item (_data e) (Z.to_nat k)
     else Raise ValueError,
     {| obj := e; files := fs |}).
Proof.
  intros Hloaded.
  unfold _get_data_by_field, St.bind, self, St.ret, St.raise, St.lift.
  cbn [obj]. rewrite Hloaded. cbn [negb obj].
  now destruct (_ && _).
Qed.

(** X18. Every field of the object that [from_missing_values] returns can be
    read: for a number from 0 to 34 [_get_data_by_field] returns a series
    with the header of that field and one value per hour of the year. *)
Theorem from_missing_values_fields (leap : bool) (fs : gmap string string)
    (k : Z) :
  0 <= k < 35 ->
  exists e field coll,
    from_missing_values leap = Ok e
    /\ field_by_number k = Ok field
    /\ _get_data_by_field k {| obj := e; files := fs |}
       = (Ok coll, {| obj := e; files := fs |})
    /\ header coll = {| data_type := name field; header_unit := unit field |}
    /\ length (_values coll) = length (datetimes leap).
Proof.
  intros Hk. destruct (field_headers 35) as [hs Hhs]; [lia|].
  destruct (traverse_lookup _ _ _ Hhs) as [Hlen Hlook].
  unfold xrange in Hlen, Hlook. rewrite length_seq in Hlen.
  destruct (Hlook (Z.to_nat k) (Z.to_nat k)) as (h & Hh & Hfield).
  { rewrite lookup_seq. split; [reflexivity|lia]. }
  unfold field_header in Hfield. rewrite Z2Nat.id in Hfield by lia.
  destruct (field_by_number k) as [field|]; [|discriminate].
  injection Hfield as <-.
  unfold from_missing_values. cbn [_data EPW__init__ assign_is_leap_year
    assign_header_state].
  rewrite (missing_data_outcome leap hs Hhs).
  eexists. exists field. eexists.
  split; [reflexivity|]. split; [reflexivity|].
  rewrite _get_data_by_field_loaded by reflexivity.
  cbn [_num_of_fields _data assign_data assign_is_header_loaded
       assign_is_data_loaded assign_header_state assign_is_leap_year
       EPW__init__].
  destruct (Z.leb_spec 0 k); [|lia].
  destruct (Z.ltb_spec k (Z.of_nat 35)); [|lia].
  cbn [andb]. unfold item.
  rewrite !updated_lookup, list_lookup_fmap, Hh.
  cbn [fmap option_fmap option_map].
  split; [reflexivity|].
  unfold empty_series, with_values.
  split; range_split; cbn [header _values app];
    rewrite ?length_map, ?length_replicate; reflexivity.
Qed.
(** X19. [_import_data] refuses an object with no file path ([TypeError]), a
    path at which there is no file and a path that does not end in [epw] in
    any letter case (both [AssertionError]), and then leaves the object and
    the files as they were. *)
Theorem _import_data_refused (e : EPW) (fs : gmap string string)
    (import_header_only : bool) :
  (_file_path e = None ->
   _import_data import_header_only {| obj := e; files := fs |}
   = (Raise TypeError, {| obj := e; files := fs |}))
  /\ (forall path,
        _file_path e = Some path -> fs !! path = None ->
        _import_data import_header_only {| obj := e; files := fs |}
        = (Raise AssertionError, {| obj := e; files := fs |}))
  /\ (forall path,
        _file_path e = Some path ->
        endswith (lower path) "epw" = false ->
        _import_data import_header_only {| obj := e; files := fs |}
        = (Raise AssertionError, {| obj := e; files := fs |})).
Proof.
  unfold _import_data, St.bind, self, St.get, St.raise, St.assert_.
  cbn [obj files]. repeat split.
  - now intros ->.
  - intros path -> Hnone. now rewrite Hnone.
  - intros path -> Hext. destruct (fs !! path); [|reflexivity].
    now rewrite Hext.
Qed.

End Access.

#[local] Existing Instance sample.modules.
#[local] Existing Instance sample.environment.

(** On the object imported from the file of nine columns: field 6 is
    returned, fields 34 and -1 are refused. *)
Lemma _get_data_by_field_range_witness :
  (exists coll,
     _data sample.short_epw !! Z.to_nat 6 = Some coll
     /\ _get_data_by_field 6 {| obj := sample.short_epw; files := ∅ |}
        = (Ok coll, {| obj := sample.short_epw; files := ∅ |}))
  /\ _get_data_by_field 34 {| obj := sample.short_epw; files := ∅ |}
     = (Raise ValueError, {| obj := sample.short_epw; files := ∅ |})
  /\ _get_data_by_field (-1) {| obj := sample.short_epw; files := ∅ |}
     = (Raise ValueError, {| obj := sample.short_epw; files := ∅ |}).
Proof.
  assert (Hloaded : _is_data_loaded sample.short_epw = true) by reflexivity.
  assert (Hlen : (_num_of_fields sample.short_epw
                  <= length (_data sample.short_epw))%nat)
    by (vm_compute; lia).
  assert (Hnum : Z.of_nat (_num_of_fields sample.short_epw) = 9)
    by (vm_compute; reflexivity).
  split; [|split].
  - apply (proj1 (_get_data_by_field_range sample.short_epw ∅ 6
                    Hloaded Hlen)).
    rewrite Hnum. lia.
  - apply (proj2 (_get_data_by_field_range sample.short_epw ∅ 34
                    Hloaded Hlen)).
    rewrite Hnum. lia.
  - apply (proj2 (_get_data_by_field_range sample.short_epw ∅ (-1)
                    Hloaded Hlen)).
    lia.
Defined.

Lemma convert_twice_witness :
  _is_data_loaded sample.short_epw = true
  /\ convert_to_ip
       (snd (convert_to_ip {| obj := sample.short_epw; files := ∅ |}))
     = convert_to_ip {| obj := sample.short_epw; files := ∅ |}.
Proof.
  assert (Hloaded : _is_data_loaded sample.short_epw = true) by reflexivity.
  split; [exact Hloaded|].
  destruct (convert_twice sample.short_epw ∅ Hloaded) as (_ & _ & Hip & _).
  exact Hip.
Defined.

(** The save of the three-hour object raises and writes nothing. *)
Lemma save_files_witness :
  _is_data_loaded sample.short_epw = true
  /\ _is_header_loaded sample.short_epw = true
  /\ files (snd (save "out.epw"
                   {| obj := sample.short_epw; files := ∅ |})) = ∅.
Proof.
  assert (Hdata : _is_data_loaded sample.short_epw = true) by reflexivity.
  assert (Hheader : _is_header_loaded sample.short_epw = true)
    by reflexivity.
  split; [exact Hdata|]. split; [exact Hheader|].
  pose proof (save_files sample.short_epw ∅ "out.epw" Hdata Hheader) as Hs.
  assert (Hfst : fst (save "out.epw"
                        {| obj := sample.short_epw; files := ∅ |})
                 = Raise ValueError) by (vm_compute; reflexivity).
  rewrite Hfst in Hs. exact Hs.
Defined.

(** The dry bulb temperatures of the object with no data. *)
Lemma from_missing_values_fields_witness :
  exists e field coll,
    from_missing_values false = Ok e
    /\ field_by_number 6 = Ok field
    /\ _get_data_by_field 6 {| obj := e; files := ∅ |}
       = (Ok coll, {| obj := e; files := ∅ |})
    /\ header coll
       = {| data_type := name field; header_unit := unit field |}
    /\ length (_values coll) = length (datetimes false).
Proof. apply (from_missing_values_fields false ∅ 6). lia. Defined.

Lemma _import_data_refused_witness :
  _import_data false
    {| obj := EPW__init__ (Some "weather.csv");
       files := {[ "weather.csv" := sample.short_file ]} |}
  = (Raise AssertionError,
     {| obj := EPW__init__ (Some "weather.csv");
        files := {[ "weather.csv" := sample.short_file ]} |}).
Proof.
  apply (proj2 (proj2 (_import_data_refused
                         (EPW__init__ (Some "weather.csv"))
                         {[ "weather.csv" := sample.short_file ]} false))
           "weather.csv"); reflexivity.
Defined.

End epw_access_facts.

